(** * The hybrid persistence layer of the scheduling board

    A shallow embedding of the data-access facade (the [apiService] module)
    of the Gantt scheduling application.  The repository carries several
    revisions of that module; the three that the properties below talk about
    are embedded side by side:

    - [ApiService] : [src/services/apiService.ts]
    - [Part000]    : [src/unnamed/part_000]
    - [Part002]    : [src/unnamed/part_002]

    An [async] function is a state-passing computation that ends either
    resolved with a value or rejected with the thrown value.  The mutable
    module variables ([supabase], [useSupabase]), the two [localStorage]
    entries and the console are the components of the threaded state. *)

From Stdlib Require Import ZArith List String Ascii Bool Lia DecimalString Permutation.
Import ListNotations.
Open Scope string_scope.
Open Scope Z_scope.

Set Implicit Arguments.

(** ** JavaScript values *)

(** A [Date] is its time value (milliseconds since the epoch). *)
Definition Date := Z.

Definition msPerDay : Z := 86400000.

(** [addDays] of [utils/dateUtils]: [setDate(getDate() + days)].  Calendar
    days are counted as 24 hours each. *)
Definition addDays (date : Date) (days : Z) : Date := date + days * msPerDay.

(** Template-literal rendering of the number returned by [Date.now()]. *)
Definition string_of_Z (z : Z) : string := NilZero.string_of_int (Z.to_int z).

(** A string is truthy when it is not empty. *)
Definition truthy (s : string) : bool := negb (s =? "")%string.

(** [a || b] on strings. *)
Definition or_else (a b : string) : string := if truthy a then a else b.

Definition lower_ascii (c : ascii) : ascii :=
  let n := nat_of_ascii c in
  if ((65 <=? n) && (n <=? 90))%nat then ascii_of_nat (n + 32) else c.

(** [String.prototype.toLowerCase], on the ASCII letters. *)
Fixpoint toLowerCase (s : string) : string :=
  match s with
  | EmptyString => EmptyString
  | String c r => String (lower_ascii c) (toLowerCase r)
  end.

(** [String.prototype.includes]. *)
Fixpoint includes (s sub : string) : bool :=
  prefix sub s ||
  match s with
  | EmptyString => false
  | String _ r => includes r sub
  end.

(** [Array.prototype.find] is [List.find]; [filter] and [map] are the list
    functions; [push] appends at the end. *)
Definition push {A} (l : list A) (x : A) : list A := l ++ [x].

(** In-place mutation of the element returned by [find]: the first element
    that satisfies [f] is replaced by its image under [g]. *)
Fixpoint update_first {A} (f : A -> bool) (g : A -> A) (l : list A) : list A :=
  match l with
  | [] => []
  | x :: r => if f x then g x :: r else x :: update_first f g r
  end.

(** ** The entities ([types.ts]) *)

Module Task.
Record t := mk {
  id : string;
  name : string;
  startDate : Date;
  endDate : Date;
  color : string;
  employeeId : string;
  progress : Z;
  description : option string   (* [description?: string] *)
}.
End Task.

(** Fields whose presence the code tests at run time ([p.tasks],
    [parsedData.projects], [parsedData.departments], ...) are optional;
    [None] is JavaScript's [undefined]. *)
Module Project.
Record t := mk {
  id : string;
  name : string;
  tasks : option (list Task.t)
}.
End Project.

Module Employee.
Record t := mk {
  id : string;
  name : string;
  departmentId : string
}.
End Employee.

Module Department.
Record t := mk {
  id : string;
  name : string;
  employees : list Employee.t
}.
End Department.

(** [interface AppData]: the unit of persistence of the local backend. *)
Module AppData.
Record t := mk {
  projects : option (list Project.t);
  departments : option (list Department.t);
  employees : option (list Employee.t)
}.
End AppData.

(** [Partial<Task>]: the patch of [updateTask].  [None] is a key the caller
    did not supply. *)
Module TaskPatch.
Record t := mk {
  id : option string;
  name : option string;
  startDate : option Date;
  endDate : option Date;
  color : option string;
  employeeId : option string;
  progress : option Z;
  description : option string
}.
Definition empty : t := mk None None None None None None None None.
End TaskPatch.

(** [Omit<Task, 'id' | 'color' | 'progress'>]: the argument of [addTask]. *)
Module TaskData.
Record t := mk {
  name : string;
  startDate : Date;
  endDate : Date;
  employeeId : string;
  description : option string
}.
End TaskData.

Definition override {A} (patch : option A) (old : A) : A :=
  match patch with Some v => v | None => old end.

(** [Object.assign(task, taskUpdate)]: every supplied key overwrites. *)
Definition assign (task : Task.t) (u : TaskPatch.t) : Task.t :=
  Task.mk
    (override (TaskPatch.id u) (Task.id task))
    (override (TaskPatch.name u) (Task.name task))
    (override (TaskPatch.startDate u) (Task.startDate task))
    (override (TaskPatch.endDate u) (Task.endDate task))
    (override (TaskPatch.color u) (Task.color task))
    (override (TaskPatch.employeeId u) (Task.employeeId task))
    (override (TaskPatch.progress u) (Task.progress task))
    (match TaskPatch.description u with
     | Some d => Some d
     | None => Task.description task
     end).

(** [{ id: taskId, ...taskUpdate } as Task]: the value the remote branch
    of [updateTask] resolves with; keys the patch lacks stay undefined. *)
Module PartialTask.
Record t := mk { id : string; rest : TaskPatch.t }.
End PartialTask.

(** [{ id, ...taskData, color, progress: 0 }]. *)
Definition newTask (id : string) (d : TaskData.t) (color : string) : Task.t :=
  Task.mk id (TaskData.name d) (TaskData.startDate d) (TaskData.endDate d)
          color (TaskData.employeeId d) 0 (TaskData.description d).

(** ** The remote backend

    The Supabase client is an external collaborator.  Its rows, the
    requests the module sends and the [{ data, error }] answers are
    modelled; what the backend does with a request is not. *)

Module PostgrestError.
Record t := mk {
  code : option string;
  message : option string
}.
End PostgrestError.

Module ProjectRow.
Record t := mk { id : string; name : string }.
End ProjectRow.

Module TaskRow.
Record t := mk {
  id : string;
  project_id : string;
  name : string;
  start_date : string;
  end_date : string;
  color : string;
  employee_id : string;
  progress : Z;
  description : option string
}.
End TaskRow.

Module DepartmentRow.
Record t := mk { id : string; name : string }.
End DepartmentRow.

Module EmployeeRow.
Record t := mk { id : string; name : string; department_id : string }.
End EmployeeRow.

(** The [updates] object that [updateTask] builds for the [tasks] table. *)
Module TaskUpdates.
Record t := mk {
  name : option string;
  start_date : option string;
  end_date : option string;
  employee_id : option string;
  progress : option Z;
  description : option string
}.
End TaskUpdates.

Module Response.
Record t (A : Type) := mk {
  data : option A;
  error : option PostgrestError.t
}.
Arguments mk {A} _ _.
Arguments data {A} _.
Arguments error {A} _.
Definition ok {A} (a : A) : t A := mk (Some a) None.
Definition failed {A} (e : PostgrestError.t) : t A := mk None (Some e).
End Response.

(** The write requests ([insert], [update], [delete], [upsert]). *)
Inductive Write : Type :=
  | InsertDepartment (id name : string)
  | DeleteDepartment (id : string)
  | InsertEmployee (id name department_id : string)
  | DeleteEmployee (id : string)
  | InsertProject (id name : string) (position : option Z)
  | UpdateProjectName (id name : string)
  | DeleteProject (id : string)
  | InsertTask (row : TaskRow.t) (position : option Z)
  | UpdateTask (id : string) (updates : TaskUpdates.t)
  | DeleteTask (id : string)
  | UpsertProjects (rows : list (string * string * Z))
  | UpsertTaskPositions (rows : list (string * string * Z)).

(** The answers of the backend to the requests of one call.  The [list
    string] of a select is its [.order(...)] chain. *)
Module Backend.
Record t := mk {
  selectProjects : list string -> Response.t (list ProjectRow.t);
  selectTasks : list string -> Response.t (list TaskRow.t);
  selectDepartments : list string -> Response.t (list DepartmentRow.t);
  selectEmployees : list string -> Response.t (list EmployeeRow.t);
  write : Write -> option PostgrestError.t
}.
End Backend.

(** [data || []]. *)
Definition or_empty {A} (d : option (list A)) : list A :=
  match d with Some l => l | None => [] end.

(** ** Thrown values, the state and the computation monad *)

Inductive Thrown : Type :=
  | BackendError (e : PostgrestError.t)   (* [throw error] *)
  | JsError (msg : string)                (* [throw new Error(msg)] *)
  | SyntaxError                           (* [JSON.parse] of a malformed text *)
  | TypeError.                            (* a member access on [undefined] or [null] *)

Inductive LogEntry : Type :=
  | console_warn (msg : string)
  | console_error (label : string) (err : option Thrown)
  | console_log (msg : string).

(** The text kept under [DATA_KEY], by what [JSON.parse] makes of it:
    [null]; a number, a string or a boolean; an array; or an object, read
    through its members [projects], [departments] and [employees], each an
    array of records or missing.  A primitive and an array carry their
    JSON text: they have none of the three members, and [JSON.stringify]
    gives that text back.  A serialised [Date] is identified with the date
    it parses back to, so [JSON.stringify] followed by [JSON.parse] and the
    conversion of the dates is the identity. *)
Inductive Parsed : Type :=
  | PNull
  | PPrimitive (json : string)
  | PArray (json : string)
  | PDoc (d : AppData.t).

Inductive RawData : Type :=
  | NoItem                  (* [getItem] returns [null] *)
  | EmptyText               (* the empty string *)
  | BadJson                 (* [JSON.parse] throws *)
  | JsonText (v : Parsed).

Definition Client : Type := (string * string)%type.

Module State.
Record t := mk {
  supabase : option Client;
  useSupabase : bool;
  dataItem : RawData;                       (* [localStorage[DATA_KEY]] *)
  configItem : option (string * string);    (* [localStorage[SUPABASE_CONFIG_KEY]] *)
  console : list LogEntry
}.
End State.

Inductive Outcome (A : Type) : Type :=
  | Resolved (a : A)
  | Rejected (e : Thrown).
Arguments Resolved {A} _.
Arguments Rejected {A} _.

Definition M (A : Type) : Type := State.t -> Outcome A * State.t.

Definition ret {A} (a : A) : M A := fun s => (Resolved a, s).

Definition throw {A} (e : Thrown) : M A := fun s => (Rejected e, s).

Definition bind {A B} (m : M A) (k : A -> M B) : M B :=
  fun s =>
    match m s with
    | (Resolved a, s') => k a s'
    | (Rejected e, s') => (Rejected e, s')
    end.

(** [try { m } catch (e) { h e }]: the effects of [m] up to the throw stay. *)
Definition try_catch {A} (m : M A) (h : Thrown -> M A) : M A :=
  fun s =>
    match m s with
    | (Resolved a, s') => (Resolved a, s')
    | (Rejected e, s') => h e s'
    end.

Declare Scope js_scope.
Delimit Scope js_scope with js.
Notation "x <- m ;; k" := (bind m (fun x => k))
  (at level 61, m at next level, right associativity) : js_scope.
Notation "m ;; k" := (bind m (fun _ => k))
  (at level 61, right associativity) : js_scope.
Open Scope js_scope.

Definition get_state : M State.t := fun s => (Resolved s, s).

Definition log (e : LogEntry) : M unit :=
  fun s => (Resolved tt,
            State.mk (State.supabase s) (State.useSupabase s) (State.dataItem s)
                     (State.configItem s) (State.console s ++ [e])).

(** A member access or method call on a value that may be [undefined]. *)
Definition defined {A} (o : option A) : M A :=
  match o with
  | Some a => ret a
  | None => throw TypeError
  end.

(** [localStorage.getItem(DATA_KEY)] and [setItem(DATA_KEY, ...)]; the
    storage accepts every write. *)
Definition getDataItem : M RawData := fun s => (Resolved (State.dataItem s), s).

Definition setDataItem (r : RawData) : M unit :=
  fun s => (Resolved tt,
            State.mk (State.supabase s) (State.useSupabase s) r
                     (State.configItem s) (State.console s)).

Definition setConfigItem (c : option (string * string)) : M unit :=
  fun s => (Resolved tt,
            State.mk (State.supabase s) (State.useSupabase s) (State.dataItem s)
                     c (State.console s)).

Definition setClient (c : option Client) (flag : bool) : M unit :=
  fun s => (Resolved tt,
            State.mk c flag (State.dataItem s) (State.configItem s) (State.console s)).

Definition setUseSupabase (flag : bool) : M unit :=
  fun s => (Resolved tt,
            State.mk (State.supabase s) flag (State.dataItem s)
                     (State.configItem s) (State.console s)).

(** [useSupabase && supabase]. *)
Definition remote (s : State.t) : bool :=
  State.useSupabase s && match State.supabase s with Some _ => true | None => false end.

(** [function writeLocalData(data)], the same in every revision. *)
Definition writeLocalData (data : AppData.t) : M unit :=
  setDataItem (JsonText (PDoc data)).

(** What the surroundings of the module supply: the configuration compiled
    in or read from the environment, the client constructor (which may
    throw), the day [today] was taken, the rendering and parsing of bare
    calendar dates, and the backend. *)
Module Env.
Record t := mk {
  GLOBAL_SUPABASE_URL : string;
  GLOBAL_SUPABASE_KEY : string;
  createClient : string -> string -> option Client;
  today : Date;
  isoDate : Date -> string;         (* [d.toISOString().split('T')[0]] *)
  parseDate : string -> Date;       (* [new Date(text)] *)
  backend : Backend.t
}.
End Env.

(** [{ id: string }], the value the delete operations resolve with. *)
Module IdResult.
Record t := mk { id : string }.
End IdResult.

(** What [updateTask] resolves with: the stored task (local branch) or the
    patch mixed with the id (remote branch). *)
Inductive UpdateTaskResult : Type :=
  | StoredTask (t : Task.t)
  | PatchWithId (r : PartialTask.t).

Definition isProject (projectId : string) (p : Project.t) : bool :=
  (Project.id p =? projectId)%string.

Definition isTask (taskId : string) (t : Task.t) : bool :=
  (Task.id t =? taskId)%string.

Definition withTasks (p : Project.t) (ts : option (list Task.t)) : Project.t :=
  Project.mk (Project.id p) (Project.name p) ts.

Definition withName (p : Project.t) (n : string) : Project.t :=
  Project.mk (Project.id p) n (Project.tasks p).

Definition withProjects (d : AppData.t) (ps : option (list Project.t)) : AppData.t :=
  AppData.mk ps (AppData.departments d) (AppData.employees d).

(** The client-side join of the two remote reads. *)
Section RowMapping.
Variable env : Env.t.

Definition taskOfRow (r : TaskRow.t) : Task.t :=
  Task.mk (TaskRow.id r) (TaskRow.name r)
          (Env.parseDate env (TaskRow.start_date r))
          (Env.parseDate env (TaskRow.end_date r))
          (TaskRow.color r) (TaskRow.employee_id r) (TaskRow.progress r)
          (TaskRow.description r).

Definition projectOfRow (tasksData : list TaskRow.t) (p : ProjectRow.t) : Project.t :=
  Project.mk (ProjectRow.id p) (ProjectRow.name p)
    (Some (map taskOfRow
             (filter (fun r => (TaskRow.project_id r =? ProjectRow.id p)%string)
                     tasksData))).

(** The [updates] object of [updateTask]: [name], the dates and
    [employeeId] are copied when truthy, [progress] and [description]
    when not [undefined]. *)
Definition buildUpdates (u : TaskPatch.t) : TaskUpdates.t :=
  TaskUpdates.mk
    (match TaskPatch.name u with
     | Some n => if truthy n then Some n else None
     | None => None
     end)
    (option_map (Env.isoDate env) (TaskPatch.startDate u))
    (option_map (Env.isoDate env) (TaskPatch.endDate u))
    (match TaskPatch.employeeId u with
     | Some e => if truthy e then Some e else None
     | None => None
     end)
    (TaskPatch.progress u)
    (TaskPatch.description u).

(** [const { error } = await supabase.from(...)...; if (error) throw error;] *)
Definition write_or_throw (w : Write) : M unit :=
  match Backend.write (Env.backend env) w with
  | Some error => throw (BackendError error)
  | None => ret tt
  end.
End RowMapping.

(** ** [src/services/apiService.ts] *)

Module ApiService.
Section WithEnv.
Variable env : Env.t.

Let GLOBAL_SUPABASE_URL := Env.GLOBAL_SUPABASE_URL env.
Let GLOBAL_SUPABASE_KEY := Env.GLOBAL_SUPABASE_KEY env.
Let today := Env.today env.
Let supabase := Env.backend env.

Definition initialEmployees : list Employee.t :=
  [ Employee.mk "e1" "앨리스 존슨" "d1";
    Employee.mk "e2" "밥 윌리엄스" "d1";
    Employee.mk "e3" "찰리 브라운" "d2";
    Employee.mk "e4" "다이아나 밀러" "d2";
    Employee.mk "e5" "이든 데이비스" "d3" ].

Definition inDepartment (d : string) (e : Employee.t) : bool :=
  (Employee.departmentId e =? d)%string.

Definition initialDepartments : list Department.t :=
  [ Department.mk "d1" "엔지니어링" (filter (inDepartment "d1") initialEmployees);
    Department.mk "d2" "마케팅" (filter (inDepartment "d2") initialEmployees);
    Department.mk "d3" "제품" (filter (inDepartment "d3") initialEmployees) ].

Definition initSupabase (url key : string) : M unit :=
  let targetUrl := or_else GLOBAL_SUPABASE_URL url in
  let targetKey := or_else GLOBAL_SUPABASE_KEY key in
  if truthy targetUrl && truthy targetKey then
    match Env.createClient env targetUrl targetKey with
    | Some client =>
        setClient (Some client) true ;;
        if negb (truthy GLOBAL_SUPABASE_URL)
        then setConfigItem (Some (targetUrl, targetKey))
        else log (console_log "Using Global Supabase Connection")
    | None =>
        log (console_error "Supabase init failed" None) ;;
        setUseSupabase false
    end
  else
    setClient None false ;;
    if negb (truthy GLOBAL_SUPABASE_URL)
    then setConfigItem None
    else ret tt.

Definition getInitialData : AppData.t :=
  AppData.mk
    (Some
       [ Project.mk "p1" "쿼터별 웹사이트 리디자인"
           (Some
              [ Task.mk "t1" "API 설계 및 개발" (addDays today 1) (addDays today 10)
                        "bg-blue-500" "e1" 80 (Some "백엔드 API 엔드포인트.");
                Task.mk "t2" "프론트엔드 UI/UX 구현" (addDays today 2) (addDays today 12)
                        "bg-sky-500" "e2" 50 (Some "React 컴포넌트 개발.");
                Task.mk "t3" "사용자 피드백 수집" (addDays today 13) (addDays today 20)
                        "bg-purple-500" "e5" 25 (Some "사용성 테스트 진행.") ]) ])
    (Some initialDepartments)
    (Some initialEmployees).

(** [if (p.tasks) { ...dates... } else { p.tasks = [] }] *)
Definition ensureTasks (p : Project.t) : Project.t :=
  match Project.tasks p with
  | Some ts => p
  | None => withTasks p (Some [])
  end.

Definition seedAndPersist : M AppData.t :=
  let initialData := getInitialData in
  writeLocalData initialData ;;
  ret initialData.

Definition readLocalData : M AppData.t :=
  try_catch
    (rawData <- getDataItem ;;
     match rawData with
     | NoItem | EmptyText => seedAndPersist
     | BadJson => throw SyntaxError
     | JsonText PNull => seedAndPersist
     | JsonText (PPrimitive _) | JsonText (PArray _) => seedAndPersist
     | JsonText (PDoc parsedData) =>
         match AppData.projects parsedData with
         | None => seedAndPersist
         | Some ps => ret (withProjects parsedData (Some (map ensureTasks ps)))
         end
     end)
    (fun error =>
       log (console_error "Failed to read local data" (Some error)) ;;
       ret getInitialData).

Definition getProjects : M (option (list Project.t)) :=
  s <- get_state ;;
  if remote s then
    try_catch
      (let r := Backend.selectProjects supabase ["created_at"] in
       match Response.error r with
       | Some pError => throw (BackendError pError)
       | None =>
           let t := Backend.selectTasks supabase [] in
           match Response.error t with
           | Some tError => throw (BackendError tError)
           | None =>
               ret (Some (map (projectOfRow env (or_empty (Response.data t)))
                              (or_empty (Response.data r))))
           end
       end)
      (fun err =>
         log (console_error "Supabase fetch error" (Some err)) ;;
         throw err)
  else
    data <- readLocalData ;;
    ret (AppData.projects data).

Definition getDepartments : M (list Department.t) := ret initialDepartments.

Definition getEmployees : M (list Employee.t) := ret initialEmployees.

Definition addProject (now : Z) (projectName : string) : M Project.t :=
  let newId := "project-" ++ string_of_Z now in
  let newProject := Project.mk newId projectName (Some []) in
  s <- get_state ;;
  if remote s then
    write_or_throw env (InsertProject newId projectName None) ;;
    ret newProject
  else
    data <- readLocalData ;;
    ps <- defined (AppData.projects data) ;;
    writeLocalData (withProjects data (Some (push ps newProject))) ;;
    ret newProject.

Definition updateProject (projectId projectName : string) : M Project.t :=
  s <- get_state ;;
  if remote s then
    write_or_throw env (UpdateProjectName projectId projectName) ;;
    ret (Project.mk projectId projectName (Some []))
  else
    data <- readLocalData ;;
    ps <- defined (AppData.projects data) ;;
    match find (isProject projectId) ps with
    | Some project =>
        writeLocalData
          (withProjects data
             (Some (update_first (isProject projectId)
                                 (fun p => withName p projectName) ps))) ;;
        ret (withName project projectName)
    | None => throw (JsError "Project not found")
    end.

Definition deleteProject (projectId : string) : M IdResult.t :=
  s <- get_state ;;
  (if remote s then
     write_or_throw env (DeleteProject projectId)
   else
     data <- readLocalData ;;
     ps <- defined (AppData.projects data) ;;
     writeLocalData
       (withProjects data
          (Some (filter (fun p => negb (isProject projectId p)) ps)))) ;;
  ret (IdResult.mk projectId).

Definition colors : list string :=
  ["bg-rose-500"; "bg-amber-500"; "bg-lime-500"; "bg-cyan-500";
   "bg-fuchsia-500"; "bg-orange-500"].

(** [`task-${Date.now()}-${Math.random().toString(36).substr(2, 9)}`];
    [rnd36] is the text [Math.random().toString(36)]. *)
Definition taskId (now : Z) (rnd36 : string) : string :=
  "task-" ++ string_of_Z now ++ "-" ++ substring 2 9 rnd36.

(** [colorDraw] is [Math.floor(Math.random() * colors.length)], an index
    below [colors.length] because [Math.random() < 1]. *)
Definition addTask (now : Z) (colorDraw : nat) (rnd36 : string)
           (projectId : string) (taskData : TaskData.t) : M Task.t :=
  let randomColor := nth colorDraw colors "" in
  let newTask := newTask (taskId now rnd36) taskData randomColor in
  s <- get_state ;;
  (if remote s then
     write_or_throw env
       (InsertTask
          (TaskRow.mk (Task.id newTask) projectId (Task.name newTask)
                      (Env.isoDate env (Task.startDate newTask))
                      (Env.isoDate env (Task.endDate newTask))
                      (Task.color newTask) (Task.employeeId newTask) 0
                      (Task.description newTask))
          None)
   else
     data <- readLocalData ;;
     ps <- defined (AppData.projects data) ;;
     match find (isProject projectId) ps with
     | Some project =>
         writeLocalData
           (withProjects data
              (Some (update_first (isProject projectId)
                       (fun p => withTasks p (Some (push (or_empty (Project.tasks p)) newTask)))
                       ps)))
     | None =>
         throw (JsError ("Project " ++ projectId ++ " not found in local storage"))
     end) ;;
  ret newTask.

Definition updateTask (projectId taskId : string) (taskUpdate : TaskPatch.t)
  : M UpdateTaskResult :=
  s <- get_state ;;
  if remote s then
    let updates := buildUpdates env taskUpdate in
    write_or_throw env (UpdateTask taskId updates) ;;
    ret (PatchWithId (PartialTask.mk taskId taskUpdate))
  else
    data <- readLocalData ;;
    ps <- defined (AppData.projects data) ;;
    task <- match find (isProject projectId) ps with
            | Some project =>
                ts <- defined (Project.tasks project) ;;
                ret (find (isTask taskId) ts)
            | None => ret None
            end ;;
    match task with
    | Some task =>
        writeLocalData
          (withProjects data
             (Some (update_first (isProject projectId)
                      (fun p => withTasks p
                         (option_map
                            (update_first (isTask taskId) (fun t => assign t taskUpdate))
                            (Project.tasks p)))
                      ps))) ;;
        ret (StoredTask (assign task taskUpdate))
    | None => throw (JsError "Task not found")
    end.

Definition deleteTask (projectId taskId : string) : M IdResult.t :=
  s <- get_state ;;
  (if remote s then
     write_or_throw env (DeleteTask taskId)
   else
     data <- readLocalData ;;
     ps <- defined (AppData.projects data) ;;
     match find (isProject projectId) ps with
     | Some project =>
         ts <- defined (Project.tasks project) ;;
         writeLocalData
           (withProjects data
              (Some (update_first (isProject projectId)
                       (fun p => withTasks p
                          (Some (filter (fun t => negb (isTask taskId t)) ts)))
                       ps)))
     | None => ret tt
     end) ;;
  ret (IdResult.mk projectId).

Definition updateProjects (projects : list Project.t) : M (list Project.t) :=
  s <- get_state ;;
  (if negb (State.useSupabase s) then
     data <- readLocalData ;;
     writeLocalData (withProjects data (Some projects))
   else ret tt) ;;
  ret projects.

End WithEnv.
End ApiService.

(** ** [src/unnamed/part_000] *)

Module Part000.
Section WithEnv.
Variable env : Env.t.

Let GLOBAL_SUPABASE_URL := Env.GLOBAL_SUPABASE_URL env.
Let GLOBAL_SUPABASE_KEY := Env.GLOBAL_SUPABASE_KEY env.
Let today := Env.today env.
Let supabase := Env.backend env.

(** The compiled-in fallbacks.  [GLOBAL_SUPABASE_URL] is
    [cleanEnv(VITE_ENV_URL || getProcessEnv("SUPABASE_URL") || FALLBACK_URL)],
    a value of the environment [env]. *)
Definition FALLBACK_URL : string := "https://jvvqausidqgjtjteemyg.supabase.co".
Definition FALLBACK_KEY : string := "sb_publishable_Xjitm41vvj5TDVK8m302mg_i8DZT9AM".

Definition defaultEmployees : list Employee.t :=
  [ Employee.mk "e1" "앨리스 존슨" "d1";
    Employee.mk "e2" "밥 윌리엄스" "d1";
    Employee.mk "e3" "찰리 브라운" "d2";
    Employee.mk "e4" "다이아나 밀러" "d2";
    Employee.mk "e5" "이든 데이비스" "d3" ].

Definition defaultDepartments : list Department.t :=
  [ Department.mk "d1" "엔지니어링" [];
    Department.mk "d2" "마케팅" [];
    Department.mk "d3" "제품" [] ].

Definition initSupabase (url key : string) : M unit :=
  let targetUrl := or_else GLOBAL_SUPABASE_URL url in
  let targetKey := or_else GLOBAL_SUPABASE_KEY key in
  if truthy targetUrl && truthy targetKey then
    match Env.createClient env targetUrl targetKey with
    | Some client =>
        setClient (Some client) true ;;
        if negb (truthy GLOBAL_SUPABASE_URL)
        then setConfigItem (Some (targetUrl, targetKey))
        else ret tt
    | None =>
        log (console_error "Supabase init failed" None) ;;
        setUseSupabase false
    end
  else
    setClient None false ;;
    if negb (truthy GLOBAL_SUPABASE_URL)
    then setConfigItem None
    else ret tt.

Definition getInitialData : AppData.t :=
  let hydratedDepts :=
    map (fun d =>
           Department.mk (Department.id d) (Department.name d)
             (filter (fun e => (Employee.departmentId e =? Department.id d)%string)
                     defaultEmployees))
        defaultDepartments in
  AppData.mk
    (Some
       [ Project.mk "p1" "쿼터별 웹사이트 리디자인"
           (Some
              [ Task.mk "t1" "API 설계 및 개발" (addDays today 1) (addDays today 10)
                        "bg-blue-500" "e1" 80 (Some "백엔드 API 엔드포인트.");
                Task.mk "t2" "프론트엔드 UI/UX 구현" (addDays today 2) (addDays today 12)
                        "bg-sky-500" "e2" 50 (Some "React 컴포넌트 개발.");
                Task.mk "t3" "사용자 피드백 수집" (addDays today 13) (addDays today 20)
                        "bg-purple-500" "e5" 25 (Some "사용성 테스트 진행.") ]) ])
    (Some hydratedDepts)
    (Some defaultEmployees).

Definition ensureTasks (p : Project.t) : Project.t :=
  match Project.tasks p with
  | Some ts => p
  | None => withTasks p (Some [])
  end.

Definition seedAndPersist : M AppData.t :=
  let initialData := getInitialData in
  writeLocalData initialData ;;
  ret initialData.

(** [if (!parsedData.departments) parsedData.departments = getInitialData().departments]
    and the same for [employees]. *)
Definition ensureOrganization (d : AppData.t) : AppData.t :=
  AppData.mk (AppData.projects d)
    (match AppData.departments d with
     | Some ds => Some ds
     | None => AppData.departments getInitialData
     end)
    (match AppData.employees d with
     | Some es => Some es
     | None => AppData.employees getInitialData
     end).

Definition readLocalData : M AppData.t :=
  try_catch
    (rawData <- getDataItem ;;
     match rawData with
     | NoItem | EmptyText => seedAndPersist
     | BadJson => throw SyntaxError
     | JsonText PNull => seedAndPersist
     | JsonText (PPrimitive _) | JsonText (PArray _) => seedAndPersist
     | JsonText (PDoc parsedData) =>
         match AppData.projects parsedData with
         | None => seedAndPersist
         | Some ps =>
             ret (ensureOrganization (withProjects parsedData (Some (map ensureTasks ps))))
         end
     end)
    (fun error =>
       log (console_error "Failed to read local data" (Some error)) ;;
       ret getInitialData).

Definition getProjects : M (option (list Project.t)) :=
  s <- get_state ;;
  if remote s then
    try_catch
      (let r := Backend.selectProjects supabase ["created_at"] in
       match Response.error r with
       | Some pError => throw (BackendError pError)
       | None =>
           let t := Backend.selectTasks supabase [] in
           match Response.error t with
           | Some tError => throw (BackendError tError)
           | None =>
               ret (Some (map (projectOfRow env (or_empty (Response.data t)))
                              (or_empty (Response.data r))))
           end
       end)
      (fun err =>
         log (console_error "Supabase fetch error" (Some err)) ;;
         throw err)
  else
    data <- readLocalData ;;
    ret (AppData.projects data).

Definition employeeOfRow (e : EmployeeRow.t) : Employee.t :=
  Employee.mk (EmployeeRow.id e) (EmployeeRow.name e) (EmployeeRow.department_id e).

Definition departmentOfRow (emps : list EmployeeRow.t) (d : DepartmentRow.t) : Department.t :=
  Department.mk (DepartmentRow.id d) (DepartmentRow.name d)
    (map employeeOfRow
       (filter (fun e => (EmployeeRow.department_id e =? DepartmentRow.id d)%string) emps)).

Definition getDepartments : M (option (list Department.t)) :=
  s <- get_state ;;
  if remote s then
    let depts := Backend.selectDepartments supabase ["name"] in
    match Response.error depts with
    | Some error => throw (BackendError error)
    | None =>
        let emps := Backend.selectEmployees supabase [] in
        match Response.error emps with
        | Some eError => throw (BackendError eError)
        | None =>
            ret (Some (map (departmentOfRow (or_empty (Response.data emps)))
                           (or_empty (Response.data depts))))
        end
    end
  else
    data <- readLocalData ;;
    ret (AppData.departments data).

Definition getEmployees : M (option (list Employee.t)) :=
  s <- get_state ;;
  if remote s then
    let r := Backend.selectEmployees supabase ["name"] in
    match Response.error r with
    | Some error => throw (BackendError error)
    | None => ret (Some (map employeeOfRow (or_empty (Response.data r))))
    end
  else
    data <- readLocalData ;;
    ret (AppData.employees data).

Definition deleteDepartment (id : string) : M unit :=
  s <- get_state ;;
  if remote s then
    write_or_throw env (DeleteDepartment id)
  else
    data <- readLocalData ;;
    ds <- defined (AppData.departments data) ;;
    es <- defined (AppData.employees data) ;;
    writeLocalData
      (AppData.mk (AppData.projects data)
         (Some (filter (fun d => negb (Department.id d =? id)%string) ds))
         (Some (filter (fun e => negb (Employee.departmentId e =? id)%string) es))).

End WithEnv.
End Part000.

(** ** [src/unnamed/part_002] *)

Module Part002.

(** [projects.map((p, i) => ...)]: [map] with the index. *)
Fixpoint mapi_from {A B} (i : Z) (f : A -> Z -> B) (l : list A) : list B :=
  match l with
  | [] => []
  | x :: r => f x i :: mapi_from (i + 1) f r
  end.

Definition mapi {A B} (f : A -> Z -> B) (l : list A) : list B := mapi_from 0 f l.

(** [code === c] and [String(error.message || "")]. *)
Definition code_is (e : PostgrestError.t) (c : string) : bool :=
  match PostgrestError.code e with
  | Some k => (k =? c)%string
  | None => false
  end.

Definition message_text (e : PostgrestError.t) : string :=
  match PostgrestError.message e with
  | Some m => m
  | None => ""
  end.

Definition isMissingColumnError (error : option PostgrestError.t) (columnName : string) : bool :=
  match error with
  | None => false
  | Some e =>
      if code_is e "42703" then true
      else
        let msg := toLowerCase (message_text e) in
        let col := toLowerCase columnName in
        includes msg "column" && includes msg col
  end.

(** [data.projects], [data.departments] and [data.employees] on what
    [readLocalData] returned, which is never [null]: the members of an
    object, and [undefined] on an array or a primitive. *)
Definition members (data : Parsed) : AppData.t :=
  match data with
  | PDoc d => d
  | _ => AppData.mk None None None
  end.

Section WithEnv.
Variable env : Env.t.

Let supabase := Env.backend env.

(** [today] is taken when [getInitialData] runs: [Env.today] is the day of
    the call. *)
Definition getInitialData : AppData.t :=
  let today := Env.today env in
  AppData.mk
    (Some
       [ Project.mk "p1" "샘플 프로젝트"
           (Some
              [ Task.mk "t1" "예시 태스크" (addDays today 1) (addDays today 10)
                        "bg-blue-500" "" 0 None ]) ])
    (Some [])
    (Some []).

(** [readLocalData] does not validate: it returns whatever [JSON.parse]
    made of the text, an array or a primitive included; only [null] does
    not get through, the read of [parsedData.projects] throwing on it. *)
Definition readLocalData : M Parsed :=
  try_catch
    (rawData <- getDataItem ;;
     match rawData with
     | NoItem | EmptyText => ret (PDoc getInitialData)
     | BadJson => throw SyntaxError
     | JsonText PNull => throw TypeError
     | JsonText parsedData => ret parsedData
     end)
    (fun _ => ret (PDoc getInitialData)).

Definition fetchTasksForProjects (projectsData : list ProjectRow.t)
  : M (option (list Project.t)) :=
  s <- get_state ;;
  match State.supabase s with
  | None => ret (Some [])
  | Some _ =>
      let r := Backend.selectTasks supabase ["position"; "id"] in
      tasksData <-
        match Response.error r with
        | Some tError =>
            if isMissingColumnError (Some tError) "position" then
              log (console_warn "Table 'tasks' missing 'position' column. Falling back to 'id'.") ;;
              let f := Backend.selectTasks supabase ["id"] in
              match Response.error f with
              | Some fError => throw (BackendError fError)
              | None => ret (or_empty (Response.data f))
              end
            else throw (BackendError tError)
        | None => ret (or_empty (Response.data r))
        end ;;
      ret (Some (map (projectOfRow env tasksData) projectsData))
  end.

(** The [try] block ends in [return fetchTasksForProjects(projectsData)]
    with no [await]: the promise is handed over as it is, so a rejection of
    the tasks read does not pass through the [catch] and is not logged. *)
Definition getProjects : M (option (list Project.t)) :=
  s <- get_state ;;
  if remote s then
    projectsData <-
      try_catch
        (let r := Backend.selectProjects supabase ["position"; "created_at"] in
         match Response.error r with
         | Some pError =>
             if isMissingColumnError (Some pError) "position" then
               log (console_warn "Table 'projects' missing 'position' column. Falling back to 'created_at'.") ;;
               let f := Backend.selectProjects supabase ["created_at"] in
               match Response.error f with
               | Some fError => throw (BackendError fError)
               | None => ret (or_empty (Response.data f))
               end
             else throw (BackendError pError)
         | None => ret (or_empty (Response.data r))
         end)
        (fun err =>
           log (console_error "Supabase fetch error (getProjects):" (Some err)) ;;
           throw err) ;;
    fetchTasksForProjects projectsData
  else
    data <- readLocalData ;;
    ret (AppData.projects (members data)).

Definition employeeOfRow (e : EmployeeRow.t) : Employee.t :=
  Employee.mk (EmployeeRow.id e) (EmployeeRow.name e) (EmployeeRow.department_id e).

Definition departmentOfRow (emps : list EmployeeRow.t) (d : DepartmentRow.t) : Department.t :=
  Department.mk (DepartmentRow.id d) (DepartmentRow.name d)
    (map employeeOfRow
       (filter (fun e => (EmployeeRow.department_id e =? DepartmentRow.id d)%string) emps)).

Definition getDepartments : M (option (list Department.t)) :=
  s <- get_state ;;
  if remote s then
    try_catch
      (let depts := Backend.selectDepartments supabase ["name"] in
       match Response.error depts with
       | Some error => throw (BackendError error)
       | None =>
           let emps := Backend.selectEmployees supabase [] in
           match Response.error emps with
           | Some eError => throw (BackendError eError)
           | None =>
               ret (Some (map (departmentOfRow (or_empty (Response.data emps)))
                              (or_empty (Response.data depts))))
           end
       end)
      (fun err =>
         log (console_error "Supabase fetch error (getDepartments):" (Some err)) ;;
         throw err)
  else
    data <- readLocalData ;;
    ret (AppData.departments (members data)).

Definition getEmployees : M (option (list Employee.t)) :=
  s <- get_state ;;
  if remote s then
    try_catch
      (let r := Backend.selectEmployees supabase ["name"] in
       match Response.error r with
       | Some error => throw (BackendError error)
       | None => ret (Some (map employeeOfRow (or_empty (Response.data r))))
       end)
      (fun err =>
         log (console_error "Supabase fetch error (getEmployees):" (Some err)) ;;
         throw err)
  else
    data <- readLocalData ;;
    ret (AppData.employees (members data)).

Definition addDepartment (now : Z) (name : string) : M Department.t :=
  let id := "dept-" ++ string_of_Z now in
  s <- get_state ;;
  (if remote s then
     write_or_throw env (InsertDepartment id name)
   else
     data <- readLocalData ;;
     ds <- defined (AppData.departments (members data)) ;;
     writeLocalData
       (AppData.mk (AppData.projects (members data))
          (Some (push ds (Department.mk id name [])))
          (AppData.employees (members data)))) ;;
  ret (Department.mk id name []).

Definition deleteDepartment (id : string) : M unit :=
  s <- get_state ;;
  if remote s then
    write_or_throw env (DeleteDepartment id)
  else
    data <- readLocalData ;;
    ds <- defined (AppData.departments (members data)) ;;
    writeLocalData
      (AppData.mk (AppData.projects (members data))
         (Some (filter (fun d => negb (Department.id d =? id)%string) ds))
         (AppData.employees (members data))).

Definition addEmployee (now : Z) (name departmentId : string) : M Employee.t :=
  let id := "emp-" ++ string_of_Z now in
  s <- get_state ;;
  (if remote s then
     write_or_throw env (InsertEmployee id name departmentId)
   else
     data <- readLocalData ;;
     es <- defined (AppData.employees (members data)) ;;
     writeLocalData
       (AppData.mk (AppData.projects (members data)) (AppData.departments (members data))
          (Some (push es (Employee.mk id name departmentId))))) ;;
  ret (Employee.mk id name departmentId).

Definition deleteEmployee (id : string) : M unit :=
  s <- get_state ;;
  if remote s then
    write_or_throw env (DeleteEmployee id)
  else
    data <- readLocalData ;;
    es <- defined (AppData.employees (members data)) ;;
    writeLocalData
      (AppData.mk (AppData.projects (members data)) (AppData.departments (members data))
         (Some (filter (fun e => negb (Employee.id e =? id)%string) es))).

Definition addProject (now : Z) (projectName : string) : M Project.t :=
  let id := "project-" ++ string_of_Z now in
  s <- get_state ;;
  (if remote s then
     write_or_throw env (InsertProject id projectName (Some 999))
   else
     data <- readLocalData ;;
     ps <- defined (AppData.projects (members data)) ;;
     writeLocalData
       (withProjects (members data) (Some (push ps (Project.mk id projectName (Some [])))))) ;;
  ret (Project.mk id projectName (Some [])).

Definition updateProject (projectId projectName : string) : M Project.t :=
  s <- get_state ;;
  (if remote s then
     write_or_throw env (UpdateProjectName projectId projectName)
   else
     data <- readLocalData ;;
     ps <- defined (AppData.projects (members data)) ;;
     writeLocalData
       (withProjects (members data)
          (Some (update_first (isProject projectId)
                              (fun p => withName p projectName) ps)))) ;;
  ret (Project.mk projectId projectName (Some [])).

Definition deleteProject (projectId : string) : M IdResult.t :=
  s <- get_state ;;
  (if remote s then
     write_or_throw env (DeleteProject projectId)
   else
     data <- readLocalData ;;
     ps <- defined (AppData.projects (members data)) ;;
     writeLocalData
       (withProjects (members data)
          (Some (filter (fun p => negb (isProject projectId p)) ps)))) ;;
  ret (IdResult.mk projectId).

(** [`task-${Date.now()}`]. *)
Definition taskId (now : Z) : string := "task-" ++ string_of_Z now.

Definition addTask (now : Z) (projectId : string) (taskData : TaskData.t) : M Task.t :=
  let id := taskId now in
  let color := "bg-blue-500" in
  s <- get_state ;;
  (if remote s then
     write_or_throw env
       (InsertTask
          (TaskRow.mk id projectId (TaskData.name taskData)
                      (Env.isoDate env (TaskData.startDate taskData))
                      (Env.isoDate env (TaskData.endDate taskData))
                      color (TaskData.employeeId taskData) 0
                      (TaskData.description taskData))
          (Some 999))
   else
     data <- readLocalData ;;
     ps <- defined (AppData.projects (members data)) ;;
     ps' <- match find (isProject projectId) ps with
            | Some p =>
                ts <- defined (Project.tasks p) ;;
                ret (update_first (isProject projectId)
                       (fun p => withTasks p (Some (push ts (newTask id taskData color))))
                       ps)
            | None => ret ps
            end ;;
     writeLocalData (withProjects (members data) (Some ps'))) ;;
  ret (newTask id taskData color).

Definition updateTask (projectId taskId : string) (taskUpdate : TaskPatch.t)
  : M PartialTask.t :=
  s <- get_state ;;
  (if remote s then
     let updates := buildUpdates env taskUpdate in
     write_or_throw env (UpdateTask taskId updates)
   else
     data <- readLocalData ;;
     ps <- defined (AppData.projects (members data)) ;;
     ps' <- match find (isProject projectId) ps with
            | Some p =>
                ts <- defined (Project.tasks p) ;;
                ret (update_first (isProject projectId)
                       (fun p => withTasks p
                          (Some (update_first (isTask taskId)
                                   (fun t => assign t taskUpdate) ts)))
                       ps)
            | None => ret ps
            end ;;
     writeLocalData (withProjects (members data) (Some ps'))) ;;
  ret (PartialTask.mk taskId taskUpdate).

Definition deleteTask (projectId taskId : string) : M IdResult.t :=
  s <- get_state ;;
  (if remote s then
     write_or_throw env (DeleteTask taskId)
   else
     data <- readLocalData ;;
     ps <- defined (AppData.projects (members data)) ;;
     ps' <- match find (isProject projectId) ps with
            | Some p =>
                ts <- defined (Project.tasks p) ;;
                ret (update_first (isProject projectId)
                       (fun p => withTasks p
                          (Some (filter (fun t => negb (isTask taskId t)) ts)))
                       ps)
            | None => ret ps
            end ;;
     writeLocalData (withProjects (members data) (Some ps'))) ;;
  ret (IdResult.mk taskId).

(** [if (error && !isMissingColumnError(error, 'position')) console.error(...)]:
    the answer of the upsert is inspected for the log only. *)
Definition log_upsert_error (label : string) (error : option PostgrestError.t) : M unit :=
  match error with
  | Some e =>
      if negb (isMissingColumnError (Some e) "position")
      then log (console_error label (Some (BackendError e)))
      else ret tt
  | None => ret tt
  end.

(** Local branch, [data.projects = projects; writeLocalData(data)]: on an
    object the member is replaced; on an array the property is set but
    [JSON.stringify] leaves it out, so the text of the array is written
    back; on a primitive the assignment throws (module code is strict). *)
Definition updateProjects (projects : list Project.t) : M (list Project.t) :=
  s <- get_state ;;
  (if remote s then
     let updates := mapi (fun p i => (Project.id p, Project.name p, i)) projects in
     let error := Backend.write supabase (UpsertProjects updates) in
     log_upsert_error "Upsert error:" error
   else
     data <- readLocalData ;;
     match data with
     | PDoc d => writeLocalData (withProjects d (Some projects))
     | PArray json => setDataItem (JsonText (PArray json))
     | PPrimitive _ | PNull => throw TypeError
     end) ;;
  ret projects.

Definition updateTaskPositions (projectId : string) (tasks : list Task.t) : M unit :=
  s <- get_state ;;
  if remote s then
    let updates := mapi (fun t i => (Task.id t, projectId, i)) tasks in
    let error := Backend.write supabase (UpsertTaskPositions updates) in
    log_upsert_error "Task Pos Upsert error:" error
  else
    data <- readLocalData ;;
    ps <- defined (AppData.projects (members data)) ;;
    writeLocalData
      (withProjects (members data)
         (Some (update_first (isProject projectId)
                             (fun p => withTasks p (Some tasks)) ps))).

End WithEnv.
End Part002.


(** * Vocabulary of the properties *)

Arguments Part002.isMissingColumnError : simpl never.

(** ** Reading computations *)

Definition outcome {A} (m : M A) (s : State.t) : Outcome A := fst (m s).
Definition after {A} (m : M A) (s : State.t) : State.t := snd (m s).

Definition rejects_with {A} (m : M A) (s : State.t) (e : Thrown) : Prop :=
  outcome m s = Rejected e.

Definition resolves {A} (m : M A) (s : State.t) : Prop :=
  exists a, outcome m s = Resolved a.

Definition resolves_with {A} (m : M A) (s : State.t) (a : A) : Prop :=
  outcome m s = Resolved a.

Ltac unfold_js :=
  unfold rejects_with, resolves, resolves_with, outcome, after,
    write_or_throw, writeLocalData, defined in *;
  unfold bind, ret, throw, try_catch, get_state, log, getDataItem, setDataItem,
    setConfigItem, setClient, setUseSupabase in *.

(** The project and the task that [find] reaches in a dataset. *)
Definition lookupProject (d : AppData.t) (projectId : string) : option Project.t :=
  match AppData.projects d with
  | Some ps => find (isProject projectId) ps
  | None => None
  end.

Definition lookupTask (d : AppData.t) (projectId taskId : string) : option Task.t :=
  match lookupProject d projectId with
  | Some p =>
      match Project.tasks p with
      | Some ts => find (isTask taskId) ts
      | None => None
      end
  | None => None
  end.

(** The read of the [tasks] table answers [rows]: at once, or, when its
    ordered query too is refused for the missing [position] column, through
    the retry ordered by [id]. *)
Definition tasksAnswer (b : Backend.t) (rows : list TaskRow.t) : Prop :=
  (Response.error (Backend.selectTasks b ["position"; "id"]) = None /\
   or_empty (Response.data (Backend.selectTasks b ["position"; "id"])) = rows)
  \/
  (exists tError,
      Response.error (Backend.selectTasks b ["position"; "id"]) = Some tError /\
      Part002.isMissingColumnError (Some tError) "position" = true /\
      Response.error (Backend.selectTasks b ["id"]) = None /\
      or_empty (Response.data (Backend.selectTasks b ["id"])) = rows).

(** ** Scenarios *)

Module Scenario.

Definition someDay : Date := 1704067200000.

Definition connect (url key : string) : option Client := Some (url, key).

Definition dayNumber (d : Date) : string := string_of_Z (d / msPerDay).

Definition client : Client := ("https://board.example.supabase.co", "anon").

Definition undefinedColumn : PostgrestError.t :=
  PostgrestError.mk (Some "42703") (Some "column projects.position does not exist").

Definition permissionDenied : PostgrestError.t :=
  PostgrestError.mk (Some "42501") (Some "permission denied for table projects").

Definition projectRows : list ProjectRow.t :=
  [ ProjectRow.mk "project-1" "Launch"; ProjectRow.mk "project-2" "Audit" ].

Definition taskRows : list TaskRow.t :=
  [ TaskRow.mk "task-1" "project-1" "Design" "2024-01-01" "2024-01-05"
               "bg-blue-500" "e1" 0 None;
    TaskRow.mk "task-2" "project-2" "Review" "2024-01-03" "2024-01-04"
               "bg-blue-500" "e2" 10 (Some "") ].

Definition mentions (column : string) (order : list string) : bool :=
  existsb (String.eqb column) order.

(** A backend whose tables have no [position] column. *)
Definition backendWithoutPosition : Backend.t :=
  Backend.mk
    (fun order => if mentions "position" order
                  then Response.failed undefinedColumn
                  else Response.ok projectRows)
    (fun order => if mentions "position" order
                  then Response.failed undefinedColumn
                  else Response.ok taskRows)
    (fun _ => Response.ok [])
    (fun _ => Response.ok [])
    (fun _ => None).

(** A backend that refuses everything for lack of permission. *)
Definition backendDenying : Backend.t :=
  Backend.mk
    (fun _ => Response.failed permissionDenied)
    (fun _ => Response.failed permissionDenied)
    (fun _ => Response.failed permissionDenied)
    (fun _ => Response.failed permissionDenied)
    (fun _ => Some permissionDenied).

Definition envOf (url key : string) (b : Backend.t) : Env.t :=
  Env.mk url key connect someDay dayNumber (fun _ => someDay) b.

Definition connected (item : RawData) : State.t :=
  State.mk (Some client) true item None [].

Definition offline (item : RawData) : State.t :=
  State.mk None false item None [].

End Scenario.

(** ** Propagation of backend errors *)

(** The outcome of an operation that throws the error of its request, if
    any, and otherwise resolves with [a]. *)
Definition answer_of {A} (error : option PostgrestError.t) (a : A) : Outcome A :=
  match error with
  | Some e => Rejected (BackendError e)
  | None => Resolved a
  end.

(** The requests of the two reorder writes of part_002. *)
Definition projectPositions (projects : list Project.t) : Write :=
  UpsertProjects (Part002.mapi (fun p i => (Project.id p, Project.name p, i)) projects).

Definition taskPositions (projectId : string) (tasks : list Task.t) : Write :=
  UpsertTaskPositions (Part002.mapi (fun t i => (Task.id t, projectId, i)) tasks).

Module Scenario2.

Definition launch : Project.t := Project.mk "project-1" "Launch" (Some []).
Definition audit : Project.t := Project.mk "project-2" "Audit" (Some []).

Definition deniedEnv : Env.t := Scenario.envOf "" "" Scenario.backendDenying.

End Scenario2.

(** ** The local store *)

(** The state with the text under [DATA_KEY] replaced. *)
Definition storeData (s : State.t) (r : RawData) : State.t :=
  State.mk (State.supabase s) (State.useSupabase s) r
           (State.configItem s) (State.console s).

Definition logged (s : State.t) (e : LogEntry) : State.t :=
  State.mk (State.supabase s) (State.useSupabase s) (State.dataItem s)
           (State.configItem s) (State.console s ++ [e]).

(** What the remote operations of part_002 print. *)
Definition warnProjects : LogEntry :=
  console_warn "Table 'projects' missing 'position' column. Falling back to 'created_at'.".

Definition warnTasks : LogEntry :=
  console_warn "Table 'tasks' missing 'position' column. Falling back to 'id'.".

Definition printed (label : string) (e : PostgrestError.t) : LogEntry :=
  console_error label (Some (BackendError e)).

(** A dataset in the shape [AppData] promises: an array of projects, each
    with an array of tasks. *)
Definition hasTasks (p : Project.t) : bool :=
  match Project.tasks p with Some _ => true | None => false end.

Definition wellShaped (d : AppData.t) : bool :=
  match AppData.projects d with
  | Some ps => forallb hasTasks ps
  | None => false
  end.

(** A stored record that fails the structural validation: it parses, to
    [null], to a primitive, to an array or to an object without an array
    of projects. *)
Definition failsValidation (r : RawData) : bool :=
  match r with
  | JsonText PNull => true
  | JsonText (PPrimitive _) | JsonText (PArray _) => true
  | JsonText (PDoc d) =>
      match AppData.projects d with Some _ => false | None => true end
  | _ => false
  end.

(** A stored text that parses to an array or to a primitive. *)
Definition arrayOrPrimitive (r : RawData) : bool :=
  match r with
  | JsonText (PArray _) | JsonText (PPrimitive _) => true
  | _ => false
  end.

(** No stored record. *)
Definition noRecord (r : RawData) : bool :=
  match r with
  | NoItem | EmptyText => true
  | _ => false
  end.

(** At least one project with at least one task. *)
Definition nonEmptySeed (d : AppData.t) : bool :=
  match AppData.projects d with
  | Some (p :: _) =>
      match Project.tasks p with
      | Some (_ :: _) => true
      | _ => false
      end
  | _ => false
  end.

(** The start of the first task of the first project of a dataset read. *)
Definition firstStart (o : Outcome AppData.t) : option Date :=
  match o with
  | Resolved d =>
      match AppData.projects d with
      | Some (p :: _) =>
          match Project.tasks p with
          | Some (t :: _) => Some (Task.startDate t)
          | _ => None
          end
      | _ => None
      end
  | Rejected _ => None
  end.

(** What a read of part_002 resolved with, seen through its members. *)
Definition asData (o : Outcome Parsed) : Outcome AppData.t :=
  match o with
  | Resolved v => Resolved (Part002.members v)
  | Rejected e => Rejected e
  end.

Module Scenario3.

Definition withoutProjects : AppData.t :=
  AppData.mk None (Some []) (Some []).

Definition laterEnv (days : Z) : Env.t :=
  Env.mk "" "" Scenario.connect (addDays Scenario.someDay days) Scenario.dayNumber
         (fun _ => Scenario.someDay) Scenario.backendWithoutPosition.

End Scenario3.

(** ** Connection bootstrap *)

(** A URL and a key are both compiled in or supplied by the environment. *)
Definition globallyConfigured (env : Env.t) : bool :=
  truthy (Env.GLOBAL_SUPABASE_URL env) && truthy (Env.GLOBAL_SUPABASE_KEY env).

(** What the three list operations of part_000 resolve with. *)
Definition listsResolveWith (env : Env.t) (s : State.t) (d : AppData.t) : Prop :=
  outcome (Part000.getProjects env) s = Resolved (AppData.projects d)
  /\ outcome (Part000.getDepartments env) s = Resolved (AppData.departments d)
  /\ outcome (Part000.getEmployees env) s = Resolved (AppData.employees d).

Module Scenario4.

(** The configuration part_000 compiles in. *)
Definition compiledIn : Env.t :=
  Scenario.envOf Part000.FALLBACK_URL Part000.FALLBACK_KEY Scenario.backendWithoutPosition.

Definition unconfigured : Env.t :=
  Scenario.envOf "" "" Scenario.backendWithoutPosition.

Definition localData : AppData.t :=
  AppData.mk (Some [Scenario2.launch])
             (Some [Department.mk "d1" "Ops" []])
             (Some [Employee.mk "e1" "Kim" "d1"]).

Definition connectedWithConfig : State.t :=
  State.mk (Some Scenario.client) true (JsonText (PDoc localData))
           (Some Scenario.client) [].

End Scenario4.

(** ** Partial update of a task *)

(** The patch [{ progress: n }], with or without a [description]. *)
Definition progressPatch (n : Z) (description : option string) : TaskPatch.t :=
  TaskPatch.mk None None None None None None (Some n) description.

(** A task with its progress and, if one is given, its description
    replaced; every other field as it was. *)
Definition withProgress (t : Task.t) (n : Z) (description : option string) : Task.t :=
  Task.mk (Task.id t) (Task.name t) (Task.startDate t) (Task.endDate t)
          (Task.color t) (Task.employeeId t) n
          (match description with
           | Some d => Some d
           | None => Task.description t
           end).

(** The dataset with the task that [find] reaches patched in place. *)
Definition patchTask (d : AppData.t) (projectId taskId : string) (u : TaskPatch.t)
  : AppData.t :=
  withProjects d
    (option_map
       (update_first (isProject projectId)
          (fun p => withTasks p
             (option_map (update_first (isTask taskId) (fun t => assign t u))
                         (Project.tasks p))))
       (AppData.projects d)).

(** The contract of the hosted backend for [update(updates).eq('id', ...)]
    on a row of [tasks]: the columns the payload carries are replaced, the
    others are kept.  (The backend is not code of this repository.) *)
Definition applyUpdates (u : TaskUpdates.t) (r : TaskRow.t) : TaskRow.t :=
  TaskRow.mk (TaskRow.id r) (TaskRow.project_id r)
    (override (TaskUpdates.name u) (TaskRow.name r))
    (override (TaskUpdates.start_date u) (TaskRow.start_date r))
    (override (TaskUpdates.end_date u) (TaskRow.end_date r))
    (TaskRow.color r)
    (override (TaskUpdates.employee_id u) (TaskRow.employee_id r))
    (override (TaskUpdates.progress u) (TaskRow.progress r))
    (match TaskUpdates.description u with
     | Some d => Some d
     | None => TaskRow.description r
     end).

Definition rowWithProgress (r : TaskRow.t) (n : Z) (description : option string)
  : TaskRow.t :=
  TaskRow.mk (TaskRow.id r) (TaskRow.project_id r) (TaskRow.name r)
    (TaskRow.start_date r) (TaskRow.end_date r) (TaskRow.color r)
    (TaskRow.employee_id r) n
    (match description with
     | Some d => Some d
     | None => TaskRow.description r
     end).

Module Scenario5.

Definition design : Task.t :=
  Task.mk "task-1" "Design" 1704067200000 1704412800000 "bg-rose-500" "e1" 0
          (Some "first draft").

Definition board : AppData.t :=
  AppData.mk (Some [Project.mk "project-1" "Launch" (Some [design])])
             (Some []) (Some []).

Definition env : Env.t := Scenario.envOf "" "" Scenario.backendWithoutPosition.

Definition start : State.t := Scenario.offline (JsonText (PDoc board)).

End Scenario5.

(** ** Deleting a department *)

Definition notDepartment (id : string) (d : Department.t) : bool :=
  negb (Department.id d =? id)%string.

Definition notInDepartment (id : string) (e : Employee.t) : bool :=
  negb (Employee.departmentId e =? id)%string.

Module Scenario6.

Definition kim : Employee.t := Employee.mk "emp-1" "Kim" "dept-1".
Definition lee : Employee.t := Employee.mk "emp-2" "Lee" "dept-2".

Definition organisation : AppData.t :=
  AppData.mk (Some [])
             (Some [Department.mk "dept-1" "Ops" []; Department.mk "dept-2" "Legal" []])
             (Some [kim; lee]).

Definition start : State.t := Scenario.offline (JsonText (PDoc organisation)).

End Scenario6.

(** ** Absent targets and deletion *)

(** The dataset without the projects named [projectId]. *)
Definition removeProject (d : AppData.t) (projectId : string) : AppData.t :=
  withProjects d
    (option_map (filter (fun p => negb (isProject projectId p))) (AppData.projects d)).

(** The dataset with the tasks named [taskId] taken out of the project that
    [find] reaches. *)
Definition removeTask (d : AppData.t) (projectId taskId : string) : AppData.t :=
  withProjects d
    (option_map
       (update_first (isProject projectId)
          (fun p => withTasks p
             (option_map (filter (fun t => negb (isTask taskId t))) (Project.tasks p))))
       (AppData.projects d)).

Module Scenario7.

Definition taskData : TaskData.t :=
  TaskData.mk "Design" 1704067200000 1704412800000 "e1" None.

End Scenario7.

(** ** Creating tasks *)

(** The tasks stored for a project in the text under [DATA_KEY]. *)
Definition lookupProject_tasks (r : RawData) (projectId : string)
  : option (list Task.t) :=
  match r with
  | JsonText (PDoc d) =>
      match lookupProject d projectId with
      | Some p => Project.tasks p
      | None => None
      end
  | _ => None
  end.

Module Scenario8.

Definition now : Z := 1704067200123.

Definition review : TaskData.t :=
  TaskData.mk "Review" 1704153600000 1704240000000 "e2" None.

Definition emptyProject : State.t :=
  Scenario.offline
    (JsonText (PDoc (AppData.mk (Some [Scenario2.launch]) (Some []) (Some [])))).

End Scenario8.


(** * Further functions of the module and of its caller *)

(** ** The admin lock ([setAdminPassword], [verifyAdminPassword],
    [hasAdminPassword], [isGlobalPassword] of part_000 and part_002)

    These functions read and write the single entry
    [localStorage[ADMIN_LOCK_KEY]], here [item] ([None] when [getItem]
    returns [null]); a setter returns the entry it leaves. *)

Module AdminLock.
Section WithPassword.
Variable GLOBAL_ADMIN_PASSWORD : string.

Definition setAdminPassword (password : string) (item : option string) : option string :=
  if truthy GLOBAL_ADMIN_PASSWORD then item
  else if negb (truthy password) then None
  else Some password.

(** [stored === input]: [null] is equal to no string. *)
Definition verifyAdminPassword (input : string) (item : option string) : bool :=
  if truthy GLOBAL_ADMIN_PASSWORD then (input =? GLOBAL_ADMIN_PASSWORD)%string
  else match item with
       | Some stored => (stored =? input)%string
       | None => false
       end.

Definition hasAdminPassword (item : option string) : bool :=
  if truthy GLOBAL_ADMIN_PASSWORD then true
  else match item with
       | Some stored => truthy stored
       | None => false
       end.

Definition isGlobalPassword : bool := truthy GLOBAL_ADMIN_PASSWORD.

(** [handleOpenSettings] with the [AuthModal] of [index.tsx]: the settings
    open at once when no password is set, and otherwise when the password
    typed is verified. *)
Definition settingsOpenFor (input : string) (item : option string) : bool :=
  if hasAdminPassword item then verifyAdminPassword input item else true.

End WithPassword.
End AdminLock.

(** ** Connection bootstrap of [apiService.ts] *)

(** A page load: the module variables start as [null] and [false], the
    console is new, [localStorage] is what the last page left. *)
Definition pageLoad (s : State.t) : State.t :=
  State.mk None false (State.dataItem s) (State.configItem s) [].

Module Boot.
Section WithEnv.
Variable env : Env.t.

Let GLOBAL_SUPABASE_URL := Env.GLOBAL_SUPABASE_URL env.
Let GLOBAL_SUPABASE_KEY := Env.GLOBAL_SUPABASE_KEY env.

(** The stored configuration is the record [initSupabase] wrote, or
    absent. *)
Definition getSupabaseConfig : M (option (string * string)) :=
  if truthy GLOBAL_SUPABASE_URL && truthy GLOBAL_SUPABASE_KEY
  then ret (Some (GLOBAL_SUPABASE_URL, GLOBAL_SUPABASE_KEY))
  else s <- get_state ;; ret (State.configItem s).

Definition isGlobalConfigured : bool :=
  truthy GLOBAL_SUPABASE_URL && truthy GLOBAL_SUPABASE_KEY.

Definition isSupabaseEnabled : M bool :=
  s <- get_state ;; ret (State.useSupabase s).

(** The statements the module runs when it is loaded: the log of the
    global configuration, then
    [const storedConfig = getSupabaseConfig();
     if (storedConfig) initSupabase(storedConfig.url, storedConfig.key);]. *)
Definition moduleInit : M unit :=
  (if truthy GLOBAL_SUPABASE_URL
   then log (console_log ("✅ Global Supabase Config Detected: " ++ GLOBAL_SUPABASE_URL))
   else log (console_log "⚠️ No Global Supabase Config Detected. Environment variables might be missing or server needs restart.")) ;;
  storedConfig <- getSupabaseConfig ;;
  match storedConfig with
  | Some (url, key) => ApiService.initSupabase env url key
  | None => ret tt
  end.

(** [initSupabaseFromUrl]; [window] is [None] outside a browser, and
    otherwise carries [params.get('sbUrl')] and [params.get('sbKey')].
    The rewrite of the address bar is not part of the state. *)
Definition initSupabaseFromUrl (window : option (option string * option string))
  : M bool :=
  match window with
  | None => ret false
  | Some (Some sbUrl, Some sbKey) =>
      if truthy sbUrl && truthy sbKey
      then ApiService.initSupabase env sbUrl sbKey ;; ret true
      else ret false
  | Some _ => ret false
  end.

End WithEnv.
End Boot.

(** ** Connection bootstrap of part_002 *)

Module Boot002.
Section WithEnv.
Variable env : Env.t.

Let GLOBAL_SUPABASE_URL := Env.GLOBAL_SUPABASE_URL env.
Let GLOBAL_SUPABASE_KEY := Env.GLOBAL_SUPABASE_KEY env.

Definition initSupabase (url key : string) : M unit :=
  let targetUrl := or_else url GLOBAL_SUPABASE_URL in
  let targetKey := or_else key GLOBAL_SUPABASE_KEY in
  if truthy targetUrl && truthy targetKey then
    match Env.createClient env targetUrl targetKey with
    | Some client =>
        setClient (Some client) true ;;
        if negb (truthy GLOBAL_SUPABASE_URL)
        then setConfigItem (Some (targetUrl, targetKey))
        else ret tt
    | None =>
        log (console_error "Supabase init failed" None) ;;
        setUseSupabase false
    end
  else
    setClient None false ;;
    if negb (truthy GLOBAL_SUPABASE_URL)
    then setConfigItem None
    else ret tt.

Definition getSupabaseConfig : M (option (string * string)) :=
  if truthy GLOBAL_SUPABASE_URL && truthy GLOBAL_SUPABASE_KEY
  then ret (Some (GLOBAL_SUPABASE_URL, GLOBAL_SUPABASE_KEY))
  else s <- get_state ;; ret (State.configItem s).

Definition moduleInit : M unit :=
  storedConfig <- getSupabaseConfig ;;
  match storedConfig with
  | Some (url, key) => initSupabase url key
  | None => ret tt
  end.

End WithEnv.
End Boot002.

(** The flag is on only with a client at hand. *)
Definition flagHasClient (s : State.t) : bool :=
  if State.useSupabase s
  then match State.supabase s with Some _ => true | None => false end
  else true.

(** ** Provisioning check and settings mirror

    The answers of the backend to the requests of [checkConnectionAndSeed],
    [seedDatabase], [getRemoteSettings] and [saveRemoteSettings].  The two
    settings calls are awaited inside [try], so the call itself may throw;
    a setting's value is its JSON text. *)

Inductive Attempt (A : Type) : Type :=
  | Answered (a : A)
  | Threw (e : Thrown).
Arguments Answered {A} _.
Arguments Threw {A} _.

Module Provision.
Record t := mk {
  (* [from('projects').select('id').limit(1)] *)
  probeProjects : Response.t (list string);
  (* [from('tasks').insert(tasks)] *)
  insertTasks : list TaskRow.t -> option PostgrestError.t;
  (* [from('system_settings').select('value').eq('key', key).single()]:
     [data] is the row, through its [value] *)
  selectSetting : string -> Attempt (Response.t (option string));
  (* [from('system_settings').upsert({ key, value })] *)
  upsertSetting : string -> string -> Attempt (option PostgrestError.t)
}.
End Provision.

Module Seed.
Section WithEnv.
Variable env : Env.t.
Variable p : Provision.t.

(** The rows [seedDatabase] of [apiService.ts] inserts; [today] is taken
    when it runs. *)
Definition seedTasks (today : Date) : list TaskRow.t :=
  [ TaskRow.mk "t1" "p1" "API 설계 및 개발"
      (Env.isoDate env (addDays today 1)) (Env.isoDate env (addDays today 10))
      "bg-blue-500" "e1" 80 (Some "백엔드 API 엔드포인트.");
    TaskRow.mk "t2" "p1" "프론트엔드 UI/UX 구현"
      (Env.isoDate env (addDays today 2)) (Env.isoDate env (addDays today 12))
      "bg-sky-500" "e2" 50 (Some "React 컴포넌트 개발.");
    TaskRow.mk "t3" "p1" "사용자 피드백 수집"
      (Env.isoDate env (addDays today 13)) (Env.isoDate env (addDays today 20))
      "bg-purple-500" "e5" 25 (Some "사용성 테스트 진행.") ].

Definition seedDatabase (today : Date) : M unit :=
  s <- get_state ;;
  match State.supabase s with
  | None => ret tt
  | Some _ =>
      write_or_throw env (InsertProject "p1" "쿼터별 웹사이트 리디자인" None) ;;
      match Provision.insertTasks p (seedTasks today) with
      | Some tError => throw (BackendError tError)
      | None => ret tt
      end
  end.

(** [checkConnectionAndSeed] of [apiService.ts]. *)
Definition checkConnectionAndSeed (today : Date) : M unit :=
  s <- get_state ;;
  if negb (remote s) then ret tt
  else
    try_catch
      (let r := Provision.probeProjects p in
       match Response.error r with
       | Some error =>
           if Part002.code_is error "42P01"
           then throw (JsError "TABLES_MISSING")
           else throw (BackendError error)
       | None =>
           data <- defined (Response.data r) ;;
           if (List.length data =? 0)%nat
           then log (console_log "Database empty, seeding initial data...") ;;
                seedDatabase today
           else ret tt
       end)
      (fun error => throw error).

(** [checkConnectionAndSeed] of part_002. *)
Definition checkConnection002 : M unit :=
  s <- get_state ;;
  if negb (remote s) then ret tt
  else
    match Response.error (Provision.probeProjects p) with
    | Some error =>
        if Part002.code_is error "42P01"
        then throw (JsError "TABLES_MISSING")
        else ret tt
    | None => ret tt
    end.

(** [getRemoteSettings] of [apiService.ts]; [None] is [null] or
    [undefined]. *)
Definition getRemoteSettings (key : string) : M (option string) :=
  s <- get_state ;;
  if negb (remote s) then ret None
  else
    try_catch
      (match Provision.selectSetting p key with
       | Threw e => throw e
       | Answered r =>
           match Response.error r with
           | Some _ => ret None
           | None =>
               ret (match Response.data r with
                    | Some value => value
                    | None => None
                    end)
           end
       end)
      (fun e =>
         log (console_error "Error fetching remote settings" (Some e)) ;;
         ret None).

(** [saveRemoteSettings] of [apiService.ts]. *)
Definition saveRemoteSettings (key value : string) : M unit :=
  s <- get_state ;;
  if negb (remote s) then ret tt
  else
    try_catch
      (match Provision.upsertSetting p key value with
       | Threw e => throw e
       | Answered (Some error) =>
           if Part002.code_is error "42P01" then ret tt
           else log (console_error "Error saving remote settings"
                                   (Some (BackendError error)))
       | Answered None => ret tt
       end)
      (fun e => log (console_error "Error saving remote settings" (Some e))).

(** The same two of part_002. *)
Definition getRemoteSettings002 (key : string) : M (option string) :=
  s <- get_state ;;
  if negb (remote s) then ret None
  else
    try_catch
      (match Provision.selectSetting p key with
       | Threw e => throw e
       | Answered r =>
           match Response.error r with
           | Some _ => ret None
           | None =>
               ret (match Response.data r with
                    | Some value => value
                    | None => None
                    end)
           end
       end)
      (fun _ => ret None).

Definition saveRemoteSettings002 (key value : string) : M unit :=
  s <- get_state ;;
  if negb (remote s) then ret tt
  else
    try_catch
      (match Provision.upsertSetting p key value with
       | Threw e => throw e
       | Answered _ => ret tt
       end)
      (fun _ => ret tt).

End WithEnv.
End Seed.

Module ScenarioSeed.

Definition undefinedTable : PostgrestError.t :=
  PostgrestError.mk (Some "42P01") (Some "relation public.projects does not exist").

(** The backend before its tables are created. *)
Definition unprovisioned : Provision.t :=
  Provision.mk (Response.failed undefinedTable)
               (fun _ => Some undefinedTable)
               (fun _ => Answered (Response.failed undefinedTable))
               (fun _ _ => Answered (Some undefinedTable)).

(** A backend that refuses the probe for lack of permission. *)
Definition denied : Provision.t :=
  Provision.mk (Response.failed Scenario.permissionDenied)
               (fun _ => Some Scenario.permissionDenied)
               (fun _ => Threw (JsError "Failed to fetch"))
               (fun _ _ => Threw (JsError "Failed to fetch")).

(** A provisioned backend with one project. *)
Definition populated : Provision.t :=
  Provision.mk (Response.ok ["project-1"])
               (fun _ => Some Scenario.permissionDenied)
               (fun _ => Answered (Response.ok (Some "{}")))
               (fun _ _ => Answered None).

End ScenarioSeed.

(** ** Vocabulary of the further properties *)

(** All the tasks of a list of projects, project after project. *)
Definition allTasks (ps : list Project.t) : list Task.t :=
  flat_map (fun p => or_empty (Project.tasks p)) ps.

(** The task row refers to one of the project rows. *)
Definition refersTo (prows : list ProjectRow.t) (r : TaskRow.t) : bool :=
  existsb (fun p => (TaskRow.project_id r =? ProjectRow.id p)%string) prows.

(** The member list of a department is the employees that refer to it. *)
Definition memberOf (d : string) (e : Employee.t) : bool :=
  (Employee.departmentId e =? d)%string.

Definition membersConsistent (d : AppData.t) : Prop :=
  match AppData.departments d, AppData.employees d with
  | Some ds, Some es =>
      Forall (fun dep =>
                Department.employees dep = filter (memberOf (Department.id dep)) es) ds
  | _, _ => False
  end.

(** ** [deleteEmployee] of part_000 *)

Module Part000Org.
Section WithEnv.
Variable env : Env.t.

Definition deleteEmployee (id : string) : M unit :=
  s <- get_state ;;
  if remote s then
    write_or_throw env (DeleteEmployee id)
  else
    data <- Part000.readLocalData env ;;
    es <- defined (AppData.employees data) ;;
    ds <- defined (AppData.departments data) ;;
    writeLocalData
      (AppData.mk (AppData.projects data)
         (Some (map (fun d =>
                       Department.mk (Department.id d) (Department.name d)
                         (filter (fun e => negb (Employee.id e =? id)%string)
                                 (Department.employees d)))
                    ds))
         (Some (filter (fun e => negb (Employee.id e =? id)%string) es))).

End WithEnv.
End Part000Org.

(** ** The caller: handlers and derived data of [index.tsx] *)

Module Ui.

(** [Array.prototype.findIndex]; [None] is [-1]. *)
Fixpoint findIndex {A} (f : A -> bool) (l : list A) : option nat :=
  match l with
  | [] => None
  | x :: r => if f x then Some 0%nat else option_map S (findIndex f r)
  end.

(** [l.splice(i, 1)] leaves [removeAt i l]; [l.splice(i, 0, x)] leaves
    [insertAt i x l]. *)
Definition removeAt {A} (i : nat) (l : list A) : list A :=
  firstn i l ++ skipn (S i) l.

Definition insertAt {A} (i : nat) (x : A) (l : list A) : list A :=
  firstn i l ++ x :: skipn i l.

(** The list [handleReorderProjects] builds; [None] when it returns
    early. *)
Definition reorderProjects (projects : list Project.t) (draggedId targetId : string)
  : option (list Project.t) :=
  if (draggedId =? targetId)%string then None
  else
    match findIndex (isProject draggedId) projects,
          findIndex (isProject targetId) projects with
    | Some draggedIndex, Some targetIndex =>
        match nth_error projects draggedIndex with
        | Some removed =>
            Some (insertAt targetIndex removed (removeAt draggedIndex projects))
        | None => None
        end
    | _, _ => None
    end.

(** [handleReorderProjects]: resolves with the list the board shows
    afterwards. *)
Definition handleReorderProjects (env : Env.t) (projects : list Project.t)
           (draggedId targetId : string) : M (list Project.t) :=
  match reorderProjects projects draggedId targetId with
  | None => ret projects
  | Some newProjects =>
      ApiService.updateProjects env newProjects ;;
      ret newProjects
  end.

(** [new Map(employees.map(e => [e.id, e])).get(id)]: of two entries with
    one key the later stays. *)
Definition employeeMapGet (employees : list Employee.t) (id : string)
  : option Employee.t :=
  find (fun e => (Employee.id e =? id)%string) (rev employees).

Module Filter.
Record t := mk { departmentId : string; employeeId : string }.
End Filter.

(** The test of [filteredProjects] on a task. *)
Definition keepTask (f : Filter.t) (employees : list Employee.t) (t : Task.t) : bool :=
  match employeeMapGet employees (Task.employeeId t) with
  | None => false
  | Some emp =>
      if negb (Filter.departmentId f =? "all")%string
         && negb (Employee.departmentId emp =? Filter.departmentId f)%string
      then false
      else if negb (Filter.employeeId f =? "all")%string
              && negb (Employee.id emp =? Filter.employeeId f)%string
      then false
      else true
  end.

(** [projects.map(p => ({ ...p, tasks: p.tasks.filter(...) }))]; [None]
    when some [p.tasks] is [undefined] (a [TypeError]). *)
Fixpoint filterTasks (keep : Task.t -> bool) (ps : list Project.t)
  : option (list Project.t) :=
  match ps with
  | [] => Some []
  | p :: r =>
      match Project.tasks p, filterTasks keep r with
      | Some ts, Some r' => Some (withTasks p (Some (filter keep ts)) :: r')
      | _, _ => None
      end
  end.

Definition hasSomeTask (p : Project.t) : bool :=
  match Project.tasks p with
  | Some (_ :: _) => true
  | _ => false
  end.

Definition filteredProjects (f : Filter.t) (employees : list Employee.t)
           (projects : list Project.t) : option (list Project.t) :=
  if (Filter.departmentId f =? "all")%string && (Filter.employeeId f =? "all")%string
  then Some projects
  else option_map (filter hasSomeTask) (filterTasks (keepTask f employees) projects).

(** The optimistic update of [handleProgressChange]:
    [prev.map(p => p.id !== projectId ? p
       : { ...p, tasks: p.tasks.map(t => t.id === taskId ? { ...t, progress } : t) })];
    [None] when a project named [projectId] has no [tasks]. *)
Definition setProgress (n : Z) (t : Task.t) : Task.t :=
  Task.mk (Task.id t) (Task.name t) (Task.startDate t) (Task.endDate t)
          (Task.color t) (Task.employeeId t) n (Task.description t).

Fixpoint optimisticProgress (projectId taskId : string) (n : Z) (ps : list Project.t)
  : option (list Project.t) :=
  match ps with
  | [] => Some []
  | p :: r =>
      match optimisticProgress projectId taskId n r with
      | None => None
      | Some r' =>
          if isProject projectId p then
            match Project.tasks p with
            | Some ts =>
                Some (withTasks p
                        (Some (map (fun t => if isTask taskId t then setProgress n t else t)
                                   ts)) :: r')
            | None => None
            end
          else Some (p :: r')
      end
  end.

End Ui.

Module ScenarioUi.

Definition board : list Project.t :=
  [ Project.mk "a" "Alpha" (Some []);
    Project.mk "b" "Beta" (Some []);
    Project.mk "c" "Gamma" (Some []) ].

Definition staff : list Employee.t :=
  [ Employee.mk "e1" "Kim" "d1"; Employee.mk "e2" "Lee" "d2" ].

Definition byKim : Task.t := Task.mk "t1" "Design" 0 1 "bg-rose-500" "e1" 0 None.
Definition byLee : Task.t := Task.mk "t2" "Review" 0 1 "bg-rose-500" "e2" 0 None.
Definition byGone : Task.t := Task.mk "t3" "Archive" 0 1 "bg-rose-500" "e9" 0 None.

Definition work : list Project.t :=
  [ Project.mk "a" "Alpha" (Some [byKim; byGone]);
    Project.mk "b" "Beta" (Some [byLee]) ].

End ScenarioUi.
(** * Properties *)

(** ** List lemmas *)

Lemma update_first_absent {A} (f : A -> bool) (g : A -> A) (l : list A) :
  find f l = None -> update_first f g l = l.
Proof.
  induction l as [|x r IH]; simpl; [reflexivity|].
  destruct (f x); [discriminate|]. intros H. now rewrite IH.
Qed.

Lemma update_first_fix {A} (f : A -> bool) (g : A -> A) (l : list A) :
  (forall x, find f l = Some x -> g x = x) -> update_first f g l = l.
Proof.
  induction l as [|x r IH]; simpl; [reflexivity|].
  destruct (f x); intros H.
  - now rewrite H.
  - now rewrite IH.
Qed.

Lemma find_update_first {A} (f : A -> bool) (g : A -> A) (l : list A) :
  (forall x, f x = true -> f (g x) = true) ->
  find f (update_first f g l) = option_map g (find f l).
Proof.
  intros Hg. induction l as [|x r IH]; simpl; [reflexivity|].
  destruct (f x) eqn:E; simpl.
  - now rewrite (Hg x E).
  - now rewrite E.
Qed.

Lemma update_first_twice {A} (f : A -> bool) (g h : A -> A) (l : list A) :
  (forall x, f x = true -> f (g x) = true) ->
  update_first f h (update_first f g l) = update_first f (fun x => h (g x)) l.
Proof.
  intros Hg. induction l as [|x r IH]; simpl; [reflexivity|].
  destruct (f x) eqn:E; simpl.
  - now rewrite (Hg x E).
  - now rewrite E, IH.
Qed.

Lemma update_first_ext {A} (f : A -> bool) (g h : A -> A) (l : list A) :
  (forall x, find f l = Some x -> g x = h x) ->
  update_first f g l = update_first f h l.
Proof.
  induction l as [|x r IH]; simpl; [reflexivity|].
  destruct (f x); intros H.
  - now rewrite H.
  - now rewrite IH.
Qed.

Lemma filter_twice {A} (f : A -> bool) (l : list A) :
  filter f (filter f l) = filter f l.
Proof.
  induction l as [|x r IH]; simpl; [reflexivity|].
  destruct (f x) eqn:E; simpl; [rewrite E, IH|]; auto.
Qed.

Lemma filter_absent {A} (f : A -> bool) (l : list A) :
  find f l = None -> filter (fun x => negb (f x)) l = l.
Proof.
  induction l as [|x r IH]; simpl; [reflexivity|].
  destruct (f x); [discriminate|]. simpl. intros H. now rewrite IH.
Qed.

Lemma find_map_same {A} (f : A -> bool) (g : A -> A) (l : list A) :
  (forall x, f (g x) = f x) ->
  find f (map g l) = option_map g (find f l).
Proof.
  intros Hg. induction l as [|x r IH]; simpl; [reflexivity|].
  rewrite Hg. destruct (f x); auto.
Qed.

(** ** The schema-drift detector *)

(** [isMissingColumnError] accepts an error exactly when its code is
    [42703] or its message, lower-cased, contains both the word
    [column] and the lower-cased column name. *)
Lemma isMissingColumnError_iff (e : PostgrestError.t) (columnName : string) :
  Part002.isMissingColumnError (Some e) columnName = true <->
  PostgrestError.code e = Some "42703" \/
  (includes (toLowerCase (Part002.message_text e)) "column" = true /\
   includes (toLowerCase (Part002.message_text e)) (toLowerCase columnName) = true).
Proof.
  unfold Part002.isMissingColumnError, Part002.code_is.
  destruct (PostgrestError.code e) as [k|] eqn:Ek.
  - destruct (String.eqb_spec k "42703") as [->|Hne].
    + split; auto.
    + rewrite andb_true_iff. split; [auto|].
      intros [H|H]; [congruence|exact H].
  - rewrite andb_true_iff. split; [auto|].
    intros [H|H]; [discriminate|exact H].
Qed.

Lemma isMissingColumnError_null (columnName : string) :
  Part002.isMissingColumnError None columnName = false.
Proof. reflexivity. Qed.

(** The error Postgres raises for an unknown column, and the one PostgREST
    raises when its schema cache lacks the column. *)
Example undefined_column_detected :
  Part002.isMissingColumnError
    (Some (PostgrestError.mk (Some "42703")
             (Some "column projects.position does not exist"))) "position" = true
  /\ Part002.isMissingColumnError
       (Some (PostgrestError.mk (Some "PGRST204")
                (Some "Could not find the 'position' COLUMN of 'projects' in the schema cache")))
       "Position" = true
  /\ Part002.isMissingColumnError
       (Some (PostgrestError.mk (Some "42501")
                (Some "permission denied for table projects"))) "position" = false.
Proof. repeat split; reflexivity. Qed.

(** ** Ordering fallback of the remote read (part_002) *)

Lemma remote_client (s : State.t) :
  remote s = true -> exists c, State.supabase s = Some c /\ State.useSupabase s = true.
Proof.
  unfold remote. destruct (State.useSupabase s), (State.supabase s) as [c|];
    simpl; try discriminate. intros _. now exists c.
Qed.

Lemma fetchTasksForProjects_answer (env : Env.t) (s : State.t)
      (projectsData : list ProjectRow.t) (trows : list TaskRow.t) :
  State.supabase s <> None ->
  tasksAnswer (Env.backend env) trows ->
  resolves_with (Part002.fetchTasksForProjects env projectsData) s
                (Some (map (projectOfRow env trows) projectsData)).
Proof.
  intros Hc Ht. unfold Part002.fetchTasksForProjects. unfold_js. simpl.
  destruct (State.supabase s) as [c|]; [|congruence].
  destruct Ht as [[He Hd] | (tError & He & Hm & Hf & Hd)].
  - rewrite He. simpl. now rewrite Hd.
  - rewrite He, Hm. simpl. rewrite Hf. simpl. now rewrite Hd.
Qed.

(** C1.  In remote mode, when the backend refuses the query ordered by
    [position] with an error of the missing-column class, and answers the
    reads that do not mention [position], [getProjects] does not reject: it
    reads the projects again ordered by [created_at] (and the tasks ordered
    by [id] if need be) and resolves with one project per row of the
    retried read, in the order of that read. *)
Theorem getProjects_missing_position_falls_back
        (env : Env.t) (s : State.t) (pError : PostgrestError.t)
        (trows : list TaskRow.t) :
  remote s = true ->
  Response.error (Backend.selectProjects (Env.backend env) ["position"; "created_at"])
    = Some pError ->
  Part002.isMissingColumnError (Some pError) "position" = true ->
  Response.error (Backend.selectProjects (Env.backend env) ["created_at"]) = None ->
  tasksAnswer (Env.backend env) trows ->
  let rows := or_empty (Response.data (Backend.selectProjects (Env.backend env) ["created_at"])) in
  let ps := map (projectOfRow env trows) rows in
  resolves_with (Part002.getProjects env) s (Some ps)
  /\ map Project.id ps = map ProjectRow.id rows
  /\ map Project.name ps = map ProjectRow.name rows
  /\ List.length ps = List.length rows.
Proof.
  intros Hr He Hm Hf Ht rows ps. split.
  - destruct (remote_client s Hr) as (c & Hc & _).
    unfold Part002.getProjects. unfold_js. simpl. rewrite Hr, He, Hm. simpl.
    rewrite Hf. simpl.
    match goal with
    | |- context [Part002.fetchTasksForProjects env ?r ?st] =>
        pose proof (@fetchTasksForProjects_answer env st r trows) as Hq
    end.
    unfold resolves_with, outcome in Hq. simpl in Hq.
    specialize (Hq ltac:(rewrite Hc; discriminate) Ht).
    match goal with
    | |- context [Part002.fetchTasksForProjects env ?r ?st] =>
        destruct (Part002.fetchTasksForProjects env r st) as [o st']
    end.
    simpl in Hq. subst o. reflexivity.
  - subst ps. rewrite !map_map, length_map. simpl. repeat split; reflexivity.
Qed.

Lemma getProjects_missing_position_falls_back_witness :
  resolves_with
    (Part002.getProjects (Scenario.envOf "" "" Scenario.backendWithoutPosition))
    (Scenario.connected NoItem)
    (Some (map (projectOfRow (Scenario.envOf "" "" Scenario.backendWithoutPosition)
                             Scenario.taskRows)
               Scenario.projectRows)).
Proof.
  apply (@getProjects_missing_position_falls_back
           (Scenario.envOf "" "" Scenario.backendWithoutPosition)
           (Scenario.connected NoItem) Scenario.undefinedColumn Scenario.taskRows);
    try reflexivity.
  right. exists Scenario.undefinedColumn. repeat split; reflexivity.
Defined.

(** ** Propagation of backend errors (part_002) *)

Ltac remote_write Hr :=
  unfold answer_of; unfold_js; simpl; rewrite Hr; simpl;
  match goal with
  | |- context [Backend.write ?b ?w] => destruct (Backend.write b w)
  end; reflexivity.

(** C2, the claim as stated fails: with a backend that answers the
    position upsert with "permission denied", an error outside the
    missing-column class, [updateProjects] and [updateTaskPositions]
    resolve; the error is logged and not thrown. *)
Lemma reorder_writes_absorb_permission_denied :
  remote (Scenario.connected NoItem) = true
  /\ Backend.write (Env.backend Scenario2.deniedEnv)
       (projectPositions [Scenario2.audit; Scenario2.launch])
     = Some Scenario.permissionDenied
  /\ Part002.isMissingColumnError (Some Scenario.permissionDenied) "position" = false
  /\ resolves_with
       (Part002.updateProjects Scenario2.deniedEnv [Scenario2.audit; Scenario2.launch])
       (Scenario.connected NoItem) [Scenario2.audit; Scenario2.launch]
  /\ ~ rejects_with
       (Part002.updateProjects Scenario2.deniedEnv [Scenario2.audit; Scenario2.launch])
       (Scenario.connected NoItem) (BackendError Scenario.permissionDenied)
  /\ resolves_with
       (Part002.updateTaskPositions Scenario2.deniedEnv "project-1" [])
       (Scenario.connected NoItem) tt.
Proof.
  repeat split; try reflexivity.
  unfold rejects_with. vm_compute. discriminate.
Qed.

Lemma log_upsert_error_resolves (label : string) (error : option PostgrestError.t)
      (s : State.t) :
  outcome (Part002.log_upsert_error label error) s = Resolved tt.
Proof.
  unfold Part002.log_upsert_error. destruct error as [e|]; [|reflexivity].
  destruct (negb (Part002.isMissingColumnError (Some e) "position")); reflexivity.
Qed.

(** C2, amended.  In remote mode every list, add, update and delete
    operation of part_002 rejects with the error of its request, unchanged.
    The two ordered reads of [getProjects] retry once when the error is of
    the missing-column class and reject with the error of the retry if
    that is refused too, whatever its class; an error of the tasks read
    rejects the call after the projects were read, at once or on their
    retry.  A refused projects, departments or employees read is printed
    with [console.error] before it is thrown again; a refused tasks read is
    not.  The reorder writes [updateProjects] and [updateTaskPositions]
    never reject: an error of the position upsert is printed with
    [console.error] unless it is of the missing-column class, nothing else
    is done with it, and the call resolves. *)
Theorem remote_errors_propagate_except_reorder
        (env : Env.t) (s : State.t) (e : PostgrestError.t)
        (now : Z) (id name departmentId projectId taskId : string)
        (taskData : TaskData.t) (taskUpdate : TaskPatch.t)
        (projects : list Project.t) (tasks : list Task.t) :
  remote s = true ->
  let b := Env.backend env in
  let failed := Rejected (A := option (list Project.t)) (BackendError e) in
  let label := "Supabase fetch error (getProjects):" in
  (* the projects read *)
  (Response.error (Backend.selectProjects b ["position"; "created_at"]) = Some e ->
   Part002.isMissingColumnError (Some e) "position" = false ->
   Part002.getProjects env s = (failed, logged s (printed label e)))
  /\ (forall e0,
      Response.error (Backend.selectProjects b ["position"; "created_at"]) = Some e0 ->
      Part002.isMissingColumnError (Some e0) "position" = true ->
      Response.error (Backend.selectProjects b ["created_at"]) = Some e ->
      Part002.getProjects env s
      = (failed, logged (logged s warnProjects) (printed label e)))
  (* the tasks read, the projects read at once *)
  /\ (Response.error (Backend.selectProjects b ["position"; "created_at"]) = None ->
      Response.error (Backend.selectTasks b ["position"; "id"]) = Some e ->
      Part002.isMissingColumnError (Some e) "position" = false ->
      Part002.getProjects env s = (failed, s))
  /\ (forall e1,
      Response.error (Backend.selectProjects b ["position"; "created_at"]) = None ->
      Response.error (Backend.selectTasks b ["position"; "id"]) = Some e1 ->
      Part002.isMissingColumnError (Some e1) "position" = true ->
      Response.error (Backend.selectTasks b ["id"]) = Some e ->
      Part002.getProjects env s = (failed, logged s warnTasks))
  (* the tasks read, the projects read on the retry *)
  /\ (forall e0,
      Response.error (Backend.selectProjects b ["position"; "created_at"]) = Some e0 ->
      Part002.isMissingColumnError (Some e0) "position" = true ->
      Response.error (Backend.selectProjects b ["created_at"]) = None ->
      Response.error (Backend.selectTasks b ["position"; "id"]) = Some e ->
      Part002.isMissingColumnError (Some e) "position" = false ->
      Part002.getProjects env s = (failed, logged s warnProjects))
  /\ (forall e0 e1,
      Response.error (Backend.selectProjects b ["position"; "created_at"]) = Some e0 ->
      Part002.isMissingColumnError (Some e0) "position" = true ->
      Response.error (Backend.selectProjects b ["created_at"]) = None ->
      Response.error (Backend.selectTasks b ["position"; "id"]) = Some e1 ->
      Part002.isMissingColumnError (Some e1) "position" = true ->
      Response.error (Backend.selectTasks b ["id"]) = Some e ->
      Part002.getProjects env s = (failed, logged (logged s warnProjects) warnTasks))
  (* departments and employees *)
  /\ (Response.error (Backend.selectDepartments b ["name"]) = Some e ->
      Part002.getDepartments env s
      = (Rejected (BackendError e),
         logged s (printed "Supabase fetch error (getDepartments):" e)))
  /\ (Response.error (Backend.selectDepartments b ["name"]) = None ->
      Response.error (Backend.selectEmployees b []) = Some e ->
      Part002.getDepartments env s
      = (Rejected (BackendError e),
         logged s (printed "Supabase fetch error (getDepartments):" e)))
  /\ (Response.error (Backend.selectEmployees b ["name"]) = Some e ->
      Part002.getEmployees env s
      = (Rejected (BackendError e),
         logged s (printed "Supabase fetch error (getEmployees):" e)))
  (* the writes *)
  /\ outcome (Part002.addDepartment env now name) s
     = answer_of (Backend.write b (InsertDepartment ("dept-" ++ string_of_Z now) name))
                 (Department.mk ("dept-" ++ string_of_Z now) name [])
  /\ outcome (Part002.deleteDepartment env id) s
     = answer_of (Backend.write b (DeleteDepartment id)) tt
  /\ outcome (Part002.addEmployee env now name departmentId) s
     = answer_of (Backend.write b
                    (InsertEmployee ("emp-" ++ string_of_Z now) name departmentId))
                 (Employee.mk ("emp-" ++ string_of_Z now) name departmentId)
  /\ outcome (Part002.deleteEmployee env id) s
     = answer_of (Backend.write b (DeleteEmployee id)) tt
  /\ outcome (Part002.addProject env now name) s
     = answer_of (Backend.write b
                    (InsertProject ("project-" ++ string_of_Z now) name (Some 999)))
                 (Project.mk ("project-" ++ string_of_Z now) name (Some []))
  /\ outcome (Part002.updateProject env projectId name) s
     = answer_of (Backend.write b (UpdateProjectName projectId name))
                 (Project.mk projectId name (Some []))
  /\ outcome (Part002.deleteProject env projectId) s
     = answer_of (Backend.write b (DeleteProject projectId)) (IdResult.mk projectId)
  /\ outcome (Part002.addTask env now projectId taskData) s
     = answer_of
         (Backend.write b
            (InsertTask
               (TaskRow.mk (Part002.taskId now) projectId (TaskData.name taskData)
                           (Env.isoDate env (TaskData.startDate taskData))
                           (Env.isoDate env (TaskData.endDate taskData))
                           "bg-blue-500" (TaskData.employeeId taskData) 0
                           (TaskData.description taskData))
               (Some 999)))
         (newTask (Part002.taskId now) taskData "bg-blue-500")
  /\ outcome (Part002.updateTask env projectId taskId taskUpdate) s
     = answer_of (Backend.write b (UpdateTask taskId (buildUpdates env taskUpdate)))
                 (PartialTask.mk taskId taskUpdate)
  /\ outcome (Part002.deleteTask env projectId taskId) s
     = answer_of (Backend.write b (DeleteTask taskId)) (IdResult.mk taskId)
  (* the reorder writes *)
  /\ resolves_with (Part002.updateProjects env projects) s projects
  /\ resolves_with (Part002.updateTaskPositions env projectId tasks) s tt
  /\ (Backend.write b (projectPositions projects) = Some e ->
      Part002.isMissingColumnError (Some e) "position" = false ->
      Part002.updateProjects env projects s
      = (Resolved projects, logged s (printed "Upsert error:" e)))
  /\ (Backend.write b (taskPositions projectId tasks) = Some e ->
      Part002.isMissingColumnError (Some e) "position" = false ->
      Part002.updateTaskPositions env projectId tasks s
      = (Resolved tt, logged s (printed "Task Pos Upsert error:" e)))
  /\ (Backend.write b (projectPositions projects) = None
      \/ (Backend.write b (projectPositions projects) = Some e
          /\ Part002.isMissingColumnError (Some e) "position" = true) ->
      Part002.updateProjects env projects s = (Resolved projects, s))
  /\ (Backend.write b (taskPositions projectId tasks) = None
      \/ (Backend.write b (taskPositions projectId tasks) = Some e
          /\ Part002.isMissingColumnError (Some e) "position" = true) ->
      Part002.updateTaskPositions env projectId tasks s = (Resolved tt, s)).
Proof.
  intros Hr b failed label. subst b failed label.
  destruct (remote_client s Hr) as (c & Hc & _).
  unfold warnProjects, warnTasks, printed, projectPositions, taskPositions.
  repeat match goal with |- _ /\ _ => split end.
  - intros He Hm. unfold Part002.getProjects. unfold_js. simpl.
    rewrite Hr, He, Hm. reflexivity.
  - intros e0 He0 Hm He. unfold Part002.getProjects. unfold_js. simpl.
    rewrite Hr, He0, Hm. simpl. rewrite He. reflexivity.
  - intros Hp He Hm. unfold Part002.getProjects, Part002.fetchTasksForProjects.
    unfold_js. simpl. rewrite Hr, Hp. simpl. rewrite Hc.
    rewrite He, Hm. unfold logged. rewrite ?Hc. destruct s; simpl in *; subst; reflexivity.
  - intros e1 Hp He1 Hm He. unfold Part002.getProjects, Part002.fetchTasksForProjects.
    unfold_js. simpl. rewrite Hr, Hp. simpl. rewrite Hc.
    rewrite He1, Hm. simpl. rewrite He. unfold logged. rewrite ?Hc. reflexivity.
  - intros e0 He0 Hm0 Hp He Hm.
    unfold Part002.getProjects, Part002.fetchTasksForProjects.
    unfold_js. simpl. rewrite Hr, He0, Hm0. simpl. rewrite Hp. simpl. rewrite Hc.
    rewrite He, Hm. unfold logged. rewrite ?Hc. reflexivity.
  - intros e0 e1 He0 Hm0 Hp He1 Hm1 He.
    unfold Part002.getProjects, Part002.fetchTasksForProjects.
    unfold_js. simpl. rewrite Hr, He0, Hm0. simpl. rewrite Hp. simpl. rewrite Hc.
    rewrite He1, Hm1. simpl. rewrite He. unfold logged. rewrite ?Hc. reflexivity.
  - intros He. unfold Part002.getDepartments. unfold_js. simpl.
    rewrite Hr, He. reflexivity.
  - intros Hd He. unfold Part002.getDepartments. unfold_js. simpl.
    rewrite Hr, Hd, He. reflexivity.
  - intros He. unfold Part002.getEmployees. unfold_js. simpl.
    rewrite Hr, He. reflexivity.
  - unfold Part002.addDepartment. remote_write Hr.
  - unfold Part002.deleteDepartment. remote_write Hr.
  - unfold Part002.addEmployee. remote_write Hr.
  - unfold Part002.deleteEmployee. remote_write Hr.
  - unfold Part002.addProject. remote_write Hr.
  - unfold Part002.updateProject. remote_write Hr.
  - unfold Part002.deleteProject. remote_write Hr.
  - unfold Part002.addTask. remote_write Hr.
  - unfold Part002.updateTask. remote_write Hr.
  - unfold Part002.deleteTask. remote_write Hr.
  - unfold Part002.updateProjects. unfold resolves_with, outcome, bind, get_state.
    rewrite Hr.
    match goal with
    | |- context [Part002.log_upsert_error ?l ?err ?st] =>
        pose proof (log_upsert_error_resolves l err st) as Hl;
        unfold outcome in Hl;
        destruct (Part002.log_upsert_error l err st) as [o st']
    end.
    simpl in Hl. subst o. reflexivity.
  - unfold Part002.updateTaskPositions. unfold resolves_with, outcome, bind, get_state.
    rewrite Hr. apply log_upsert_error_resolves.
  - intros He Hm. unfold Part002.updateProjects, Part002.log_upsert_error, bind, get_state.
    cbv beta iota zeta. rewrite Hr. cbv beta iota. rewrite He, Hm. reflexivity.
  - intros He Hm.
    unfold Part002.updateTaskPositions, Part002.log_upsert_error, bind, get_state.
    cbv beta iota zeta. rewrite Hr. cbv beta iota. rewrite He, Hm. reflexivity.
  - intros H. unfold Part002.updateProjects, Part002.log_upsert_error, bind, get_state.
    cbv beta iota zeta. rewrite Hr. cbv beta iota.
    destruct H as [H|[H Hm]]; rewrite H; [|rewrite Hm]; reflexivity.
  - intros H.
    unfold Part002.updateTaskPositions, Part002.log_upsert_error, bind, get_state.
    cbv beta iota zeta. rewrite Hr. cbv beta iota.
    destruct H as [H|[H Hm]]; rewrite H; [|rewrite Hm]; reflexivity.
Qed.

Lemma remote_errors_propagate_except_reorder_witness :
  Part002.getDepartments Scenario2.deniedEnv (Scenario.connected NoItem)
  = (Rejected (BackendError Scenario.permissionDenied),
     logged (Scenario.connected NoItem)
            (printed "Supabase fetch error (getDepartments):" Scenario.permissionDenied))
  /\ Part002.updateProjects Scenario2.deniedEnv [Scenario2.audit; Scenario2.launch]
       (Scenario.connected NoItem)
     = (Resolved [Scenario2.audit; Scenario2.launch],
        logged (Scenario.connected NoItem)
               (printed "Upsert error:" Scenario.permissionDenied)).
Proof.
  pose proof (@remote_errors_propagate_except_reorder
                Scenario2.deniedEnv (Scenario.connected NoItem) Scenario.permissionDenied
                0 "d1" "Ops" "d1" "project-1" "task-1"
                (TaskData.mk "Design" 0 0 "e1" None) TaskPatch.empty
                [Scenario2.audit; Scenario2.launch] [] eq_refl) as H.
  cbv zeta in H.
  destruct H
    as (_ & _ & _ & _ & _ & _ & Hd & _ & _ & _ & _ & _ & _ & _ & _ & _ & _ & _ & _
        & _ & _ & Hu & _).
  split; [exact (Hd eq_refl) | exact (Hu eq_refl eq_refl)].
Defined.

(** ** The local read *)

Lemma map_ensureTasks_shaped (ps : list Project.t) :
  forallb hasTasks ps = true -> map ApiService.ensureTasks ps = ps.
Proof.
  induction ps as [|p r IH]; simpl; [reflexivity|].
  rewrite andb_true_iff. intros [Hp Hr]. rewrite (IH Hr).
  unfold ApiService.ensureTasks, hasTasks in *.
  destruct (Project.tasks p); [reflexivity|discriminate].
Qed.

Lemma ensureTasks_hasTasks (ps : list Project.t) :
  forallb hasTasks (map ApiService.ensureTasks ps) = true.
Proof.
  induction ps as [|p r IH]; simpl; [reflexivity|].
  rewrite IH, andb_true_r. unfold ApiService.ensureTasks, hasTasks.
  destruct (Project.tasks p) eqn:E; simpl; [now rewrite E|reflexivity].
Qed.

(** [readLocalData] of [apiService.ts], by the stored text. *)
Lemma apiService_readLocalData_cases (env : Env.t) (s : State.t) :
  ApiService.readLocalData env s =
  match State.dataItem s with
  | BadJson =>
      (Resolved (ApiService.getInitialData env),
       logged s (console_error "Failed to read local data" (Some SyntaxError)))
  | JsonText (PDoc d) =>
      match AppData.projects d with
      | Some ps =>
          (Resolved (withProjects d (Some (map ApiService.ensureTasks ps))), s)
      | None =>
          (Resolved (ApiService.getInitialData env),
           storeData s (JsonText (PDoc (ApiService.getInitialData env))))
      end
  | _ =>
      (Resolved (ApiService.getInitialData env),
       storeData s (JsonText (PDoc (ApiService.getInitialData env))))
  end.
Proof.
  unfold ApiService.readLocalData, ApiService.seedAndPersist. unfold_js.
  destruct (State.dataItem s) as [| | |[|j|j|d]]; try reflexivity.
  destruct (AppData.projects d); reflexivity.
Qed.

Lemma apiService_seed_shaped (env : Env.t) :
  wellShaped (ApiService.getInitialData env) = true.
Proof. reflexivity. Qed.

(** The local read of [apiService.ts] always resolves, with a well-shaped
    dataset, and changes neither the connection nor the configuration. *)
Lemma apiService_readLocalData_total (env : Env.t) (s : State.t) :
  exists d s',
    ApiService.readLocalData env s = (Resolved d, s')
    /\ wellShaped d = true
    /\ State.supabase s' = State.supabase s
    /\ State.useSupabase s' = State.useSupabase s
    /\ State.configItem s' = State.configItem s.
Proof.
  rewrite apiService_readLocalData_cases.
  destruct (State.dataItem s) as [| | |[|j|j|d]];
    try (eexists; eexists; repeat split; reflexivity).
  destruct (AppData.projects d) as [ps|] eqn:E.
  - eexists; eexists; repeat split. unfold wellShaped. simpl.
    apply ensureTasks_hasTasks.
  - eexists; eexists; repeat split; reflexivity.
Qed.

(** Reading back what was written: a well-shaped dataset is returned as it
    was stored, and the read leaves the state alone. *)
Lemma apiService_read_after_write (env : Env.t) (s : State.t) (d : AppData.t) :
  wellShaped d = true ->
  ApiService.readLocalData env (storeData s (JsonText (PDoc d)))
  = (Resolved d, storeData s (JsonText (PDoc d))).
Proof.
  intros Hd. rewrite apiService_readLocalData_cases. unfold wellShaped in Hd. simpl.
  destruct d as [ps ds es]. simpl in *. destruct ps as [ps|]; [|discriminate].
  unfold withProjects. simpl. now rewrite (map_ensureTasks_shaped ps Hd).
Qed.

(** Seed-on-empty holds for [apiService.ts]: with no record, or a record
    that fails the structural validation, the read resolves with the seed,
    stores it, and a second read returns the same dataset and changes
    nothing more. *)
Lemma apiService_readLocalData_seeds (env : Env.t) (s : State.t) :
  noRecord (State.dataItem s) || failsValidation (State.dataItem s) = true ->
  let seed := ApiService.getInitialData env in
  let s' := after (ApiService.readLocalData env) s in
  outcome (ApiService.readLocalData env) s = Resolved seed
  /\ nonEmptySeed seed = true
  /\ State.dataItem s' = JsonText (PDoc seed)
  /\ ApiService.readLocalData env s' = (Resolved seed, s').
Proof.
  intros H seed s'. subst s'. unfold outcome, after.
  rewrite apiService_readLocalData_cases.
  assert (Hre : ApiService.readLocalData env (storeData s (JsonText (PDoc seed)))
                = (Resolved seed, storeData s (JsonText (PDoc seed))))
    by (apply apiService_read_after_write; reflexivity).
  destruct (State.dataItem s) as [| | |[|j|j|d]]; simpl in *; try discriminate;
    try (repeat split; solve [reflexivity | exact Hre]).
  destruct (AppData.projects d); [discriminate|].
  simpl. repeat split; solve [reflexivity | exact Hre].
Qed.

(** C3.  [readLocalData] of part_002 at an empty store: it resolves with
    the seed and leaves the store empty, so the seed is not persisted and a
    read on a later day resolves with a different dataset; and a stored
    record without an array of projects is returned as it is instead of the
    seed. *)
Theorem part002_readLocalData_does_not_persist_seed
        (env : Env.t) (sup : option Client) (flag : bool)
        (cfg : option (string * string)) (con : list LogEntry)
        (ds : option (list Department.t)) (es : option (list Employee.t)) :
  Part002.readLocalData env (State.mk sup flag NoItem cfg con)
  = (Resolved (PDoc (Part002.getInitialData env)), State.mk sup flag NoItem cfg con)
  /\ Part002.readLocalData env
       (State.mk sup flag (JsonText (PDoc (AppData.mk None ds es))) cfg con)
     = (Resolved (PDoc (AppData.mk None ds es)),
        State.mk sup flag (JsonText (PDoc (AppData.mk None ds es))) cfg con)
  /\ firstStart (asData (outcome (Part002.readLocalData (Scenario3.laterEnv 0))
                                  (Scenario.offline NoItem)))
     = Some (addDays Scenario.someDay 1)
  /\ firstStart (asData (outcome (Part002.readLocalData (Scenario3.laterEnv 1))
                                  (after (Part002.readLocalData (Scenario3.laterEnv 0))
                                         (Scenario.offline NoItem))))
     = Some (addDays Scenario.someDay 2).
Proof.
  repeat split.
Qed.

(** ** Leaving remote mode *)

Lemma part000_readLocalData_total (env : Env.t) (s : State.t) :
  exists d s', Part000.readLocalData env s = (Resolved d, s').
Proof.
  unfold Part000.readLocalData, Part000.seedAndPersist. unfold_js.
  destruct (State.dataItem s) as [| | |[|j|j|d]]; try (eexists; eexists; reflexivity).
  destruct (AppData.projects d); eexists; eexists; reflexivity.
Qed.

Lemma part000_lists_local (env : Env.t) (s : State.t) :
  remote s = false ->
  exists d, outcome (Part000.readLocalData env) s = Resolved d
            /\ listsResolveWith env s d.
Proof.
  intros Hr. destruct (part000_readLocalData_total env s) as (d & s' & Hd).
  exists d. unfold listsResolveWith, Part000.getProjects, Part000.getDepartments,
    Part000.getEmployees, outcome, bind, get_state.
  rewrite Hr, Hd. repeat split; reflexivity.
Qed.

Lemma apiService_projects_local (env : Env.t) (s : State.t) :
  remote s = false ->
  exists d, outcome (ApiService.readLocalData env) s = Resolved d
            /\ outcome (ApiService.getProjects env) s = Resolved (AppData.projects d).
Proof.
  intros Hr. destruct (apiService_readLocalData_total env s) as (d & s' & Hd & _).
  exists d. unfold ApiService.getProjects, outcome, bind, get_state.
  rewrite Hr, Hd. split; reflexivity.
Qed.

(** C4, the claim as stated fails: with the URL and key that part_000
    compiles in, [initSupabase("", "")] after a successful connection
    builds a client for them again; remote mode stays active and the list
    operations keep reading the backend. *)
Lemma initSupabase_empty_keeps_compiled_in_connection :
  remote Scenario4.connectedWithConfig = true
  /\ remote (after (Part000.initSupabase Scenario4.compiledIn "" "")
                   Scenario4.connectedWithConfig) = true
  /\ remote (after (ApiService.initSupabase Scenario4.compiledIn "" "")
                   Scenario4.connectedWithConfig) = true
  /\ outcome (Part000.getProjects Scenario4.compiledIn)
             (after (Part000.initSupabase Scenario4.compiledIn "" "")
                    Scenario4.connectedWithConfig)
     = Resolved (Some (map (projectOfRow Scenario4.compiledIn Scenario.taskRows)
                           Scenario.projectRows))
  /\ outcome (Part000.readLocalData Scenario4.compiledIn)
             (after (Part000.initSupabase Scenario4.compiledIn "" "")
                    Scenario4.connectedWithConfig)
     = Resolved Scenario4.localData.
Proof. repeat split; reflexivity. Qed.

(** C4, amended.  When the compiled-in or environment URL or key is
    empty, [initSupabase("", "")] turns remote mode off and drops the
    client, removes the persisted configuration if no global URL is set,
    leaves the local data alone, and every list operation of part_000, and
    [getProjects] of [apiService.ts], then resolves with what the local
    read returns.  When both are set, the call builds a client for them
    again: remote mode is active afterwards and the persisted configuration
    is untouched (if the construction throws, only the flag is cleared). *)
Theorem initSupabase_empty_arguments (env : Env.t) (s : State.t) :
  let s' := after (Part000.initSupabase env "" "") s in
  after (ApiService.initSupabase env "" "") s
  = (if globallyConfigured env
     then match Env.createClient env (Env.GLOBAL_SUPABASE_URL env)
                                     (Env.GLOBAL_SUPABASE_KEY env) with
          | Some _ => logged s' (console_log "Using Global Supabase Connection")
          | None => s'
          end
     else s')
  /\ State.dataItem s' = State.dataItem s
  /\ if globallyConfigured env then
       State.configItem s' = State.configItem s
       /\ match Env.createClient env (Env.GLOBAL_SUPABASE_URL env)
                                     (Env.GLOBAL_SUPABASE_KEY env) with
          | Some c => State.supabase s' = Some c /\ remote s' = true
          | None => State.supabase s' = State.supabase s /\ remote s' = false
          end
     else
       State.useSupabase s' = false
       /\ State.supabase s' = None
       /\ remote s' = false
       /\ State.configItem s'
          = (if truthy (Env.GLOBAL_SUPABASE_URL env) then State.configItem s else None)
       /\ (exists d, outcome (Part000.readLocalData env) s' = Resolved d
                     /\ listsResolveWith env s' d)
       /\ (exists d, outcome (ApiService.readLocalData env) s' = Resolved d
                     /\ outcome (ApiService.getProjects env) s'
                        = Resolved (AppData.projects d)).
Proof.
  intros s'. subst s'.
  unfold globallyConfigured, Part000.initSupabase, ApiService.initSupabase, or_else.
  destruct (truthy (Env.GLOBAL_SUPABASE_URL env)) eqn:Eu;
    destruct (truthy (Env.GLOBAL_SUPABASE_KEY env)) eqn:Ek; simpl;
    rewrite ?Eu, ?Ek; simpl.
  - destruct (Env.createClient env (Env.GLOBAL_SUPABASE_URL env)
                               (Env.GLOBAL_SUPABASE_KEY env)) as [c|];
      unfold_js; simpl; repeat split; reflexivity.
  - unfold_js. simpl. repeat split; try reflexivity.
    + apply part000_lists_local. reflexivity.
    + apply apiService_projects_local. reflexivity.
  - unfold_js. simpl. repeat split; try reflexivity.
    + apply part000_lists_local. reflexivity.
    + apply apiService_projects_local. reflexivity.
  - unfold_js. simpl. repeat split; try reflexivity.
    + apply part000_lists_local. reflexivity.
    + apply apiService_projects_local. reflexivity.
Qed.

Example leaving_remote_mode_without_global_configuration :
  let s' := after (Part000.initSupabase Scenario4.unconfigured "" "")
                  Scenario4.connectedWithConfig in
  remote s' = false
  /\ State.configItem s' = None
  /\ listsResolveWith Scenario4.unconfigured s' Scenario4.localData.
Proof. repeat split; reflexivity. Qed.

(** ** Partial update of a task *)

Lemma part002_readLocalData_cases (env : Env.t) (s : State.t) :
  Part002.readLocalData env s =
  match State.dataItem s with
  | NoItem | EmptyText | BadJson | JsonText PNull =>
      (Resolved (PDoc (Part002.getInitialData env)), s)
  | JsonText v => (Resolved v, s)
  end.
Proof.
  unfold Part002.readLocalData. unfold_js.
  destruct (State.dataItem s) as [| | |[|j|j|d]]; reflexivity.
Qed.

(** The read of part_002 writes nothing. *)
Lemma part002_read_state (env : Env.t) (s : State.t) :
  Part002.readLocalData env s = (outcome (Part002.readLocalData env) s, s).
Proof.
  unfold outcome. rewrite part002_readLocalData_cases.
  destruct (State.dataItem s) as [| | |[|j|j|d]]; reflexivity.
Qed.

Lemma storeData_data (s : State.t) : storeData s (State.dataItem s) = s.
Proof. destruct s; reflexivity. Qed.

Lemma remote_storeData (s : State.t) (r : RawData) : remote (storeData s r) = remote s.
Proof. reflexivity. Qed.

Lemma isProject_withTasks (projectId : string) (p : Project.t) ts :
  isProject projectId (withTasks p ts) = isProject projectId p.
Proof. reflexivity. Qed.

Lemma isTask_assign (taskId : string) (t : Task.t) (u : TaskPatch.t) :
  TaskPatch.id u = None -> isTask taskId (assign t u) = isTask taskId t.
Proof. intros H. unfold isTask, assign. simpl. now rewrite H. Qed.

(** The patched dataset holds the patched task where the task was. *)
Lemma lookupTask_patchTask (d : AppData.t) (projectId taskId : string)
      (u : TaskPatch.t) (t : Task.t) :
  TaskPatch.id u = None ->
  lookupTask d projectId taskId = Some t ->
  lookupTask (patchTask d projectId taskId u) projectId taskId = Some (assign t u).
Proof.
  intros Hu. unfold lookupTask, lookupProject, patchTask. simpl.
  destruct (AppData.projects d) as [ps|]; [|discriminate]. simpl.
  rewrite find_update_first by (intros; assumption).
  destruct (find (isProject projectId) ps) as [p|]; [|discriminate]. simpl.
  destruct (Project.tasks p) as [ts|]; [|discriminate]. simpl.
  rewrite find_update_first by (intros x Hx; now rewrite isTask_assign).
  intros ->. reflexivity.
Qed.

Lemma wellShaped_patchTask (d : AppData.t) (projectId taskId : string) (u : TaskPatch.t) :
  wellShaped d = true -> wellShaped (patchTask d projectId taskId u) = true.
Proof.
  unfold wellShaped, patchTask. simpl.
  destruct (AppData.projects d) as [ps|]; [|discriminate]. simpl.
  induction ps as [|p r IH]; simpl; [reflexivity|].
  rewrite andb_true_iff. intros [Hp Hr].
  destruct (isProject projectId p); simpl.
  - rewrite Hr, andb_true_r. unfold hasTasks in *. simpl.
    destruct (Project.tasks p); [reflexivity|discriminate].
  - now rewrite Hp, IH.
Qed.

(** The local branch of [updateTask] in [apiService.ts]. *)
Lemma apiService_updateTask_local (env : Env.t) (s s1 : State.t)
      (projectId taskId : string) (u : TaskPatch.t) (d : AppData.t) (t : Task.t) :
  remote s = false ->
  ApiService.readLocalData env s = (Resolved d, s1) ->
  lookupTask d projectId taskId = Some t ->
  ApiService.updateTask env projectId taskId u s
  = (Resolved (StoredTask (assign t u)),
     storeData s1 (JsonText (PDoc (patchTask d projectId taskId u)))).
Proof.
  intros Hr Hd Ht. unfold ApiService.updateTask, bind at 1, get_state.
  rewrite Hr. unfold bind at 1. rewrite Hd.
  unfold lookupTask, lookupProject, patchTask in *.
  destruct (AppData.projects d) as [ps|]; [|discriminate].
  unfold_js. simpl.
  destruct (find (isProject projectId) ps) as [p|]; [|discriminate].
  destruct (Project.tasks p) as [ts|]; [|discriminate]. simpl.
  rewrite Ht. reflexivity.
Qed.

(** The local branch of [updateTask] in part_002. *)
Lemma part002_updateTask_local (env : Env.t) (s : State.t)
      (projectId taskId : string) (u : TaskPatch.t) (d : AppData.t) (t : Task.t) :
  remote s = false ->
  outcome (Part002.readLocalData env) s = Resolved (PDoc d) ->
  lookupTask d projectId taskId = Some t ->
  Part002.updateTask env projectId taskId u s
  = (Resolved (PartialTask.mk taskId u),
     storeData s (JsonText (PDoc (patchTask d projectId taskId u)))).
Proof.
  intros Hr Hd Ht.
  assert (Hread : Part002.readLocalData env s = (Resolved (PDoc d), s))
    by (rewrite part002_read_state; now rewrite Hd).
  unfold Part002.updateTask, bind, get_state. cbv beta iota.
  rewrite Hr, Hread. cbn [Part002.members].
  unfold lookupTask, lookupProject, patchTask in *.
  destruct (AppData.projects d) as [ps|]; [|discriminate].
  unfold_js. simpl.
  destruct (find (isProject projectId) ps) as [p|] eqn:Ep; [|discriminate].
  destruct (Project.tasks p) as [ts|] eqn:Ets; [|discriminate]. simpl.
  rewrite (update_first_ext (isProject projectId)
             (fun p => withTasks p
                (Some (update_first (isTask taskId) (fun t => assign t u) ts)))
             (fun p => withTasks p
                (option_map (update_first (isTask taskId) (fun t => assign t u))
                            (Project.tasks p))) ps); [reflexivity|].
  intros x Hx. rewrite Ep in Hx. injection Hx as <-. now rewrite Ets.
Qed.

Lemma assign_progressPatch (t : Task.t) (n : Z) (description : option string) :
  assign t (progressPatch n description) = withProgress t n description.
Proof. reflexivity. Qed.

Lemma buildUpdates_progressPatch (env : Env.t) (n : Z) (description : option string) :
  buildUpdates env (progressPatch n description)
  = TaskUpdates.mk None None None None (Some n) description.
Proof. reflexivity. Qed.

(** C5.  For an existing task, [updateTask] with the patch
    [{ progress: n }] leaves name, dates, color, assignee and description of
    the stored task as they were, in the local store of [apiService.ts] and
    of part_002 and in the request sent in remote mode, which carries the
    progress alone; and a description supplied with the patch, the empty
    string included, is stored and sent. *)
Theorem updateTask_progress_only_frame
        (env : Env.t) (s sr : State.t) (projectId taskId : string)
        (n : Z) (description : option string)
        (dA dB : AppData.t) (tA tB : Task.t) (row : TaskRow.t) :
  remote s = false ->
  outcome (ApiService.readLocalData env) s = Resolved dA ->
  lookupTask dA projectId taskId = Some tA ->
  outcome (Part002.readLocalData env) s = Resolved (PDoc dB) ->
  lookupTask dB projectId taskId = Some tB ->
  remote sr = true ->
  let u := progressPatch n description in
  (exists d',
      outcome (ApiService.readLocalData env)
              (after (ApiService.updateTask env projectId taskId u) s) = Resolved d'
      /\ lookupTask d' projectId taskId = Some (withProgress tA n description))
  /\ (exists d',
         outcome (Part002.readLocalData env)
                 (after (Part002.updateTask env projectId taskId u) s) = Resolved (PDoc d')
         /\ lookupTask d' projectId taskId = Some (withProgress tB n description))
  /\ outcome (ApiService.updateTask env projectId taskId u) sr
     = answer_of
         (Backend.write (Env.backend env)
            (UpdateTask taskId (TaskUpdates.mk None None None None (Some n) description)))
         (PatchWithId (PartialTask.mk taskId u))
  /\ outcome (Part002.updateTask env projectId taskId u) sr
     = answer_of
         (Backend.write (Env.backend env)
            (UpdateTask taskId (TaskUpdates.mk None None None None (Some n) description)))
         (PartialTask.mk taskId u)
  /\ applyUpdates (buildUpdates env u) row = rowWithProgress row n description.
Proof.
  intros Hr HdA HtA HdB HtB Hrr u. subst u.
  repeat match goal with |- _ /\ _ => split end.
  - destruct (apiService_readLocalData_total env s) as (d & s1 & Hread & Hshape & _).
    unfold outcome in HdA. rewrite Hread in HdA. simpl in HdA.
    injection HdA as ->.
    exists (patchTask dA projectId taskId (progressPatch n description)).
    unfold after.
    rewrite (@apiService_updateTask_local env s s1 projectId taskId
               (progressPatch n description) dA tA Hr Hread HtA).
    simpl.
    unfold outcome. rewrite apiService_read_after_write
      by (apply wellShaped_patchTask; assumption).
    split; [reflexivity|].
    rewrite (@lookupTask_patchTask dA projectId taskId
               (progressPatch n description) tA eq_refl HtA).
    reflexivity.
  - exists (patchTask dB projectId taskId (progressPatch n description)).
    unfold after.
    rewrite (@part002_updateTask_local env s projectId taskId
               (progressPatch n description) dB tB Hr HdB HtB). simpl.
    unfold outcome. rewrite part002_readLocalData_cases. simpl.
    split; [reflexivity|].
    rewrite (@lookupTask_patchTask dB projectId taskId
               (progressPatch n description) tB eq_refl HtB).
    reflexivity.
  - unfold ApiService.updateTask. rewrite buildUpdates_progressPatch.
    remote_write Hrr.
  - unfold Part002.updateTask. rewrite buildUpdates_progressPatch.
    remote_write Hrr.
  - reflexivity.
Qed.

Lemma updateTask_progress_only_frame_witness :
  lookupTask Scenario5.board "project-1" "task-1" = Some Scenario5.design
  /\ (exists d',
         outcome (ApiService.readLocalData Scenario5.env)
                 (after (ApiService.updateTask Scenario5.env "project-1" "task-1"
                           (progressPatch 42 None)) Scenario5.start) = Resolved d'
         /\ lookupTask d' "project-1" "task-1"
            = Some (withProgress Scenario5.design 42 None))
  /\ (exists d',
         outcome (Part002.readLocalData Scenario5.env)
                 (after (Part002.updateTask Scenario5.env "project-1" "task-1"
                           (progressPatch 42 (Some ""))) Scenario5.start) = Resolved (PDoc d')
         /\ lookupTask d' "project-1" "task-1"
            = Some (withProgress Scenario5.design 42 (Some ""))).
Proof.
  split; [reflexivity|].
  split.
  - apply (@updateTask_progress_only_frame
             Scenario5.env Scenario5.start (Scenario.connected NoItem)
             "project-1" "task-1" 42 None Scenario5.board Scenario5.board
             Scenario5.design Scenario5.design
             (TaskRow.mk "task-1" "project-1" "Design" "2024-01-01" "2024-01-05"
                         "bg-rose-500" "e1" 0 None));
      reflexivity.
  - apply (@updateTask_progress_only_frame
             Scenario5.env Scenario5.start (Scenario.connected NoItem)
             "project-1" "task-1" 42 (Some "") Scenario5.board Scenario5.board
             Scenario5.design Scenario5.design
             (TaskRow.mk "task-1" "project-1" "Design" "2024-01-01" "2024-01-05"
                         "bg-rose-500" "e1" 0 None));
      reflexivity.
Defined.

(** The other text fields are tested for truthiness: an empty [name] or
    [employeeId] in the patch is not sent, an empty [description] is. *)
Example buildUpdates_empty_strings (env : Env.t) :
  buildUpdates env
    (TaskPatch.mk None (Some "") None None None (Some "") None (Some ""))
  = TaskUpdates.mk None None None None None (Some "").
Proof. reflexivity. Qed.

(** ** Deleting a department *)

Lemma forallb_filter {A} (f : A -> bool) (l : list A) :
  forallb f (filter f l) = true.
Proof.
  induction l as [|x r IH]; simpl; [reflexivity|].
  destruct (f x) eqn:E; simpl; [rewrite E|]; auto.
Qed.

Lemma part000_readLocalData_organisation (env : Env.t) (s : State.t) :
  exists d s' ds es,
    Part000.readLocalData env s = (Resolved d, s')
    /\ AppData.departments d = Some ds
    /\ AppData.employees d = Some es.
Proof.
  unfold Part000.readLocalData, Part000.seedAndPersist. unfold_js.
  destruct (State.dataItem s) as [| | |[|j|j|d]];
    try (do 4 eexists; repeat split; reflexivity).
  destruct (AppData.projects d); [|do 4 eexists; repeat split; reflexivity].
  unfold Part000.ensureOrganization. simpl.
  destruct (AppData.departments d), (AppData.employees d);
    do 4 eexists; repeat split; reflexivity.
Qed.

(** The cascade holds for part_000: after [deleteDepartment] in local
    mode the stored dataset has neither the department nor any employee
    that refers to it. *)
Lemma part000_deleteDepartment_cascades (env : Env.t) (s : State.t) (id : string) :
  remote s = false ->
  exists d ds es,
    outcome (Part000.deleteDepartment env id) s = Resolved tt
    /\ State.dataItem (after (Part000.deleteDepartment env id) s) = JsonText (PDoc d)
    /\ AppData.departments d = Some ds
    /\ AppData.employees d = Some es
    /\ forallb (notDepartment id) ds = true
    /\ forallb (notInDepartment id) es = true.
Proof.
  intros Hr.
  destruct (part000_readLocalData_organisation env s) as (d & s' & ds & es & Hd & Hds & Hes).
  unfold Part000.deleteDepartment, outcome, after, bind, get_state. cbv beta iota.
  rewrite Hr, Hd, Hds, Hes. simpl.
  do 3 eexists. repeat split; apply forallb_filter.
Qed.

(** C6.  [deleteDepartment] of part_002 in local mode removes the
    department and writes the employees back as they were: the employees of
    the deleted department stay in the stored dataset. *)
Theorem part002_deleteDepartment_keeps_employees
        (env : Env.t) (s : State.t) (id : string) (d : AppData.t)
        (ds : list Department.t) :
  remote s = false ->
  State.dataItem s = JsonText (PDoc d) ->
  AppData.departments d = Some ds ->
  Part002.deleteDepartment env id s
  = (Resolved tt,
     storeData s
       (JsonText
          (PDoc (AppData.mk (AppData.projects d)
                            (Some (filter (notDepartment id) ds))
                            (AppData.employees d))))).
Proof.
  intros Hr Hs Hds.
  unfold Part002.deleteDepartment, bind, get_state. cbv beta iota.
  rewrite Hr, part002_readLocalData_cases, Hs. simpl. rewrite Hds. reflexivity.
Qed.

Lemma part002_deleteDepartment_keeps_employees_witness :
  State.dataItem (after (Part002.deleteDepartment Scenario5.env "dept-1") Scenario6.start)
  = JsonText
      (PDoc (AppData.mk (Some [])
                        (Some [Department.mk "dept-2" "Legal" []])
                        (Some [Scenario6.kim; Scenario6.lee])))
  /\ Employee.departmentId Scenario6.kim = "dept-1".
Proof.
  split; [|reflexivity]. unfold after.
  rewrite (@part002_deleteDepartment_keeps_employees
             Scenario5.env Scenario6.start "dept-1" Scenario6.organisation
             [Department.mk "dept-1" "Ops" []; Department.mk "dept-2" "Legal" []]
             eq_refl eq_refl eq_refl).
  reflexivity.
Defined.

Example part000_deleteDepartment_scenario :
  State.dataItem (after (Part000.deleteDepartment Scenario5.env "dept-1") Scenario6.start)
  = JsonText
      (PDoc (AppData.mk (Some [])
                        (Some [Department.mk "dept-2" "Legal" []])
                        (Some [Scenario6.lee]))).
Proof. reflexivity. Qed.

(** ** Absent targets in the local backend of [apiService.ts] *)

Lemma withProjects_same (d : AppData.t) (ps : list Project.t) :
  AppData.projects d = Some ps -> withProjects d (Some ps) = d.
Proof. destruct d as [p ds es]. simpl. intros ->. reflexivity. Qed.

Lemma withTasks_same (p : Project.t) (ts : list Task.t) :
  Project.tasks p = Some ts -> withTasks p (Some ts) = p.
Proof. destruct p as [i n t]. simpl. intros ->. reflexivity. Qed.

Lemma storeData_twice (s : State.t) (r r' : RawData) :
  storeData (storeData s r) r' = storeData s r'.
Proof. reflexivity. Qed.

Lemma found_project_hasTasks (d : AppData.t) (projectId : string) (p : Project.t) :
  wellShaped d = true ->
  lookupProject d projectId = Some p ->
  exists ts, Project.tasks p = Some ts.
Proof.
  unfold wellShaped, lookupProject.
  destruct (AppData.projects d) as [ps|]; [|discriminate].
  intros Hs Hf. apply find_some in Hf. destruct Hf as [Hin _].
  rewrite forallb_forall in Hs. specialize (Hs p Hin). unfold hasTasks in Hs.
  destruct (Project.tasks p) as [ts|]; [now exists ts|discriminate].
Qed.

Lemma wellShaped_projects (d : AppData.t) :
  wellShaped d = true -> exists ps, AppData.projects d = Some ps.
Proof.
  unfold wellShaped. destruct (AppData.projects d) as [ps|]; [now exists ps|discriminate].
Qed.

(** A second read returns what the first returned. *)
Lemma apiService_read_stable (env : Env.t) (s s1 : State.t) (d : AppData.t) :
  ApiService.readLocalData env s = (Resolved d, s1) ->
  outcome (ApiService.readLocalData env) s1 = Resolved d.
Proof.
  rewrite apiService_readLocalData_cases. unfold outcome.
  assert (Hseed : forall s0,
             ApiService.readLocalData env
               (storeData s0 (JsonText (PDoc (ApiService.getInitialData env))))
             = (Resolved (ApiService.getInitialData env),
                storeData s0 (JsonText (PDoc (ApiService.getInitialData env)))))
    by (intros; apply apiService_read_after_write; reflexivity).
  destruct (State.dataItem s) as [| | |[|j|j|d0]] eqn:E.
  - intros H; injection H as <- <-. now rewrite Hseed.
  - intros H; injection H as <- <-. now rewrite Hseed.
  - intros H; injection H as <- <-.
    rewrite apiService_readLocalData_cases. simpl. now rewrite E.
  - intros H; injection H as <- <-. now rewrite Hseed.
  - intros H; injection H as <- <-. now rewrite Hseed.
  - intros H; injection H as <- <-. now rewrite Hseed.
  - destruct (AppData.projects d0) as [ps|] eqn:Ep.
    + intros H; injection H as <- <-.
      rewrite apiService_readLocalData_cases, E, Ep. reflexivity.
    + intros H; injection H as <- <-. now rewrite Hseed.
Qed.

Lemma apiService_read_outcome (env : Env.t) (s : State.t) (d : AppData.t) :
  outcome (ApiService.readLocalData env) s = Resolved d ->
  wellShaped d = true
  /\ exists s1, ApiService.readLocalData env s = (Resolved d, s1)
                /\ remote s1 = remote s.
Proof.
  intros H. destruct (apiService_readLocalData_total env s)
    as (d0 & s1 & Hread & Hshape & Hsup & Hflag & _).
  unfold outcome in H. rewrite Hread in H. simpl in H. injection H as ->.
  split; [assumption|]. exists s1. split; [assumption|].
  unfold remote. now rewrite Hsup, Hflag.
Qed.

(** The local branches of the project and task operations of
    [apiService.ts], given what the read returns. *)
Lemma apiService_updateProject_absent (env : Env.t) (s s1 : State.t)
      (projectId projectName : string) (d : AppData.t) :
  remote s = false ->
  ApiService.readLocalData env s = (Resolved d, s1) ->
  wellShaped d = true ->
  lookupProject d projectId = None ->
  ApiService.updateProject env projectId projectName s
  = (Rejected (JsError "Project not found"), s1).
Proof.
  intros Hr Hd Hs Hp. destruct (wellShaped_projects d Hs) as (ps & Eps).
  unfold ApiService.updateProject, bind, get_state. cbv beta iota.
  rewrite Hr, Hd. unfold lookupProject in Hp. rewrite Eps in *. simpl.
  now rewrite Hp.
Qed.

Lemma apiService_addTask_absent (env : Env.t) (s s1 : State.t)
      (now : Z) (colorDraw : nat) (rnd36 projectId : string)
      (taskData : TaskData.t) (d : AppData.t) :
  remote s = false ->
  ApiService.readLocalData env s = (Resolved d, s1) ->
  wellShaped d = true ->
  lookupProject d projectId = None ->
  ApiService.addTask env now colorDraw rnd36 projectId taskData s
  = (Rejected (JsError ("Project " ++ projectId ++ " not found in local storage")), s1).
Proof.
  intros Hr Hd Hs Hp. destruct (wellShaped_projects d Hs) as (ps & Eps).
  unfold ApiService.addTask, bind, get_state. cbv beta iota.
  rewrite Hr, Hd. unfold lookupProject in Hp. rewrite Eps in *. simpl.
  now rewrite Hp.
Qed.

Lemma apiService_updateTask_absent (env : Env.t) (s s1 : State.t)
      (projectId taskId : string) (u : TaskPatch.t) (d : AppData.t) :
  remote s = false ->
  ApiService.readLocalData env s = (Resolved d, s1) ->
  wellShaped d = true ->
  lookupTask d projectId taskId = None ->
  ApiService.updateTask env projectId taskId u s
  = (Rejected (JsError "Task not found"), s1).
Proof.
  intros Hr Hd Hs Ht. destruct (wellShaped_projects d Hs) as (ps & Eps).
  unfold ApiService.updateTask, bind, get_state. cbv beta iota.
  rewrite Hr, Hd. unfold lookupTask in Ht.
  destruct (lookupProject d projectId) as [p|] eqn:Ep.
  - destruct (found_project_hasTasks d projectId Hs Ep) as (ts & Ets).
    unfold lookupProject in Ep. rewrite Eps in *. simpl. rewrite Ep. simpl.
    rewrite Ets in *. simpl. now rewrite Ht.
  - unfold lookupProject in Ep. rewrite Eps in *. simpl. now rewrite Ep.
Qed.

Lemma apiService_deleteProject_local (env : Env.t) (s s1 : State.t)
      (projectId : string) (d : AppData.t) :
  remote s = false ->
  ApiService.readLocalData env s = (Resolved d, s1) ->
  wellShaped d = true ->
  ApiService.deleteProject env projectId s
  = (Resolved (IdResult.mk projectId),
     storeData s1 (JsonText (PDoc (removeProject d projectId)))).
Proof.
  intros Hr Hd Hs. destruct (wellShaped_projects d Hs) as (ps & Eps).
  unfold ApiService.deleteProject, removeProject, bind, get_state. cbv beta iota.
  rewrite Hr, Hd, Eps. reflexivity.
Qed.

(** [deleteTask] writes only when the project is found. *)
Lemma apiService_deleteTask_local (env : Env.t) (s s1 : State.t)
      (projectId taskId : string) (d : AppData.t) :
  remote s = false ->
  ApiService.readLocalData env s = (Resolved d, s1) ->
  wellShaped d = true ->
  ApiService.deleteTask env projectId taskId s
  = (Resolved (IdResult.mk projectId),
     match lookupProject d projectId with
     | Some _ => storeData s1 (JsonText (PDoc (removeTask d projectId taskId)))
     | None => s1
     end).
Proof.
  intros Hr Hd Hs. destruct (wellShaped_projects d Hs) as (ps & Eps).
  unfold ApiService.deleteTask, removeTask, bind, get_state. cbv beta iota.
  rewrite Hr, Hd.
  destruct (lookupProject d projectId) as [p|] eqn:Ep.
  - destruct (found_project_hasTasks d projectId Hs Ep) as (ts & Ets).
    unfold lookupProject in Ep. rewrite Eps in *. simpl. rewrite Ep. simpl.
    rewrite Ets. simpl.
    rewrite (update_first_ext (isProject projectId)
               (fun p0 => withTasks p0 (Some (filter (fun t => negb (isTask taskId t)) ts)))
               (fun p0 => withTasks p0
                  (option_map (filter (fun t => negb (isTask taskId t)))
                              (Project.tasks p0))) ps); [reflexivity|].
    intros x Hx. rewrite Ep in Hx. injection Hx as <-. now rewrite Ets.
  - unfold lookupProject in Ep. rewrite Eps in *. simpl. now rewrite Ep.
Qed.

Lemma removeProject_absent (d : AppData.t) (projectId : string) :
  lookupProject d projectId = None -> removeProject d projectId = d.
Proof.
  unfold lookupProject, removeProject. destruct d as [ps ds es]. simpl.
  destruct ps as [ps|]; [|reflexivity]. simpl. intros H.
  unfold withProjects. simpl. now rewrite filter_absent.
Qed.

Lemma removeTask_absent (d : AppData.t) (projectId taskId : string) :
  lookupTask d projectId taskId = None -> removeTask d projectId taskId = d.
Proof.
  unfold lookupTask, lookupProject, removeTask. destruct d as [ps ds es]. simpl.
  destruct ps as [ps|]; [|reflexivity]. simpl. intros H.
  unfold withProjects. simpl. do 2 f_equal.
  apply update_first_fix. intros p Hp. rewrite Hp in H.
  destruct p as [i n ts]. simpl in *. destruct ts as [ts|]; [|reflexivity].
  simpl. unfold withTasks. simpl. now rewrite filter_absent.
Qed.

Lemma wellShaped_removeProject (d : AppData.t) (projectId : string) :
  wellShaped d = true -> wellShaped (removeProject d projectId) = true.
Proof.
  unfold wellShaped, removeProject. simpl.
  destruct (AppData.projects d) as [ps|]; [|discriminate]. simpl.
  induction ps as [|p r IH]; simpl; [reflexivity|].
  rewrite andb_true_iff. intros [Hp Hr].
  destruct (isProject projectId p); simpl; [auto|]. now rewrite Hp, IH.
Qed.

Lemma wellShaped_removeTask (d : AppData.t) (projectId taskId : string) :
  wellShaped d = true -> wellShaped (removeTask d projectId taskId) = true.
Proof.
  unfold wellShaped, removeTask. simpl.
  destruct (AppData.projects d) as [ps|]; [|discriminate]. simpl.
  induction ps as [|p r IH]; simpl; [reflexivity|].
  rewrite andb_true_iff. intros [Hp Hr].
  destruct (isProject projectId p); simpl.
  - rewrite Hr, andb_true_r. unfold hasTasks in *. simpl.
    destruct (Project.tasks p); [reflexivity|discriminate].
  - now rewrite Hp, IH.
Qed.

Lemma removeProject_twice (d : AppData.t) (projectId : string) :
  removeProject (removeProject d projectId) projectId = removeProject d projectId.
Proof.
  unfold removeProject, withProjects. simpl.
  destruct (AppData.projects d) as [ps|]; [|reflexivity]. simpl.
  now rewrite filter_twice.
Qed.

Lemma removeTask_twice (d : AppData.t) (projectId taskId : string) :
  removeTask (removeTask d projectId taskId) projectId taskId
  = removeTask d projectId taskId.
Proof.
  unfold removeTask, withProjects. simpl.
  destruct (AppData.projects d) as [ps|]; [|reflexivity]. simpl.
  rewrite update_first_twice by (intros; assumption).
  do 2 f_equal. apply update_first_ext. intros p _.
  unfold withTasks. simpl. destruct (Project.tasks p) as [ts|]; [|reflexivity].
  simpl. now rewrite filter_twice.
Qed.

(** C7, the claim as stated fails: in the local backend of
    [apiService.ts] a delete whose target is absent resolves and changes
    nothing; no error is raised for the missing project or task. *)
Lemma local_delete_of_absent_target_is_silent :
  remote Scenario5.start = false
  /\ lookupProject Scenario5.board "project-9" = None
  /\ ApiService.deleteProject Scenario5.env "project-9" Scenario5.start
     = (Resolved (IdResult.mk "project-9"), Scenario5.start)
  /\ ApiService.deleteTask Scenario5.env "project-9" "task-1" Scenario5.start
     = (Resolved (IdResult.mk "project-9"), Scenario5.start)
  /\ lookupTask Scenario5.board "project-1" "task-9" = None
  /\ ApiService.deleteTask Scenario5.env "project-1" "task-9" Scenario5.start
     = (Resolved (IdResult.mk "project-1"), Scenario5.start).
Proof. repeat split; reflexivity. Qed.

(** C7, amended.  In the local backend of [apiService.ts], the update
    operations and [addTask] reject with an explicit error when their
    target is absent ("Project not found", "Task not found", "Project ...
    not found in local storage"), whereas [deleteProject] and [deleteTask]
    with an absent target resolve and leave the stored dataset as it was. *)
Theorem local_absent_target_update_throws_delete_silent
        (env : Env.t) (s : State.t) (projectId taskId projectName : string)
        (u : TaskPatch.t) (now : Z) (colorDraw : nat) (rnd36 : string)
        (taskData : TaskData.t) (d : AppData.t) :
  remote s = false ->
  outcome (ApiService.readLocalData env) s = Resolved d ->
  (lookupProject d projectId = None ->
   rejects_with (ApiService.updateProject env projectId projectName) s
                (JsError "Project not found")
   /\ rejects_with (ApiService.addTask env now colorDraw rnd36 projectId taskData) s
                   (JsError ("Project " ++ projectId ++ " not found in local storage"))
   /\ resolves_with (ApiService.deleteProject env projectId) s (IdResult.mk projectId)
   /\ outcome (ApiService.readLocalData env)
              (after (ApiService.deleteProject env projectId) s) = Resolved d)
  /\ (lookupTask d projectId taskId = None ->
      rejects_with (ApiService.updateTask env projectId taskId u) s
                   (JsError "Task not found")
      /\ resolves_with (ApiService.deleteTask env projectId taskId) s
                       (IdResult.mk projectId)
      /\ outcome (ApiService.readLocalData env)
                 (after (ApiService.deleteTask env projectId taskId) s) = Resolved d).
Proof.
  intros Hr Hd.
  destruct (@apiService_read_outcome env s d Hd) as (Hs & s1 & Hread & _).
  split.
  - intros Hp. unfold rejects_with, resolves_with, outcome, after.
    rewrite (@apiService_updateProject_absent env s s1 projectId projectName d Hr Hread Hs Hp).
    rewrite (@apiService_addTask_absent env s s1 now colorDraw rnd36 projectId taskData d
               Hr Hread Hs Hp).
    rewrite (@apiService_deleteProject_local env s s1 projectId d Hr Hread Hs).
    rewrite (@removeProject_absent d projectId Hp). simpl.
    rewrite (@apiService_read_after_write env s1 d Hs). repeat split; reflexivity.
  - intros Ht. unfold rejects_with, resolves_with, outcome, after.
    rewrite (@apiService_updateTask_absent env s s1 projectId taskId u d Hr Hread Hs Ht).
    rewrite (@apiService_deleteTask_local env s s1 projectId taskId d Hr Hread Hs).
    rewrite (@removeTask_absent d projectId taskId Ht). simpl.
    repeat split; try reflexivity.
    destruct (lookupProject d projectId).
    + now rewrite (@apiService_read_after_write env s1 d Hs).
    + apply (@apiService_read_stable env s s1 d Hread).
Qed.

Lemma local_absent_target_update_throws_delete_silent_witness :
  rejects_with (ApiService.updateProject Scenario5.env "project-9" "Renamed")
               Scenario5.start (JsError "Project not found")
  /\ rejects_with (ApiService.updateTask Scenario5.env "project-1" "task-9"
                     (progressPatch 42 None))
                  Scenario5.start (JsError "Task not found")
  /\ resolves_with (ApiService.deleteTask Scenario5.env "project-1" "task-9")
                   Scenario5.start (IdResult.mk "project-1").
Proof.
  destruct (@local_absent_target_update_throws_delete_silent
              Scenario5.env Scenario5.start "project-9" "task-9" "Renamed"
              (progressPatch 42 None) 0 0%nat "0.5" Scenario7.taskData Scenario5.board
              eq_refl eq_refl) as [Hp _].
  destruct (@local_absent_target_update_throws_delete_silent
              Scenario5.env Scenario5.start "project-1" "task-9" "Renamed"
              (progressPatch 42 None) 0 0%nat "0.5" Scenario7.taskData Scenario5.board
              eq_refl eq_refl) as [_ Ht].
  destruct (Hp eq_refl) as (H1 & _).
  destruct (Ht eq_refl) as (H2 & H3 & _).
  repeat split; assumption.
Defined.

(** ** What [deleteTask] resolves with *)

Lemma then_ret_value {A B} (m : M A) (b r : B) (s : State.t) :
  outcome (bind m (fun _ => ret b)) s = Resolved r -> r = b.
Proof.
  unfold outcome, bind, ret. destruct (m s) as [[a|e] s']; simpl; congruence.
Qed.

(** C9.  [deleteTask] of [apiService.ts] resolves with [{ id: projectId }]:
    every value it resolves with carries the project's id, in local mode it
    always resolves, and in remote mode it resolves unless the backend
    answers the delete with an error; [deleteTask] of part_002 resolves with
    the task's id instead. *)
Theorem apiService_deleteTask_resolves_with_projectId
        (env : Env.t) (s : State.t) (projectId taskId : string) (r : IdResult.t) :
  (outcome (ApiService.deleteTask env projectId taskId) s = Resolved r ->
   IdResult.id r = projectId)
  /\ (remote s = false ->
      resolves_with (ApiService.deleteTask env projectId taskId) s
                    (IdResult.mk projectId))
  /\ (remote s = true ->
      outcome (ApiService.deleteTask env projectId taskId) s
      = answer_of (Backend.write (Env.backend env) (DeleteTask taskId))
                  (IdResult.mk projectId)
      /\ outcome (Part002.deleteTask env projectId taskId) s
         = answer_of (Backend.write (Env.backend env) (DeleteTask taskId))
                     (IdResult.mk taskId)).
Proof.
  repeat match goal with |- _ /\ _ => split end.
  - intros H. unfold ApiService.deleteTask in H.
    unfold outcome, bind at 1, get_state in H. cbv beta iota in H.
    apply then_ret_value in H. now subst r.
  - intros Hr.
    destruct (apiService_readLocalData_total env s) as (d & s1 & Hread & Hs & _).
    unfold resolves_with, outcome.
    now rewrite (@apiService_deleteTask_local env s s1 projectId taskId d Hr Hread Hs).
  - intros Hr. split.
    + unfold ApiService.deleteTask. remote_write Hr.
    + unfold Part002.deleteTask. remote_write Hr.
Qed.

Lemma apiService_deleteTask_resolves_with_projectId_witness :
  outcome (ApiService.deleteTask Scenario5.env "project-1" "task-1") Scenario5.start
  = Resolved (IdResult.mk "project-1")
  /\ IdResult.id (IdResult.mk "project-1") = "project-1".
Proof.
  destruct (@apiService_deleteTask_resolves_with_projectId
              Scenario5.env Scenario5.start "project-1" "task-1"
              (IdResult.mk "project-1")) as (Hid & Hlocal & _).
  split; [exact (Hlocal eq_refl) | exact (Hid (Hlocal eq_refl))].
Defined.

(** ** Deleting twice *)

Lemma part002_read_outcome (env : Env.t) (s : State.t) (v : Parsed) :
  outcome (Part002.readLocalData env) s = Resolved v ->
  Part002.readLocalData env s = (Resolved v, s).
Proof. intros H. rewrite part002_read_state. now rewrite H. Qed.

Lemma part002_deleteTask_local (env : Env.t) (s : State.t)
      (projectId taskId : string) (d : AppData.t) :
  remote s = false ->
  outcome (Part002.readLocalData env) s = Resolved (PDoc d) ->
  wellShaped d = true ->
  Part002.deleteTask env projectId taskId s
  = (Resolved (IdResult.mk taskId),
     storeData s (JsonText (PDoc (removeTask d projectId taskId)))).
Proof.
  intros Hr Hd Hs. apply part002_read_outcome in Hd.
  destruct (wellShaped_projects d Hs) as (ps & Eps).
  unfold Part002.deleteTask, removeTask, bind, get_state. cbv beta iota.
  rewrite Hr, Hd. cbn [Part002.members]. rewrite Eps. simpl.
  destruct (find (isProject projectId) ps) as [p|] eqn:Ep.
  - assert (Hl : lookupProject d projectId = Some p)
      by (unfold lookupProject; now rewrite Eps).
    destruct (@found_project_hasTasks d projectId p Hs Hl) as (ts & Ets).
    rewrite Ets. simpl.
    rewrite (update_first_ext (isProject projectId)
               (fun p0 => withTasks p0 (Some (filter (fun t => negb (isTask taskId t)) ts)))
               (fun p0 => withTasks p0
                  (option_map (filter (fun t => negb (isTask taskId t)))
                              (Project.tasks p0))) ps); [reflexivity|].
    intros x Hx. rewrite Ep in Hx. injection Hx as <-. now rewrite Ets.
  - simpl. now rewrite update_first_absent.
Qed.

(** [deleteTask] of part_002 where its read shows that nothing validated
    the stored text. *)
Lemma part002_deleteTask_without_projects (env : Env.t) (s : State.t)
      (projectId taskId : string) (v : Parsed) :
  remote s = false ->
  State.dataItem s = JsonText v ->
  v <> PNull ->
  AppData.projects (Part002.members v) = None ->
  Part002.deleteTask env projectId taskId s = (Rejected TypeError, s).
Proof.
  intros Hr Hs Hv Hp.
  unfold Part002.deleteTask, bind, get_state. cbv beta iota.
  rewrite Hr, part002_readLocalData_cases, Hs.
  destruct v as [|j|j|d]; [congruence| | |]; cbv beta iota; rewrite Hp; reflexivity.
Qed.

Lemma part002_deleteTask_without_tasks (env : Env.t) (s : State.t)
      (projectId taskId : string) (d : AppData.t) (ps : list Project.t)
      (p : Project.t) :
  remote s = false ->
  State.dataItem s = JsonText (PDoc d) ->
  AppData.projects d = Some ps ->
  find (isProject projectId) ps = Some p ->
  Project.tasks p = None ->
  Part002.deleteTask env projectId taskId s = (Rejected TypeError, s).
Proof.
  intros Hr Hs Hps Hp Ht.
  unfold Part002.deleteTask, bind, get_state. cbv beta iota.
  rewrite Hr, part002_readLocalData_cases, Hs. cbn [Part002.members].
  rewrite Hps. unfold defined at 1, ret at 1. cbv beta iota. rewrite Hp, Ht.
  reflexivity.
Qed.

Lemma part002_seed_shaped (env : Env.t) :
  wellShaped (Part002.getInitialData env) = true.
Proof. reflexivity. Qed.

Lemma part002_read_no_record (env : Env.t) (s : State.t) :
  noRecord (State.dataItem s) = true ->
  outcome (Part002.readLocalData env) s = Resolved (PDoc (Part002.getInitialData env)).
Proof.
  intros H. unfold outcome. rewrite part002_readLocalData_cases.
  destruct (State.dataItem s) as [| | |v]; try discriminate; reflexivity.
Qed.

(** C10.  Deleting what is not there, and deleting twice.  In
    [apiService.ts] the claim holds in every local state: [deleteProject]
    and [deleteTask] resolve, a second [deleteProject] leaves the state as
    the first left it, and after a delete of an absent identifier the
    store holds the dataset that was read.  [deleteTask] of part_002 does
    so only on a stored record with its arrays of projects and tasks.
    Where its read hands over a text nothing validated (a record without
    an array of projects, a project without an array of tasks, an array or
    a primitive) it rejects with a [TypeError]; and on an empty store,
    which its read leaves empty, it writes the seed. *)
Theorem part002_deleteTask_absent_rejects_or_seeds
        (env : Env.t) (s : State.t) (projectId taskId : string) :
  remote s = false ->
  let sP := after (ApiService.deleteProject env projectId) s in
  let sT := after (ApiService.deleteTask env projectId taskId) s in
  let sB := after (Part002.deleteTask env projectId taskId) s in
  (* apiService.ts *)
  (exists dA,
      outcome (ApiService.readLocalData env) s = Resolved dA
      /\ outcome (ApiService.deleteProject env projectId) s
         = Resolved (IdResult.mk projectId)
      /\ outcome (ApiService.deleteTask env projectId taskId) s
         = Resolved (IdResult.mk projectId)
      /\ ApiService.deleteProject env projectId sP = (Resolved (IdResult.mk projectId), sP)
      /\ (lookupProject dA projectId = None ->
          State.dataItem sP = JsonText (PDoc dA)
          /\ outcome (ApiService.readLocalData env) sP = Resolved dA)
      /\ (lookupTask dA projectId taskId = None ->
          outcome (ApiService.readLocalData env) sT = Resolved dA))
  (* part_002, a text that was not validated *)
  /\ (forall v,
         State.dataItem s = JsonText v -> v <> PNull ->
         AppData.projects (Part002.members v) = None ->
         Part002.deleteTask env projectId taskId s = (Rejected TypeError, s))
  /\ (forall d ps p,
         State.dataItem s = JsonText (PDoc d) ->
         AppData.projects d = Some ps ->
         find (isProject projectId) ps = Some p ->
         Project.tasks p = None ->
         Part002.deleteTask env projectId taskId s = (Rejected TypeError, s))
  (* part_002, an empty store *)
  /\ (noRecord (State.dataItem s) = true ->
      lookupTask (Part002.getInitialData env) projectId taskId = None ->
      Part002.readLocalData env s = (Resolved (PDoc (Part002.getInitialData env)), s)
      /\ outcome (Part002.deleteTask env projectId taskId) s = Resolved (IdResult.mk taskId)
      /\ State.dataItem sB = JsonText (PDoc (Part002.getInitialData env))
      /\ State.dataItem sB <> State.dataItem s)
  (* part_002, a record with its arrays *)
  /\ (forall dB,
         State.dataItem s = JsonText (PDoc dB) ->
         wellShaped dB = true ->
         outcome (Part002.deleteTask env projectId taskId) s = Resolved (IdResult.mk taskId)
         /\ Part002.deleteTask env projectId taskId sB = (Resolved (IdResult.mk taskId), sB)
         /\ (lookupTask dB projectId taskId = None -> sB = s)).
Proof.
  intros Hr sP sT sB. subst sP sT sB.
  split; [|split; [|split; [|split]]].
  - destruct (apiService_readLocalData_total env s)
      as (dA & s1 & Hread & HsA & Hsup & Hflag & _).
    assert (Hr1 : remote s1 = false) by (unfold remote in *; now rewrite Hsup, Hflag).
    exists dA. unfold outcome, after.
    rewrite (@apiService_deleteProject_local env s s1 projectId dA Hr Hread HsA).
    rewrite (@apiService_deleteTask_local env s s1 projectId taskId dA Hr Hread HsA).
    rewrite Hread. cbn [fst snd].
    split; [reflexivity|split; [reflexivity|split; [reflexivity|split; [|split]]]].
    + rewrite (@apiService_deleteProject_local env
                 (storeData s1 (JsonText (PDoc (removeProject dA projectId))))
                 (storeData s1 (JsonText (PDoc (removeProject dA projectId))))
                 projectId (removeProject dA projectId)).
      * now rewrite removeProject_twice.
      * now rewrite remote_storeData.
      * apply apiService_read_after_write. now apply wellShaped_removeProject.
      * now apply wellShaped_removeProject.
    + intros Hp. rewrite (@removeProject_absent dA projectId Hp).
      split; [reflexivity|].
      now rewrite (@apiService_read_after_write env s1 dA HsA).
    + intros Ht. destruct (lookupProject dA projectId) as [p|].
      * rewrite (@removeTask_absent dA projectId taskId Ht).
        now rewrite (@apiService_read_after_write env s1 dA HsA).
      * exact (@apiService_read_stable env s s1 dA Hread).
  - intros v Hs Hv Hp.
    exact (@part002_deleteTask_without_projects env s projectId taskId v Hr Hs Hv Hp).
  - intros d ps p Hs Hps Hp Ht.
    exact (@part002_deleteTask_without_tasks env s projectId taskId d ps p Hr Hs Hps Hp Ht).
  - intros Hn Ht.
    pose proof (part002_read_no_record env s Hn) as Hd.
    unfold outcome, after.
    rewrite (@part002_deleteTask_local env s projectId taskId
               (Part002.getInitialData env) Hr Hd (part002_seed_shaped env)).
    rewrite (@removeTask_absent (Part002.getInitialData env) projectId taskId Ht).
    cbn [fst snd].
    split; [exact (@part002_read_outcome env s _ Hd)|].
    split; [reflexivity|]. split; [reflexivity|].
    simpl. destruct (State.dataItem s) as [| | |v]; discriminate.
  - intros dB Hs HsB.
    assert (HdB : outcome (Part002.readLocalData env) s = Resolved (PDoc dB))
      by (unfold outcome; now rewrite part002_readLocalData_cases, Hs).
    unfold outcome, after.
    rewrite (@part002_deleteTask_local env s projectId taskId dB Hr HdB HsB).
    cbn [fst snd]. split; [reflexivity|split].
    + rewrite (@part002_deleteTask_local env
                 (storeData s (JsonText (PDoc (removeTask dB projectId taskId))))
                 projectId taskId (removeTask dB projectId taskId)).
      * now rewrite removeTask_twice.
      * now rewrite remote_storeData.
      * unfold outcome. now rewrite part002_readLocalData_cases.
      * now apply wellShaped_removeTask.
    + intros Ht. rewrite (@removeTask_absent dB projectId taskId Ht).
      rewrite <- Hs. apply storeData_data.
Qed.

Lemma part002_deleteTask_absent_rejects_or_seeds_witness :
  Part002.deleteTask Scenario5.env "project-1" "task-1"
    (Scenario.offline (JsonText (PDoc Scenario3.withoutProjects)))
  = (Rejected TypeError, Scenario.offline (JsonText (PDoc Scenario3.withoutProjects)))
  /\ outcome (ApiService.deleteTask Scenario5.env "project-1" "task-1")
             (Scenario.offline (JsonText (PDoc Scenario3.withoutProjects)))
     = Resolved (IdResult.mk "project-1")
  /\ State.dataItem
       (after (Part002.deleteTask Scenario5.env "project-1" "task-1")
              (Scenario.offline NoItem))
     = JsonText (PDoc (Part002.getInitialData Scenario5.env))
  /\ ApiService.deleteProject Scenario5.env "project-1"
       (after (ApiService.deleteProject Scenario5.env "project-1") Scenario5.start)
     = (Resolved (IdResult.mk "project-1"),
        after (ApiService.deleteProject Scenario5.env "project-1") Scenario5.start)
  /\ Part002.deleteTask Scenario5.env "project-1" "task-1"
       (after (Part002.deleteTask Scenario5.env "project-1" "task-1") Scenario5.start)
     = (Resolved (IdResult.mk "task-1"),
        after (Part002.deleteTask Scenario5.env "project-1" "task-1") Scenario5.start).
Proof.
  pose proof (@part002_deleteTask_absent_rejects_or_seeds
                Scenario5.env (Scenario.offline (JsonText (PDoc Scenario3.withoutProjects)))
                "project-1" "task-1" eq_refl) as H.
  pose proof (@part002_deleteTask_absent_rejects_or_seeds
                Scenario5.env (Scenario.offline NoItem) "project-1" "task-1" eq_refl) as H0.
  pose proof (@part002_deleteTask_absent_rejects_or_seeds
                Scenario5.env Scenario5.start "project-1" "task-1" eq_refl) as H1.
  cbv zeta in H, H0, H1.
  destruct H as ((dA & _ & _ & HT & _) & HB & _).
  destruct H0 as (_ & _ & _ & HN & _).
  destruct H1 as ((dA1 & _ & _ & _ & HP & _) & _ & _ & _ & HW).
  split; [|split; [|split; [|split]]].
  - exact (HB (PDoc Scenario3.withoutProjects) eq_refl ltac:(discriminate) eq_refl).
  - exact HT.
  - destruct (HN eq_refl eq_refl) as (_ & _ & Hseed & _). exact Hseed.
  - exact HP.
  - destruct (HW Scenario5.board eq_refl eq_refl) as (_ & Htwice & _). exact Htwice.
Defined.

(** ** Identifiers of created tasks *)

Lemma append_cancel_l (a b c : string) : (a ++ b = a ++ c)%string -> b = c.
Proof. induction a as [|x a IH]; simpl; [auto|]. intros H. injection H. auto. Qed.

(** [addTask] of [apiService.ts]: progress 0, one of the six colors, and
    an identifier made of the prefix, the clock and the random suffix; at
    one clock value, two identifiers differ as soon as the suffixes do. *)
Lemma apiService_addTask_created
      (env : Env.t) (now : Z) (colorDraw : nat) (rnd36 projectId : string)
      (taskData : TaskData.t) (s : State.t) (t : Task.t) :
  (colorDraw < 6)%nat ->
  outcome (ApiService.addTask env now colorDraw rnd36 projectId taskData) s = Resolved t ->
  Task.progress t = 0
  /\ truthy (Task.color t) = true
  /\ Task.id t = ("task-" ++ string_of_Z now ++ "-" ++ substring 2 9 rnd36)%string.
Proof.
  intros Hc H. unfold ApiService.addTask in H.
  unfold outcome, bind at 1, get_state in H. cbv beta iota in H.
  apply then_ret_value in H. subst t. simpl.
  repeat split.
  do 6 (destruct colorDraw as [|colorDraw]; [reflexivity|]). lia.
Qed.

Lemma apiService_taskId_differs (now : Z) (r1 r2 : string) :
  substring 2 9 r1 <> substring 2 9 r2 ->
  ApiService.taskId now r1 <> ApiService.taskId now r2.
Proof.
  intros Hne H. apply Hne. unfold ApiService.taskId in H.
  apply append_cancel_l in H. apply append_cancel_l in H.
  now apply append_cancel_l in H.
Qed.

(** C8.  [addTask] of part_002 builds the identifier from the prefix and
    the clock alone: every task it creates at clock value [now] has the
    identifier [task-<now>], so two creates within one clock tick receive
    the same identifier, whatever the project and the task data. *)
Theorem part002_addTask_same_tick_same_id
        (env : Env.t) (now : Z) (p1 p2 : string) (d1 d2 : TaskData.t)
        (s1 s2 : State.t) (t1 t2 : Task.t) :
  outcome (Part002.addTask env now p1 d1) s1 = Resolved t1 ->
  outcome (Part002.addTask env now p2 d2) s2 = Resolved t2 ->
  Task.id t1 = ("task-" ++ string_of_Z now)%string
  /\ Task.id t2 = Task.id t1
  /\ Task.progress t1 = 0
  /\ Task.color t1 = "bg-blue-500".
Proof.
  intros H1 H2. unfold Part002.addTask in H1, H2.
  unfold outcome, bind at 1, get_state in H1. cbv beta iota in H1.
  unfold outcome, bind at 1, get_state in H2. cbv beta iota in H2.
  apply then_ret_value in H1. apply then_ret_value in H2. subst t1 t2.
  repeat split.
Qed.

Lemma part002_addTask_same_tick_same_id_witness :
  let first := Part002.addTask Scenario5.env Scenario8.now "project-1" Scenario7.taskData in
  let second := Part002.addTask Scenario5.env Scenario8.now "project-1" Scenario8.review in
  lookupProject_tasks
    (State.dataItem (after second (after first Scenario8.emptyProject))) "project-1"
  = Some [ newTask "task-1704067200123" Scenario7.taskData "bg-blue-500";
           newTask "task-1704067200123" Scenario8.review "bg-blue-500" ]
  /\ Task.id (newTask "task-1704067200123" Scenario8.review "bg-blue-500")
     = Task.id (newTask "task-1704067200123" Scenario7.taskData "bg-blue-500").
Proof.
  split; [reflexivity|].
  apply (@part002_addTask_same_tick_same_id
           Scenario5.env Scenario8.now "project-1" "project-1"
           Scenario7.taskData Scenario8.review
           Scenario8.emptyProject
           (after (Part002.addTask Scenario5.env Scenario8.now "project-1"
                     Scenario7.taskData) Scenario8.emptyProject)
           (newTask "task-1704067200123" Scenario7.taskData "bg-blue-500")
           (newTask "task-1704067200123" Scenario8.review "bg-blue-500"));
    reflexivity.
Defined.

(** * Further properties *)

Arguments truthy : simpl never.
Arguments or_else : simpl never.

(** ** The admin lock *)

Lemma truthy_true (s : string) : truthy s = true <-> s <> "".
Proof.
  unfold truthy. destruct (String.eqb_spec s ""); simpl; split; congruence.
Qed.

Lemma truthy_false (s : string) : truthy s = false <-> s = "".
Proof.
  unfold truthy. destruct (String.eqb_spec s ""); simpl; split; congruence.
Qed.

(** X1.  With no global password, once a non-empty password is set the
    lock reports a password, the password typed is accepted exactly when it
    equals the one set, and the settings open on that condition. *)
Theorem admin_password_set_then_verify
        (password input : string) (item : option string) :
  password <> "" ->
  let item' := AdminLock.setAdminPassword "" password item in
  item' = Some password
  /\ AdminLock.hasAdminPassword "" item' = true
  /\ AdminLock.verifyAdminPassword "" input item' = (password =? input)%string
  /\ AdminLock.settingsOpenFor "" input item' = (password =? input)%string.
Proof.
  intros Hp. apply truthy_true in Hp.
  unfold AdminLock.settingsOpenFor, AdminLock.setAdminPassword,
    AdminLock.hasAdminPassword, AdminLock.verifyAdminPassword.
  simpl. rewrite Hp. simpl. rewrite Hp. repeat split.
Qed.

Lemma admin_password_set_then_verify_witness :
  AdminLock.verifyAdminPassword "" "open sesame"
    (AdminLock.setAdminPassword "" "open sesame" None) = true
  /\ AdminLock.verifyAdminPassword "" "Open Sesame"
       (AdminLock.setAdminPassword "" "open sesame" None) = false.
Proof.
  destruct (@admin_password_set_then_verify "open sesame" "open sesame" None
              ltac:(discriminate)) as (_ & _ & H1 & _).
  destruct (@admin_password_set_then_verify "open sesame" "Open Sesame" None
              ltac:(discriminate)) as (_ & _ & H2 & _).
  split; [exact H1 | exact H2].
Defined.

(** X2.  With no global password, setting the empty password removes the
    entry: no password is reported, every input is refused by
    [verifyAdminPassword], the empty one included, and the settings open
    without a password. *)
Theorem admin_password_cleared (input : string) (item : option string) :
  let item' := AdminLock.setAdminPassword "" "" item in
  item' = None
  /\ AdminLock.hasAdminPassword "" item' = false
  /\ AdminLock.verifyAdminPassword "" input item' = false
  /\ AdminLock.settingsOpenFor "" input item' = true.
Proof. repeat split. Qed.

(** X3.  With a global password, [setAdminPassword] changes nothing and
    the lock accepts the global password and nothing else, whatever is
    stored. *)
Theorem admin_global_password_is_fixed
        (g password input : string) (item : option string) :
  g <> "" ->
  AdminLock.setAdminPassword g password item = item
  /\ AdminLock.hasAdminPassword g item = true
  /\ AdminLock.verifyAdminPassword g input item = (input =? g)%string
  /\ AdminLock.settingsOpenFor g input (AdminLock.setAdminPassword g password item)
     = (input =? g)%string.
Proof.
  intros Hg. apply truthy_true in Hg.
  unfold AdminLock.settingsOpenFor, AdminLock.setAdminPassword,
    AdminLock.hasAdminPassword, AdminLock.verifyAdminPassword.
  rewrite Hg. repeat split.
Qed.

Lemma admin_global_password_is_fixed_witness :
  AdminLock.verifyAdminPassword "kiss1052" "mine"
    (AdminLock.setAdminPassword "kiss1052" "mine" (Some "old")) = false
  /\ AdminLock.verifyAdminPassword "kiss1052" "kiss1052" (Some "old") = true.
Proof.
  destruct (@admin_global_password_is_fixed "kiss1052" "mine" "mine" (Some "old")
              ltac:(discriminate)) as (Hs & _ & Hv & _).
  destruct (@admin_global_password_is_fixed "kiss1052" "mine" "kiss1052" (Some "old")
              ltac:(discriminate)) as (_ & _ & Hv' & _).
  split; [rewrite Hs; exact Hv | exact Hv'].
Defined.

(** ** Connection bootstrap *)

Lemma or_else_empty_l (b : string) : or_else "" b = b.
Proof. reflexivity. Qed.

Lemma or_else_truthy (a b : string) : truthy a = true -> or_else a b = a.
Proof. unfold or_else. now intros ->. Qed.

Lemma or_else_idem (a b : string) : or_else a (or_else a b) = or_else a b.
Proof. unfold or_else. destruct (truthy a); reflexivity. Qed.

(** X4.  With no global URL, a successful [initSupabase(url, key)]
    persists the pair it connected with, and the next page load reconnects
    with that pair: the module initialisation of [apiService.ts] reads the
    stored configuration and builds the same client, leaving the local
    data untouched. *)
Theorem connection_resumes_after_reload
        (env : Env.t) (s : State.t) (url key : string) (c : Client) :
  Env.GLOBAL_SUPABASE_URL env = "" ->
  url <> "" ->
  or_else (Env.GLOBAL_SUPABASE_KEY env) key <> "" ->
  Env.createClient env url (or_else (Env.GLOBAL_SUPABASE_KEY env) key) = Some c ->
  let s1 := after (ApiService.initSupabase env url key) s in
  let s2 := after (Boot.moduleInit env) (pageLoad s1) in
  State.configItem s1 = Some (url, or_else (Env.GLOBAL_SUPABASE_KEY env) key)
  /\ outcome (Boot.getSupabaseConfig env) (pageLoad s1)
     = Resolved (Some (url, or_else (Env.GLOBAL_SUPABASE_KEY env) key))
  /\ State.supabase s2 = Some c
  /\ State.useSupabase s2 = true
  /\ State.configItem s2 = State.configItem s1
  /\ State.dataItem s2 = State.dataItem s.
Proof.
  intros Hg Hu Hk Hc s1 s2. subst s1 s2.
  apply truthy_true in Hu. apply truthy_true in Hk.
  unfold Boot.moduleInit, Boot.getSupabaseConfig, ApiService.initSupabase, pageLoad.
  rewrite Hg. rewrite !or_else_empty_l.
  replace (truthy "") with false by reflexivity.
  unfold_js. simpl.
  rewrite Hu, Hk. simpl. rewrite Hc. simpl.
  rewrite ?or_else_idem, ?or_else_empty_l, ?Hu, ?Hk. simpl.
  rewrite ?or_else_empty_l, ?Hu, ?Hc. simpl.
  repeat split.
Qed.

Lemma connection_resumes_after_reload_witness :
  State.supabase
    (after (Boot.moduleInit Scenario4.unconfigured)
       (pageLoad (after (ApiService.initSupabase Scenario4.unconfigured
                           "https://board.example.supabase.co" "anon")
                        (Scenario.offline NoItem))))
  = Some Scenario.client.
Proof.
  apply (@connection_resumes_after_reload
           Scenario4.unconfigured (Scenario.offline NoItem)
           "https://board.example.supabase.co" "anon" Scenario.client);
    solve [reflexivity | discriminate].
Defined.

(** X5.  With a global URL and key, [initSupabase] of [apiService.ts] and
    of part_000 does not depend on its arguments: whatever URL and key the
    user or the address bar supplies, the state it leaves is the one the
    empty arguments leave, and the persisted configuration is untouched. *)
Theorem initSupabase_ignores_arguments_when_global
        (env : Env.t) (s : State.t) (url key : string) :
  globallyConfigured env = true ->
  ApiService.initSupabase env url key s = ApiService.initSupabase env "" "" s
  /\ Part000.initSupabase env url key s = Part000.initSupabase env "" "" s
  /\ State.configItem (after (ApiService.initSupabase env url key) s) = State.configItem s
  /\ State.configItem (after (Part000.initSupabase env url key) s) = State.configItem s.
Proof.
  unfold globallyConfigured. rewrite andb_true_iff. intros [Hu Hk].
  unfold ApiService.initSupabase, Part000.initSupabase.
  rewrite (@or_else_truthy _ url Hu), (@or_else_truthy _ key Hk),
    (@or_else_truthy _ "" Hu), (@or_else_truthy _ "" Hk), Hu, Hk. simpl.
  repeat split;
    destruct (Env.createClient env (Env.GLOBAL_SUPABASE_URL env)
                               (Env.GLOBAL_SUPABASE_KEY env)); reflexivity.
Qed.

Lemma initSupabase_ignores_arguments_when_global_witness :
  State.supabase
    (after (ApiService.initSupabase Scenario4.compiledIn
              "https://other.example.supabase.co" "other")
           (Scenario.offline NoItem))
  = Some (Part000.FALLBACK_URL, Part000.FALLBACK_KEY).
Proof.
  unfold after.
  destruct (@initSupabase_ignores_arguments_when_global
              Scenario4.compiledIn (Scenario.offline NoItem)
              "https://other.example.supabase.co" "other" eq_refl) as (H & _).
  rewrite H. reflexivity.
Defined.

(** X6.  In part_002 the arguments come first: with a global URL and key,
    [initSupabase(url, key)] with a non-empty pair connects to that pair
    but does not persist it, so the override lasts for the session only;
    the module initialisation of the next page load connects to the global
    pair again. *)
Theorem part002_manual_connection_is_session_only
        (env : Env.t) (s : State.t) (url key : string) (c g : Client) :
  globallyConfigured env = true ->
  url <> "" ->
  key <> "" ->
  Env.createClient env url key = Some c ->
  Env.createClient env (Env.GLOBAL_SUPABASE_URL env) (Env.GLOBAL_SUPABASE_KEY env)
    = Some g ->
  let s1 := after (Boot002.initSupabase env url key) s in
  let s2 := after (Boot002.moduleInit env) (pageLoad s1) in
  State.supabase s1 = Some c
  /\ State.useSupabase s1 = true
  /\ State.configItem s1 = State.configItem s
  /\ State.supabase s2 = Some g
  /\ State.useSupabase s2 = true.
Proof.
  intros Hgc Hu Hk Hc Hg s1 s2. unfold globallyConfigured in Hgc.
  apply andb_true_iff in Hgc. destruct Hgc as [Hgu Hgk].
  subst s1 s2. apply truthy_true in Hu. apply truthy_true in Hk.
  unfold Boot002.moduleInit, Boot002.getSupabaseConfig, Boot002.initSupabase, pageLoad.
  rewrite Hgu, Hgk. unfold_js. simpl.
  rewrite ?(@or_else_truthy url (Env.GLOBAL_SUPABASE_URL env) Hu),
    ?(@or_else_truthy key (Env.GLOBAL_SUPABASE_KEY env) Hk),
    ?(@or_else_truthy (Env.GLOBAL_SUPABASE_URL env)
        (Env.GLOBAL_SUPABASE_URL env) Hgu),
    ?(@or_else_truthy (Env.GLOBAL_SUPABASE_KEY env)
        (Env.GLOBAL_SUPABASE_KEY env) Hgk).
  rewrite ?Hu, ?Hk, ?Hgu, ?Hgk. simpl. rewrite ?Hc, ?Hg. simpl.
  repeat split.
Qed.

Lemma part002_manual_connection_is_session_only_witness :
  let s1 := after (Boot002.initSupabase Scenario4.compiledIn
                     "https://other.example.supabase.co" "other")
                  (Scenario.offline NoItem) in
  State.supabase s1 = Some ("https://other.example.supabase.co", "other")
  /\ State.supabase (after (Boot002.moduleInit Scenario4.compiledIn) (pageLoad s1))
     = Some (Part000.FALLBACK_URL, Part000.FALLBACK_KEY).
Proof.
  destruct (@part002_manual_connection_is_session_only
              Scenario4.compiledIn (Scenario.offline NoItem)
              "https://other.example.supabase.co" "other"
              ("https://other.example.supabase.co", "other")
              (Part000.FALLBACK_URL, Part000.FALLBACK_KEY)
              eq_refl ltac:(discriminate) ltac:(discriminate) eq_refl eq_refl)
    as (H1 & _ & _ & H2 & _).
  split; [exact H1 | exact H2].
Defined.

Lemma flagHasClient_remote (s : State.t) :
  flagHasClient s = true -> remote s = State.useSupabase s.
Proof.
  unfold flagHasClient, remote.
  destruct (State.useSupabase s), (State.supabase s); simpl; congruence.
Qed.

(** X7.  After [initSupabase], in each of the three revisions and
    whatever the arguments and the state before, the flag is on only with
    a client at hand: [isSupabaseEnabled()] then tells exactly whether the
    operations go to the remote backend. *)
Theorem initSupabase_flag_agrees_with_dispatch
        (env : Env.t) (s : State.t) (url key : string) :
  let sA := after (ApiService.initSupabase env url key) s in
  let s0 := after (Part000.initSupabase env url key) s in
  let s2 := after (Boot002.initSupabase env url key) s in
  outcome Boot.isSupabaseEnabled sA = Resolved (remote sA)
  /\ remote s0 = State.useSupabase s0
  /\ remote s2 = State.useSupabase s2.
Proof.
  intros sA s0 s2. subst sA s0 s2.
  unfold Boot.isSupabaseEnabled, outcome, bind, get_state, ret. simpl.
  repeat split; [f_equal; symmetry | | ]; apply flagHasClient_remote;
    unfold ApiService.initSupabase, Part000.initSupabase, Boot002.initSupabase, after.
  - destruct (truthy _ && truthy _); [|destruct (negb _); reflexivity].
    destruct (Env.createClient env _ _); [destruct (negb _)|]; reflexivity.
  - destruct (truthy _ && truthy _); [|destruct (negb _); reflexivity].
    destruct (Env.createClient env _ _); [destruct (negb _)|]; reflexivity.
  - destruct (truthy _ && truthy _); [|destruct (negb _); reflexivity].
    destruct (Env.createClient env _ _); [destruct (negb _)|]; reflexivity.
Qed.

(** X8.  When the client constructor throws, [initSupabase] of
    [apiService.ts] turns the flag off, so the operations go local, but
    it neither removes the persisted configuration nor drops the client of
    the previous connection, and the local data stays as it was. *)
Theorem initSupabase_failed_construction
        (env : Env.t) (s : State.t) (url key : string) :
  let targetUrl := or_else (Env.GLOBAL_SUPABASE_URL env) url in
  let targetKey := or_else (Env.GLOBAL_SUPABASE_KEY env) key in
  targetUrl <> "" ->
  targetKey <> "" ->
  Env.createClient env targetUrl targetKey = None ->
  let s' := after (ApiService.initSupabase env url key) s in
  remote s' = false
  /\ State.useSupabase s' = false
  /\ State.supabase s' = State.supabase s
  /\ State.configItem s' = State.configItem s
  /\ State.dataItem s' = State.dataItem s.
Proof.
  intros targetUrl targetKey Hu Hk Hc s'. subst s' targetUrl targetKey.
  apply truthy_true in Hu. apply truthy_true in Hk.
  unfold ApiService.initSupabase, after. rewrite Hu, Hk, Hc. repeat split.
Qed.

Lemma initSupabase_failed_construction_witness :
  let env := Env.mk "" "" (fun _ _ => None) Scenario.someDay Scenario.dayNumber
                    (fun _ => Scenario.someDay) Scenario.backendWithoutPosition in
  let s' := after (ApiService.initSupabase env "not a url" "anon")
                  Scenario4.connectedWithConfig in
  remote s' = false
  /\ State.supabase s' = Some Scenario.client
  /\ State.configItem s' = Some Scenario.client.
Proof.
  destruct (@initSupabase_failed_construction
              (Env.mk "" "" (fun _ _ => None) Scenario.someDay Scenario.dayNumber
                      (fun _ => Scenario.someDay) Scenario.backendWithoutPosition)
              Scenario4.connectedWithConfig "not a url" "anon"
              ltac:(discriminate) ltac:(discriminate) eq_refl)
    as (H1 & _ & H2 & H3 & _).
  split; [exact H1 | split; [exact H2 | exact H3]].
Defined.

(** ** Provisioning check *)

(** X9.  [checkConnectionAndSeed] of [apiService.ts] in remote mode: a
    probe refused with code 42P01 rejects with the error
    [TABLES_MISSING]; a probe refused with any other error rejects with
    that error unchanged; a probe that finds a row resolves without
    seeding, whatever the inserts would answer; on an empty table the seed
    project is inserted first and its error, if any, is the outcome, then
    the tasks' error.  In local mode the check resolves and does nothing. *)
Theorem checkConnectionAndSeed_taxonomy
        (env : Env.t) (p : Provision.t) (today : Date) (s : State.t)
        (e : PostgrestError.t) (id : string) (ids : list string) :
  let check := Seed.checkConnectionAndSeed env p today in
  (remote s = false -> check s = (Resolved tt, s))
  /\ (remote s = true ->
      Response.error (Provision.probeProjects p) = Some e ->
      PostgrestError.code e = Some "42P01" ->
      rejects_with check s (JsError "TABLES_MISSING"))
  /\ (remote s = true ->
      Response.error (Provision.probeProjects p) = Some e ->
      PostgrestError.code e <> Some "42P01" ->
      rejects_with check s (BackendError e))
  /\ (remote s = true ->
      Provision.probeProjects p = Response.ok (id :: ids) ->
      check s = (Resolved tt, s))
  /\ (remote s = true ->
      Provision.probeProjects p = Response.ok [] ->
      outcome check s
      = match Backend.write (Env.backend env)
                (InsertProject "p1" "쿼터별 웹사이트 리디자인" None) with
        | Some pError => Rejected (BackendError pError)
        | None => answer_of (Provision.insertTasks p (Seed.seedTasks env today)) tt
        end).
Proof.
  intros check. subst check.
  unfold Seed.checkConnectionAndSeed, Seed.seedDatabase.
  repeat match goal with |- _ /\ _ => split end.
  - intros Hr. unfold_js. now rewrite Hr.
  - intros Hr He Hc. unfold_js. simpl. rewrite Hr, He. simpl.
    unfold Part002.code_is. rewrite Hc. reflexivity.
  - intros Hr He Hc. unfold_js. simpl. rewrite Hr, He. simpl.
    unfold Part002.code_is. destruct (PostgrestError.code e) as [k|]; [|reflexivity].
    destruct (String.eqb_spec k "42P01") as [->|]; [congruence|reflexivity].
  - intros Hr Hp. unfold_js. simpl. rewrite Hr, Hp. reflexivity.
  - intros Hr Hp. destruct (remote_client s Hr) as (c & Hc & _).
    unfold answer_of. unfold_js. simpl. rewrite Hr, Hp. simpl. rewrite Hc.
    destruct (Backend.write _ _); [reflexivity|].
    destruct (Provision.insertTasks _ _); reflexivity.
Qed.

Lemma checkConnectionAndSeed_taxonomy_witness :
  rejects_with
    (Seed.checkConnectionAndSeed Scenario5.env ScenarioSeed.unprovisioned Scenario.someDay)
    (Scenario.connected NoItem) (JsError "TABLES_MISSING")
  /\ rejects_with
       (Seed.checkConnectionAndSeed Scenario5.env ScenarioSeed.denied Scenario.someDay)
       (Scenario.connected NoItem) (BackendError Scenario.permissionDenied)
  /\ Seed.checkConnectionAndSeed Scenario5.env ScenarioSeed.populated Scenario.someDay
       (Scenario.connected NoItem)
     = (Resolved tt, Scenario.connected NoItem).
Proof.
  destruct (@checkConnectionAndSeed_taxonomy
              Scenario5.env ScenarioSeed.unprovisioned Scenario.someDay
              (Scenario.connected NoItem) ScenarioSeed.undefinedTable "project-1" [])
    as (_ & H1 & _).
  destruct (@checkConnectionAndSeed_taxonomy
              Scenario5.env ScenarioSeed.denied Scenario.someDay
              (Scenario.connected NoItem) Scenario.permissionDenied "project-1" [])
    as (_ & _ & H2 & _).
  destruct (@checkConnectionAndSeed_taxonomy
              Scenario5.env ScenarioSeed.populated Scenario.someDay
              (Scenario.connected NoItem) Scenario.permissionDenied "project-1" [])
    as (_ & _ & _ & H3 & _).
  split; [|split].
  - apply H1; reflexivity.
  - apply H2; [reflexivity | reflexivity | discriminate].
  - apply H3; reflexivity.
Defined.

(** X10.  [checkConnectionAndSeed] of part_002 reports missing tables
    only: it rejects, with [TABLES_MISSING], exactly when it runs in remote
    mode and the probe is refused with code 42P01; after any other refusal
    (permission, network) it resolves like a successful check, and it never
    changes the state. *)
Theorem part002_check_reports_missing_tables_only
        (p : Provision.t) (s : State.t) :
  let missing :=
    remote s &&
    match Response.error (Provision.probeProjects p) with
    | Some e => Part002.code_is e "42P01"
    | None => false
    end in
  Seed.checkConnection002 p s
  = (if missing then Rejected (JsError "TABLES_MISSING") else Resolved tt, s).
Proof.
  unfold Seed.checkConnection002. unfold_js. simpl.
  destruct (remote s); simpl; [|reflexivity].
  destruct (Response.error (Provision.probeProjects p)) as [e|]; [|reflexivity].
  destruct (Part002.code_is e "42P01"); reflexivity.
Qed.

Example part002_check_swallows_permission_denied :
  Seed.checkConnection002 ScenarioSeed.denied (Scenario.connected NoItem)
  = (Resolved tt, Scenario.connected NoItem)
  /\ outcome (Seed.checkConnection002 ScenarioSeed.unprovisioned)
             (Scenario.connected NoItem)
     = Rejected (JsError "TABLES_MISSING").
Proof. split; reflexivity. Qed.

(** X11.  The settings mirror never rejects, in either revision:
    [getRemoteSettings] resolves, with [null] in local mode, when the
    backend answers with an error and when the call throws, and otherwise
    with the stored value; [saveRemoteSettings] resolves whatever the
    backend does. *)
Theorem remote_settings_never_reject
        (p : Provision.t) (s : State.t) (key value : string) :
  outcome (Seed.getRemoteSettings p key) s
  = Resolved
      (if remote s then
         match Provision.selectSetting p key with
         | Answered r =>
             match Response.error r, Response.data r with
             | None, Some v => v
             | _, _ => None
             end
         | Threw _ => None
         end
       else None)
  /\ outcome (Seed.getRemoteSettings002 p key) s
     = outcome (Seed.getRemoteSettings p key) s
  /\ outcome (Seed.saveRemoteSettings p key value) s = Resolved tt
  /\ outcome (Seed.saveRemoteSettings002 p key value) s = Resolved tt.
Proof.
  unfold Seed.getRemoteSettings, Seed.getRemoteSettings002,
    Seed.saveRemoteSettings, Seed.saveRemoteSettings002.
  unfold_js. simpl.
  destruct (remote s); simpl; repeat split; try reflexivity;
    try (destruct (Provision.selectSetting p key) as [r|e];
         [destruct (Response.error r), (Response.data r)|]; reflexivity);
    try (destruct (Provision.upsertSetting p key value) as [[e|]|e];
         try reflexivity; destruct (Part002.code_is e "42P01"); reflexivity).
Qed.

(** ** The client-side joins of the remote reads *)

Lemma filter_disjoint_perm {A} (f g : A -> bool) (l : list A) :
  (forall x, f x = true -> g x = false) ->
  Permutation (filter f l ++ filter g l) (filter (fun x => f x || g x) l).
Proof.
  intros Hd. induction l as [|a l IH]; simpl; [constructor|].
  destruct (f a) eqn:Ef; simpl.
  - rewrite (Hd a Ef). simpl. now constructor.
  - destruct (g a); simpl; [|exact IH].
    apply Permutation_sym, Permutation_cons_app, Permutation_sym, IH.
Qed.

Lemma refersTo_absent (prows : list ProjectRow.t) (p : ProjectRow.t) (r : TaskRow.t) :
  ~ In (ProjectRow.id p) (map ProjectRow.id prows) ->
  (TaskRow.project_id r =? ProjectRow.id p)%string = true ->
  refersTo prows r = false.
Proof.
  intros Hn He. apply String.eqb_eq in He. unfold refersTo.
  induction prows as [|q prows IH]; simpl; [reflexivity|].
  simpl in Hn. rewrite IH by tauto.
  destruct (String.eqb_spec (TaskRow.project_id r) (ProjectRow.id q)); [|reflexivity].
  exfalso. apply Hn. left. congruence.
Qed.

Lemma join_conserves_tasks (env : Env.t) (rows : list TaskRow.t)
      (prows : list ProjectRow.t) :
  NoDup (map ProjectRow.id prows) ->
  Permutation (allTasks (map (projectOfRow env rows) prows))
              (map (taskOfRow env) (filter (refersTo prows) rows)).
Proof.
  unfold allTasks. induction prows as [|p prows IH]; simpl; intros Hnd.
  - induction rows as [|r rows IHr]; simpl; [constructor|exact IHr].
  - inversion Hnd as [|? ? Hn Hnd']; subst.
    eapply Permutation_trans.
    + apply Permutation_app_head. apply IH. exact Hnd'.
    + rewrite <- map_app. apply Permutation_map.
      apply (filter_disjoint_perm
               (fun r => (TaskRow.project_id r =? ProjectRow.id p)%string)
               (refersTo prows) rows).
      intros r. apply refersTo_absent. exact Hn.
Qed.

(** X12.  The remote read of [apiService.ts] neither loses nor duplicates
    a task: when both queries succeed and the project rows have distinct
    ids, [getProjects] resolves with one project per project row, in the
    order of the rows, and the tasks of these projects together are, up to
    order, the task rows that refer to a project row; task rows that refer
    to no project row appear nowhere. *)
Theorem getProjects_remote_join_conserves_tasks
        (env : Env.t) (s : State.t)
        (prows : list ProjectRow.t) (trows : list TaskRow.t) :
  remote s = true ->
  Backend.selectProjects (Env.backend env) ["created_at"] = Response.ok prows ->
  Backend.selectTasks (Env.backend env) [] = Response.ok trows ->
  NoDup (map ProjectRow.id prows) ->
  exists ps,
    outcome (ApiService.getProjects env) s = Resolved (Some ps)
    /\ map Project.id ps = map ProjectRow.id prows
    /\ Permutation (allTasks ps)
                   (map (taskOfRow env) (filter (refersTo prows) trows)).
Proof.
  intros Hr Hp Ht Hnd. exists (map (projectOfRow env trows) prows).
  repeat split.
  - unfold ApiService.getProjects. unfold_js. simpl. rewrite Hr, Hp. simpl.
    rewrite Ht. reflexivity.
  - rewrite map_map. reflexivity.
  - apply join_conserves_tasks. exact Hnd.
Qed.

Lemma getProjects_remote_join_conserves_tasks_witness :
  exists ps,
    outcome (ApiService.getProjects Scenario5.env) (Scenario.connected NoItem)
    = Resolved (Some ps)
    /\ map Project.id ps = ["project-1"; "project-2"]
    /\ Permutation (allTasks ps)
                   (map (taskOfRow Scenario5.env)
                        (filter (refersTo Scenario.projectRows) Scenario.taskRows)).
Proof.
  apply (@getProjects_remote_join_conserves_tasks
           Scenario5.env (Scenario.connected NoItem)
           Scenario.projectRows Scenario.taskRows);
    try reflexivity.
  repeat constructor; simpl; intuition discriminate.
Defined.

Lemma filter_map_commute {A B} (f : A -> B) (g : B -> bool) (l : list A) :
  filter g (map f l) = map f (filter (fun x => g (f x)) l).
Proof.
  induction l as [|a l IH]; simpl; [reflexivity|].
  destruct (g (f a)); simpl; now rewrite IH.
Qed.

(** X13.  In remote mode [getDepartments] of part_002 delivers member
    lists that agree with the employees' references: when both queries
    succeed, every department of the result lists exactly the employee
    rows whose [department_id] is its id, in the order of the rows. *)
Theorem getDepartments_remote_members_consistent
        (env : Env.t) (s : State.t)
        (drows : list DepartmentRow.t) (erows : list EmployeeRow.t) :
  remote s = true ->
  Backend.selectDepartments (Env.backend env) ["name"] = Response.ok drows ->
  Backend.selectEmployees (Env.backend env) [] = Response.ok erows ->
  exists ds,
    outcome (Part002.getDepartments env) s = Resolved (Some ds)
    /\ map Department.id ds = map DepartmentRow.id drows
    /\ Forall (fun d =>
                 Department.employees d
                 = filter (memberOf (Department.id d))
                          (map Part002.employeeOfRow erows)) ds.
Proof.
  intros Hr Hd He. exists (map (Part002.departmentOfRow erows) drows).
  repeat split.
  - unfold Part002.getDepartments. unfold_js. simpl. rewrite Hr, Hd. simpl.
    rewrite He. reflexivity.
  - rewrite map_map. reflexivity.
  - rewrite Forall_forall. intros d Hin. apply in_map_iff in Hin.
    destruct Hin as (row & <- & _). unfold Part002.departmentOfRow. simpl.
    now rewrite filter_map_commute.
Qed.

Lemma getDepartments_remote_members_consistent_witness :
  let b := Backend.mk (fun _ => Response.ok []) (fun _ => Response.ok [])
             (fun _ => Response.ok [DepartmentRow.mk "d1" "Ops"])
             (fun _ => Response.ok [EmployeeRow.mk "e1" "Kim" "d1";
                                    EmployeeRow.mk "e2" "Lee" "d2"])
             (fun _ => None) in
  exists ds,
    outcome (Part002.getDepartments (Scenario.envOf "" "" b)) (Scenario.connected NoItem)
    = Resolved (Some ds)
    /\ map Department.id ds = ["d1"]
    /\ Forall (fun d =>
                 Department.employees d
                 = filter (memberOf (Department.id d))
                          [Employee.mk "e1" "Kim" "d1"; Employee.mk "e2" "Lee" "d2"]) ds.
Proof.
  intros b.
  apply (@getDepartments_remote_members_consistent
           (Scenario.envOf "" "" b) (Scenario.connected NoItem)
           [DepartmentRow.mk "d1" "Ops"]
           [EmployeeRow.mk "e1" "Kim" "d1"; EmployeeRow.mk "e2" "Lee" "d2"]);
    reflexivity.
Defined.

(** ** Compositions on the local store of [apiService.ts] *)

Lemma find_app_absent {A} (f : A -> bool) (l : list A) (x : A) :
  find f l = None -> find f (l ++ [x]) = if f x then Some x else None.
Proof.
  induction l as [|a l IH]; simpl; [reflexivity|].
  destruct (f a); [discriminate|exact IH].
Qed.

Lemma update_first_app_absent {A} (f : A -> bool) (g : A -> A) (l : list A) (x : A) :
  find f l = None ->
  update_first f g (l ++ [x]) = (l ++ [if f x then g x else x])%list.
Proof.
  induction l as [|a l IH]; simpl.
  - destruct (f x); reflexivity.
  - destruct (f a); [discriminate|]. intros H. now rewrite IH.
Qed.

Lemma forallb_hasTasks_app (l : list Project.t) (p : Project.t) :
  forallb hasTasks l = true -> hasTasks p = true -> forallb hasTasks (l ++ [p]) = true.
Proof. intros Hl Hp. rewrite forallb_app, Hl. simpl. now rewrite Hp. Qed.

Lemma apiService_getProjects_local (env : Env.t) (s s1 : State.t) (d : AppData.t) :
  remote s = false ->
  ApiService.readLocalData env s = (Resolved d, s1) ->
  ApiService.getProjects env s = (Resolved (AppData.projects d), s1).
Proof.
  intros Hr Hd. unfold ApiService.getProjects, bind, get_state. cbv beta iota.
  now rewrite Hr, Hd.
Qed.

Lemma apiService_addProject_local (env : Env.t) (s s1 : State.t) (now : Z)
      (projectName : string) (d : AppData.t) (ps : list Project.t) :
  remote s = false ->
  ApiService.readLocalData env s = (Resolved d, s1) ->
  AppData.projects d = Some ps ->
  ApiService.addProject env now projectName s
  = (Resolved (Project.mk ("project-" ++ string_of_Z now) projectName (Some [])),
     storeData s1
       (JsonText
          (PDoc (withProjects d
                   (Some (ps ++ [Project.mk ("project-" ++ string_of_Z now)
                                            projectName (Some [])])%list))))).
Proof.
  intros Hr Hd Hp. unfold ApiService.addProject, bind, get_state. cbv beta iota.
  rewrite Hr, Hd, Hp. reflexivity.
Qed.

Lemma apiService_addTask_local (env : Env.t) (s s1 : State.t) (now : Z)
      (colorDraw : nat) (rnd36 projectId : string) (taskData : TaskData.t)
      (d : AppData.t) (ps : list Project.t) (p : Project.t) :
  remote s = false ->
  ApiService.readLocalData env s = (Resolved d, s1) ->
  AppData.projects d = Some ps ->
  find (isProject projectId) ps = Some p ->
  let task := newTask (ApiService.taskId now rnd36) taskData
                      (nth colorDraw ApiService.colors "") in
  ApiService.addTask env now colorDraw rnd36 projectId taskData s
  = (Resolved task,
     storeData s1
       (JsonText
          (PDoc (withProjects d
                   (Some (update_first (isProject projectId)
                            (fun q => withTasks q
                                        (Some (or_empty (Project.tasks q) ++ [task])%list))
                            ps)))))).
Proof.
  intros Hr Hd Hp Hf task. subst task.
  unfold ApiService.addTask, bind, get_state. cbv beta iota.
  rewrite Hr, Hd, Hp. unfold_js. simpl. rewrite Hf. reflexivity.
Qed.

(** X14.  On the local store of [apiService.ts], [addProject] followed
    by [addTask] on the id of the created project leaves that project last
    in the list with exactly the one new task, of progress 0, and every
    other project as it was, provided no stored project already carries the
    id [project-<now>] ([find] would reach that one first). *)
Theorem addProject_then_addTask_reads_back
        (env : Env.t) (s : State.t) (now now' : Z) (colorDraw : nat)
        (rnd36 projectName : string) (taskData : TaskData.t)
        (d : AppData.t) (ps : list Project.t) :
  remote s = false ->
  outcome (ApiService.readLocalData env) s = Resolved d ->
  AppData.projects d = Some ps ->
  lookupProject d ("project-" ++ string_of_Z now) = None ->
  let created := ("project-" ++ string_of_Z now)%string in
  let task := newTask (ApiService.taskId now' rnd36) taskData
                      (nth colorDraw ApiService.colors "") in
  let s1 := after (ApiService.addProject env now projectName) s in
  let s2 := after (ApiService.addTask env now' colorDraw rnd36 created taskData) s1 in
  outcome (ApiService.addTask env now' colorDraw rnd36 created taskData) s1
  = Resolved task
  /\ outcome (ApiService.getProjects env) s2
     = Resolved (Some (ps ++ [Project.mk created projectName (Some [task])])%list)
  /\ Task.progress task = 0.
Proof.
  intros Hr Hd Hps Habs created task s1 s2. subst s1 s2.
  destruct (@apiService_read_outcome env s d Hd) as (Hs & s1 & Hread & Hr1).
  unfold lookupProject in Habs. rewrite Hps in Habs.
  assert (Hshape : forallb hasTasks ps = true)
    by (unfold wellShaped in Hs; now rewrite Hps in Hs).
  set (d1 := withProjects d
               (Some (ps ++ [Project.mk created projectName (Some [])])%list)).
  assert (Hs1 : wellShaped d1 = true)
    by (unfold wellShaped, d1; simpl; now apply forallb_hasTasks_app).
  assert (E1 : after (ApiService.addProject env now projectName) s
               = storeData s1 (JsonText (PDoc d1))).
  { unfold after.
    now rewrite (@apiService_addProject_local env s s1 now projectName d ps Hr Hread Hps). }
  rewrite E1.
  assert (Hfind : find (isProject created)
                       (ps ++ [Project.mk created projectName (Some [])])
                  = Some (Project.mk created projectName (Some []))).
  { rewrite (find_app_absent _ _ _ Habs). unfold isProject.
    cbn [Project.id]. now rewrite String.eqb_refl. }
  pose proof (@apiService_addTask_local env
                (storeData s1 (JsonText (PDoc d1)))
                (storeData s1 (JsonText (PDoc d1)))
                now' colorDraw rnd36 created taskData d1
                (ps ++ [Project.mk created projectName (Some [])])
                (Project.mk created projectName (Some []))
                ltac:(rewrite remote_storeData; congruence)
                (@apiService_read_after_write env s1 d1 Hs1)
                eq_refl Hfind) as Hadd.
  cbv zeta in Hadd. fold task in Hadd.
  rewrite (update_first_app_absent _ _ _ _ Habs) in Hadd.
  unfold isProject at 1 in Hadd. cbn [Project.id] in Hadd.
  rewrite String.eqb_refl in Hadd.
  cbn [Project.tasks or_empty withTasks Project.name app] in Hadd.
  unfold outcome, after. rewrite Hadd. cbn [fst snd].
  split; [reflexivity|]. split; [|reflexivity].
  match goal with
  | |- fst (ApiService.getProjects env (storeData ?st (JsonText (PDoc ?dd)))) = _ =>
      assert (Hs2 : wellShaped dd = true);
      [| rewrite (@apiService_getProjects_local env
                    (storeData st (JsonText (PDoc dd)))
                    (storeData st (JsonText (PDoc dd))) dd
                    ltac:(rewrite !remote_storeData; congruence)
                    (@apiService_read_after_write env st dd Hs2)) ]
  end.
  - unfold wellShaped. cbn [withProjects AppData.projects].
    now apply forallb_hasTasks_app.
  - reflexivity.
Qed.

Lemma addProject_then_addTask_reads_back_witness :
  outcome (ApiService.getProjects Scenario5.env)
    (after (ApiService.addTask Scenario5.env 1704067200500 0 "0.4fzyo82mvyr"
              "project-1704067200000" Scenario7.taskData)
       (after (ApiService.addProject Scenario5.env 1704067200000 "Launch")
              (Scenario.offline
                 (JsonText (PDoc (AppData.mk (Some []) (Some []) (Some [])))))))
  = Resolved
      (Some [Project.mk "project-1704067200000" "Launch"
               (Some [newTask "task-1704067200500-4fzyo82mv" Scenario7.taskData
                              "bg-rose-500"])]).
Proof.
  destruct (@addProject_then_addTask_reads_back
              Scenario5.env
              (Scenario.offline (JsonText (PDoc (AppData.mk (Some []) (Some []) (Some [])))))
              1704067200000 1704067200500 0 "0.4fzyo82mvyr" "Launch" Scenario7.taskData
              (AppData.mk (Some []) (Some []) (Some [])) []
              eq_refl eq_refl eq_refl eq_refl) as (_ & H & _).
  exact H.
Defined.

Lemma useSupabase_off_local (s : State.t) :
  State.useSupabase s = false -> remote s = false.
Proof. unfold remote. now intros ->. Qed.

Lemma apiService_updateProjects_local (env : Env.t) (s s1 : State.t)
      (projects : list Project.t) (d : AppData.t) :
  State.useSupabase s = false ->
  ApiService.readLocalData env s = (Resolved d, s1) ->
  ApiService.updateProjects env projects s
  = (Resolved projects,
     storeData s1 (JsonText (PDoc (withProjects d (Some projects))))).
Proof.
  intros Hu Hd. unfold ApiService.updateProjects, bind, get_state. cbv beta iota.
  rewrite Hu. cbn [negb]. now rewrite Hd.
Qed.

Lemma apiService_read_stored_projects (env : Env.t) (s : State.t) (d : AppData.t)
      (ps : list Project.t) :
  ApiService.readLocalData env (storeData s (JsonText (PDoc (withProjects d (Some ps)))))
  = (Resolved (withProjects d (Some (map ApiService.ensureTasks ps))),
     storeData s (JsonText (PDoc (withProjects d (Some ps))))).
Proof. rewrite apiService_readLocalData_cases. reflexivity. Qed.

(** The local branch of [updateProjects] in part_002, by what the store
    holds. *)
Lemma part002_updateProjects_local (env : Env.t) (s : State.t)
      (projects : list Project.t) :
  remote s = false ->
  Part002.updateProjects env projects s
  = match State.dataItem s with
    | JsonText (PDoc d) =>
        (Resolved projects,
         storeData s (JsonText (PDoc (withProjects d (Some projects)))))
    | JsonText (PArray json) => (Resolved projects, storeData s (JsonText (PArray json)))
    | JsonText (PPrimitive _) => (Rejected TypeError, s)
    | _ =>
        (Resolved projects,
         storeData s
           (JsonText (PDoc (withProjects (Part002.getInitialData env) (Some projects)))))
    end.
Proof.
  intros Hr. unfold Part002.updateProjects, bind, get_state. cbv beta iota.
  rewrite Hr, part002_readLocalData_cases.
  destruct (State.dataItem s) as [| | |[|j|j|d0]]; reflexivity.
Qed.

Lemma part002_updateProjects_stores (env : Env.t) (s : State.t)
      (projects : list Project.t) :
  remote s = false ->
  arrayOrPrimitive (State.dataItem s) = false ->
  exists d,
    Part002.updateProjects env projects s
    = (Resolved projects,
       storeData s (JsonText (PDoc (withProjects d (Some projects))))).
Proof.
  intros Hr Hk. rewrite (part002_updateProjects_local env s projects Hr).
  destruct (State.dataItem s) as [| | |[|j|j|d0]]; try discriminate;
    eexists; reflexivity.
Qed.

(** X15.  The last reorder wins on the local store: after two
    [updateProjects] calls [getProjects] resolves with the list of the
    second call, in its order, in [apiService.ts] (where a project stored
    without a task array is read back with an empty one) and, unless the
    store holds a JSON array or primitive, in part_002.  On a stored array
    [updateProjects] of part_002 resolves but the array stays in the store
    and [getProjects] resolves with [undefined]; on a stored primitive it
    rejects with a [TypeError] and writes nothing. *)
Theorem updateProjects_last_write_wins
        (env : Env.t) (s : State.t) (first second : list Project.t) :
  State.useSupabase s = false ->
  outcome (ApiService.getProjects env)
          (after (ApiService.updateProjects env second)
                 (after (ApiService.updateProjects env first) s))
  = Resolved (Some (map ApiService.ensureTasks second))
  /\ (arrayOrPrimitive (State.dataItem s) = false ->
      outcome (Part002.getProjects env)
              (after (Part002.updateProjects env second)
                     (after (Part002.updateProjects env first) s))
      = Resolved (Some second))
  /\ (forall json,
         State.dataItem s = JsonText (PArray json) ->
         Part002.updateProjects env second s = (Resolved second, s)
         /\ outcome (Part002.getProjects env) s = Resolved None)
  /\ (forall json,
         State.dataItem s = JsonText (PPrimitive json) ->
         Part002.updateProjects env second s = (Rejected TypeError, s)).
Proof.
  intros Hu. pose proof (useSupabase_off_local s Hu) as Hr.
  split; [|split; [|split]].
  - destruct (apiService_readLocalData_total env s) as (d & s1 & Hread & _ & _ & Hf & _).
    unfold after at 2.
    rewrite (@apiService_updateProjects_local env s s1 first d Hu Hread).
    cbn [snd]. unfold after.
    rewrite (@apiService_updateProjects_local env
               (storeData s1 (JsonText (PDoc (withProjects d (Some first)))))
               (storeData s1 (JsonText (PDoc (withProjects d (Some first)))))
               second (withProjects d (Some (map ApiService.ensureTasks first)))
               ltac:(simpl; congruence)
               (apiService_read_stored_projects env s1 d first)).
    cbn [snd]. unfold outcome.
    rewrite (@apiService_getProjects_local env
               (storeData (storeData s1 (JsonText (PDoc (withProjects d (Some first)))))
                  (JsonText
                     (PDoc (withProjects
                              (withProjects d (Some (map ApiService.ensureTasks first)))
                              (Some second)))))
               _ _
               ltac:(apply useSupabase_off_local; simpl; congruence)
               (@apiService_read_stored_projects env
                  (storeData s1 (JsonText (PDoc (withProjects d (Some first)))))
                  (withProjects d (Some (map ApiService.ensureTasks first)))
                  second)).
    reflexivity.
  - intros Hk.
    destruct (part002_updateProjects_stores env s first Hr Hk) as (d & E1).
    unfold after at 2. rewrite E1. cbn [snd].
    destruct (part002_updateProjects_stores env
                (storeData s (JsonText (PDoc (withProjects d (Some first)))))
                second ltac:(now rewrite remote_storeData) eq_refl) as (d' & E2).
    unfold after. rewrite E2. cbn [snd].
    unfold outcome, Part002.getProjects, bind, get_state. cbv beta iota.
    rewrite !remote_storeData, Hr, part002_readLocalData_cases. reflexivity.
  - intros json Hs. split.
    + rewrite (part002_updateProjects_local env s second Hr), Hs.
      rewrite <- Hs. now rewrite storeData_data.
    + unfold outcome, Part002.getProjects, bind, get_state. cbv beta iota.
      rewrite Hr, part002_readLocalData_cases, Hs. reflexivity.
  - intros json Hs.
    now rewrite (part002_updateProjects_local env s second Hr), Hs.
Qed.

Lemma updateProjects_last_write_wins_witness :
  outcome (ApiService.getProjects Scenario5.env)
          (after (ApiService.updateProjects Scenario5.env
                    [Scenario2.audit; Scenario2.launch])
                 (after (ApiService.updateProjects Scenario5.env
                           [Scenario2.launch; Scenario2.audit])
                        Scenario5.start))
  = Resolved (Some [Scenario2.audit; Scenario2.launch])
  /\ outcome (Part002.getProjects Scenario5.env)
             (after (Part002.updateProjects Scenario5.env
                       [Scenario2.audit; Scenario2.launch])
                    (after (Part002.updateProjects Scenario5.env
                              [Scenario2.launch; Scenario2.audit])
                           Scenario5.start))
     = Resolved (Some [Scenario2.audit; Scenario2.launch])
  /\ Part002.updateProjects Scenario5.env [Scenario2.audit]
       (Scenario.offline (JsonText (PArray "[]")))
     = (Resolved [Scenario2.audit], Scenario.offline (JsonText (PArray "[]")))
  /\ outcome (Part002.getProjects Scenario5.env)
             (Scenario.offline (JsonText (PArray "[]")))
     = Resolved None
  /\ Part002.updateProjects Scenario5.env [Scenario2.audit]
       (Scenario.offline (JsonText (PPrimitive "7")))
     = (Rejected TypeError, Scenario.offline (JsonText (PPrimitive "7"))).
Proof.
  destruct (@updateProjects_last_write_wins
              Scenario5.env Scenario5.start
              [Scenario2.launch; Scenario2.audit] [Scenario2.audit; Scenario2.launch]
              eq_refl) as (HA & HB & _).
  destruct (@updateProjects_last_write_wins
              Scenario5.env (Scenario.offline (JsonText (PArray "[]")))
              [Scenario2.launch] [Scenario2.audit] eq_refl) as (_ & _ & HC & _).
  destruct (@updateProjects_last_write_wins
              Scenario5.env (Scenario.offline (JsonText (PPrimitive "7")))
              [Scenario2.launch] [Scenario2.audit] eq_refl) as (_ & _ & _ & HD).
  destruct (HC "[]" eq_refl) as (HC1 & HC2).
  split; [exact HA|split; [exact (HB eq_refl)|split; [exact HC1|split; [exact HC2|]]]].
  exact (HD "7" eq_refl).
Defined.

Lemma find_filter_removed {A} (f : A -> bool) (l : list A) :
  find f (filter (fun x => negb (f x)) l) = None.
Proof.
  induction l as [|a l IH]; simpl; [reflexivity|].
  destruct (f a) eqn:E; simpl; [exact IH|]. now rewrite E.
Qed.

Lemma find_filter_kept {A} (f g : A -> bool) (l : list A) :
  (forall x, f x = true -> g x = true) ->
  find f (filter g l) = find f l.
Proof.
  intros H. induction l as [|a l IH]; simpl; [reflexivity|].
  destruct (g a) eqn:Eg; simpl.
  - destruct (f a); [reflexivity|exact IH].
  - destruct (f a) eqn:Ef; [|exact IH]. rewrite (H a Ef) in Eg. discriminate.
Qed.

(** X16.  [deleteProject] on the local store of [apiService.ts] removes
    the project with all its tasks and nothing else: afterwards the
    dataset read back has no project of that id, hence none of its tasks,
    and every project of another id is found as before. *)
Theorem deleteProject_removes_project_and_tasks_only
        (env : Env.t) (s : State.t) (projectId other taskId : string) (d : AppData.t) :
  remote s = false ->
  outcome (ApiService.readLocalData env) s = Resolved d ->
  other <> projectId ->
  exists d',
    outcome (ApiService.readLocalData env)
            (after (ApiService.deleteProject env projectId) s) = Resolved d'
    /\ lookupProject d' projectId = None
    /\ lookupTask d' projectId taskId = None
    /\ lookupProject d' other = lookupProject d other
    /\ lookupTask d' other taskId = lookupTask d other taskId
    /\ AppData.departments d' = AppData.departments d
    /\ AppData.employees d' = AppData.employees d.
Proof.
  intros Hr Hd Hne.
  destruct (@apiService_read_outcome env s d Hd) as (Hs & s1 & Hread & _).
  exists (removeProject d projectId).
  unfold after. rewrite (@apiService_deleteProject_local env s s1 projectId d Hr Hread Hs).
  cbn [snd]. unfold outcome.
  rewrite (@apiService_read_after_write env s1 (removeProject d projectId)
             (@wellShaped_removeProject d projectId Hs)).
  assert (Hgone : lookupProject (removeProject d projectId) projectId = None).
  { unfold lookupProject, removeProject. simpl.
    destruct (AppData.projects d) as [ps|]; [|reflexivity]. simpl.
    apply find_filter_removed. }
  assert (Hkept : lookupProject (removeProject d projectId) other = lookupProject d other).
  { unfold lookupProject, removeProject. simpl.
    destruct (AppData.projects d) as [ps|]; [|reflexivity]. simpl.
    apply find_filter_kept. intros p Hp. unfold isProject in *.
    apply String.eqb_eq in Hp.
    destruct (String.eqb_spec (Project.id p) projectId); [congruence|reflexivity]. }
  unfold lookupTask. rewrite Hgone, Hkept. repeat split.
Qed.

Lemma deleteProject_removes_project_and_tasks_only_witness :
  exists d',
    outcome (ApiService.readLocalData Scenario5.env)
            (after (ApiService.deleteProject Scenario5.env "project-1") Scenario5.start)
    = Resolved d'
    /\ lookupProject d' "project-1" = None
    /\ lookupTask d' "project-1" "task-1" = None.
Proof.
  destruct (@deleteProject_removes_project_and_tasks_only
              Scenario5.env Scenario5.start "project-1" "project-2" "task-1"
              Scenario5.board eq_refl eq_refl ltac:(discriminate))
    as (d' & H1 & H2 & H3 & _).
  exists d'. split; [exact H1 | split; [exact H2 | exact H3]].
Defined.

(** X17.  An edit that blanks the name and the assignee is applied
    locally and dropped remotely: on the local store of [apiService.ts]
    [updateTask] with [{ name: empty, employeeId: empty }] stores the task
    with both fields empty, whereas in remote mode the request carries no
    column at all, so the row keeps its name and assignee. *)
Theorem updateTask_empty_strings_local_versus_remote
        (env : Env.t) (s sr : State.t) (projectId taskId : string)
        (d : AppData.t) (t : Task.t) (row : TaskRow.t) :
  remote s = false ->
  outcome (ApiService.readLocalData env) s = Resolved d ->
  lookupTask d projectId taskId = Some t ->
  remote sr = true ->
  let u := TaskPatch.mk None (Some "") None None None (Some "") None None in
  (exists d',
      outcome (ApiService.readLocalData env)
              (after (ApiService.updateTask env projectId taskId u) s) = Resolved d'
      /\ lookupTask d' projectId taskId
         = Some (Task.mk (Task.id t) "" (Task.startDate t) (Task.endDate t)
                         (Task.color t) "" (Task.progress t) (Task.description t)))
  /\ outcome (ApiService.updateTask env projectId taskId u) sr
     = answer_of
         (Backend.write (Env.backend env)
            (UpdateTask taskId (TaskUpdates.mk None None None None None None)))
         (PatchWithId (PartialTask.mk taskId u))
  /\ applyUpdates (buildUpdates env u) row = row.
Proof.
  intros Hr Hd Ht Hrr u.
  destruct (@apiService_read_outcome env s d Hd) as (Hs & s1 & Hread & _).
  split; [|split].
  - exists (patchTask d projectId taskId u). unfold after.
    rewrite (@apiService_updateTask_local env s s1 projectId taskId u d t Hr Hread Ht).
    cbn [snd]. unfold outcome.
    rewrite apiService_read_after_write by (apply wellShaped_patchTask; assumption).
    split; [reflexivity|].
    now rewrite (@lookupTask_patchTask d projectId taskId u t eq_refl Ht).
  - subst u. unfold ApiService.updateTask.
    replace (buildUpdates env
               (TaskPatch.mk None (Some "") None None None (Some "") None None))
      with (TaskUpdates.mk None None None None None None) by reflexivity.
    remote_write Hrr.
  - destruct row. reflexivity.
Qed.

Lemma updateTask_empty_strings_local_versus_remote_witness :
  exists d',
    outcome (ApiService.readLocalData Scenario5.env)
            (after (ApiService.updateTask Scenario5.env "project-1" "task-1"
                      (TaskPatch.mk None (Some "") None None None (Some "") None None))
                   Scenario5.start) = Resolved d'
    /\ lookupTask d' "project-1" "task-1"
       = Some (Task.mk "task-1" "" 1704067200000 1704412800000 "bg-rose-500" "" 0
                       (Some "first draft")).
Proof.
  destruct (@updateTask_empty_strings_local_versus_remote
              Scenario5.env Scenario5.start (Scenario.connected NoItem)
              "project-1" "task-1" Scenario5.board Scenario5.design
              (TaskRow.mk "task-1" "project-1" "Design" "2024-01-01" "2024-01-05"
                          "bg-rose-500" "e1" 0 None)
              eq_refl eq_refl eq_refl eq_refl) as (H & _).
  exact H.
Defined.

(** ** The member lists on the local store of part_000 *)

Lemma part000_readLocalData_cases (env : Env.t) (s : State.t) :
  Part000.readLocalData env s =
  match State.dataItem s with
  | BadJson =>
      (Resolved (Part000.getInitialData env),
       logged s (console_error "Failed to read local data" (Some SyntaxError)))
  | JsonText (PDoc d) =>
      match AppData.projects d with
      | Some ps =>
          (Resolved (Part000.ensureOrganization env
                       (withProjects d (Some (map Part000.ensureTasks ps)))), s)
      | None =>
          (Resolved (Part000.getInitialData env),
           storeData s (JsonText (PDoc (Part000.getInitialData env))))
      end
  | _ =>
      (Resolved (Part000.getInitialData env),
       storeData s (JsonText (PDoc (Part000.getInitialData env))))
  end.
Proof.
  unfold Part000.readLocalData, Part000.seedAndPersist. unfold_js.
  destruct (State.dataItem s) as [| | |[|j|j|d]]; try reflexivity.
  destruct (AppData.projects d); reflexivity.
Qed.

Lemma part000_ensureTasks_hasTasks (ps : list Project.t) :
  forallb hasTasks (map Part000.ensureTasks ps) = true.
Proof.
  induction ps as [|p r IH]; simpl; [reflexivity|].
  rewrite IH, andb_true_r. unfold Part000.ensureTasks, hasTasks.
  destruct (Project.tasks p) eqn:E; simpl; [now rewrite E|reflexivity].
Qed.

Lemma part000_map_ensureTasks_shaped (ps : list Project.t) :
  forallb hasTasks ps = true -> map Part000.ensureTasks ps = ps.
Proof.
  induction ps as [|p r IH]; simpl; [reflexivity|].
  rewrite andb_true_iff. intros [Hp Hr]. rewrite (IH Hr).
  unfold Part000.ensureTasks, hasTasks in *.
  destruct (Project.tasks p); [reflexivity|discriminate].
Qed.

Lemma part000_read_outcome (env : Env.t) (s : State.t) (d : AppData.t) :
  outcome (Part000.readLocalData env) s = Resolved d ->
  exists s1 ps,
    Part000.readLocalData env s = (Resolved d, s1)
    /\ remote s1 = remote s
    /\ AppData.projects d = Some ps
    /\ forallb hasTasks ps = true.
Proof.
  unfold outcome. rewrite part000_readLocalData_cases.
  destruct (State.dataItem s) as [| | |[|j|j|d0]]; simpl;
    try (intros H; injection H as <-; do 2 eexists; repeat split; reflexivity).
  destruct (AppData.projects d0) as [ps|]; simpl.
  - intros H; injection H as <-. do 2 eexists. repeat split.
    apply part000_ensureTasks_hasTasks.
  - intros H; injection H as <-. do 2 eexists; repeat split; reflexivity.
Qed.

Lemma part000_read_after_write (env : Env.t) (s : State.t)
      (ps : list Project.t) (ds : list Department.t) (es : list Employee.t) :
  forallb hasTasks ps = true ->
  Part000.readLocalData env
    (storeData s (JsonText (PDoc (AppData.mk (Some ps) (Some ds) (Some es)))))
  = (Resolved (AppData.mk (Some ps) (Some ds) (Some es)),
     storeData s (JsonText (PDoc (AppData.mk (Some ps) (Some ds) (Some es))))).
Proof.
  intros Hs. rewrite part000_readLocalData_cases. simpl.
  unfold withProjects, Part000.ensureOrganization. simpl.
  now rewrite (part000_map_ensureTasks_shaped ps Hs).
Qed.

Lemma filter_filter_swap {A} (f g : A -> bool) (l : list A) :
  filter f (filter g l) = filter g (filter f l).
Proof.
  induction l as [|a l IH]; simpl; [reflexivity|].
  destruct (f a) eqn:Ef, (g a) eqn:Eg; simpl; rewrite ?Ef, ?Eg, IH; reflexivity.
Qed.

Lemma filter_filter_absorb {A} (f g : A -> bool) (l : list A) :
  (forall x, f x = true -> g x = true) ->
  filter f (filter g l) = filter f l.
Proof.
  intros H. induction l as [|a l IH]; simpl; [reflexivity|].
  destruct (g a) eqn:Eg; simpl.
  - now rewrite IH.
  - destruct (f a) eqn:Ef; [|exact IH]. rewrite (H a Ef) in Eg. discriminate.
Qed.

(** X18.  The two deletes of the local backend of part_000 keep the
    member lists in step with the employees: if in the stored dataset
    every department lists exactly the employees that refer to it, it is so
    again after [deleteEmployee] (and the employee is in no list) and after
    [deleteDepartment]; and the seed dataset has the property. *)
Theorem part000_deletes_keep_members_consistent
        (env : Env.t) (s : State.t) (id : string) (d : AppData.t) :
  remote s = false ->
  outcome (Part000.readLocalData env) s = Resolved d ->
  membersConsistent d ->
  (exists ps ds es,
      outcome (Part000.readLocalData env)
              (after (Part000Org.deleteEmployee env id) s)
      = Resolved (AppData.mk ps (Some ds) (Some es))
      /\ membersConsistent (AppData.mk ps (Some ds) (Some es))
      /\ forallb (fun e => negb (Employee.id e =? id)%string) es = true)
  /\ (exists d2,
         outcome (Part000.readLocalData env)
                 (after (Part000.deleteDepartment env id) s) = Resolved d2
         /\ membersConsistent d2)
  /\ membersConsistent (Part000.getInitialData env).
Proof.
  intros Hr Hd Hm.
  destruct (@part000_read_outcome env s d Hd) as (s1 & ps & Hread & Hr1 & Hps & Hshape).
  unfold membersConsistent in Hm.
  destruct (AppData.departments d) as [ds|] eqn:Eds; [|contradiction].
  destruct (AppData.employees d) as [es|] eqn:Ees; [|contradiction].
  split; [|split].
  - do 3 eexists.
    unfold after, Part000Org.deleteEmployee, bind, get_state. cbv beta iota.
    rewrite Hr, Hread, Ees, Eds, Hps. unfold_js. cbn [fst snd].
    fold (storeData s1
            (JsonText (PDoc (AppData.mk (Some ps)
               (Some (map (fun d0 =>
                             Department.mk (Department.id d0) (Department.name d0)
                               (filter (fun e => negb (Employee.id e =? id)%string)
                                       (Department.employees d0))) ds))
               (Some (filter (fun e => negb (Employee.id e =? id)%string) es)))))).
    rewrite (@part000_read_after_write env s1 ps _ _ Hshape).
    split; [reflexivity|]. split; [|apply forallb_filter].
    unfold membersConsistent. simpl. rewrite Forall_forall in *.
    intros dep Hin. apply in_map_iff in Hin. destruct Hin as (dep0 & <- & Hin0).
    simpl. rewrite (Hm dep0 Hin0). apply filter_filter_swap.
  - eexists.
    unfold after, Part000.deleteDepartment, bind, get_state. cbv beta iota.
    rewrite Hr, Hread, Eds, Ees, Hps. unfold_js. cbn [fst snd].
    fold (storeData s1
            (JsonText (PDoc (AppData.mk (Some ps)
               (Some (filter (fun d0 => negb (Department.id d0 =? id)%string) ds))
               (Some (filter (fun e => negb (Employee.departmentId e =? id)%string) es)))))).
    rewrite (@part000_read_after_write env s1 ps _ _ Hshape).
    split; [reflexivity|].
    unfold membersConsistent. simpl. rewrite Forall_forall in *.
    intros dep Hin. apply filter_In in Hin. destruct Hin as [Hin Hne].
    rewrite (Hm dep Hin). symmetry. apply filter_filter_absorb.
    intros e He. unfold memberOf in He. apply String.eqb_eq in He. rewrite He.
    exact Hne.
  - unfold membersConsistent. simpl. repeat constructor.
Qed.

Lemma part000_deletes_keep_members_consistent_witness :
  membersConsistent (Part000.getInitialData Scenario5.env)
  /\ exists ps ds es,
       outcome (Part000.readLocalData Scenario5.env)
               (after (Part000Org.deleteEmployee Scenario5.env "e1")
                      (Scenario.offline NoItem))
       = Resolved (AppData.mk ps (Some ds) (Some es))
       /\ membersConsistent (AppData.mk ps (Some ds) (Some es))
       /\ forallb (fun e => negb (Employee.id e =? "e1")%string) es = true.
Proof.
  assert (Hseed : membersConsistent (Part000.getInitialData Scenario5.env))
    by (unfold membersConsistent; simpl; repeat constructor).
  split; [exact Hseed|].
  destruct (@part000_deletes_keep_members_consistent
              Scenario5.env (Scenario.offline NoItem) "e1"
              (Part000.getInitialData Scenario5.env) eq_refl eq_refl Hseed)
    as (H & _).
  exact H.
Defined.

(** ** The handlers of the board ([index.tsx]) *)

Lemma findIndex_found {A} (f : A -> bool) (l : list A) (i : nat) :
  Ui.findIndex f l = Some i ->
  exists x, nth_error l i = Some x /\ find f l = Some x /\ (i < List.length l)%nat.
Proof.
  revert i. induction l as [|a l IH]; simpl; intros i H; [discriminate|].
  destruct (f a).
  - injection H as <-. exists a. repeat split. simpl. lia.
  - destruct (Ui.findIndex f l) as [j|]; [|discriminate].
    injection H as <-. destruct (IH j eq_refl) as (x & Hn & Hf & Hl).
    exists x. repeat split; simpl; auto. lia.
Qed.

Lemma removeAt_split {A} (l1 l2 : list A) (x : A) :
  Ui.removeAt (List.length l1) (l1 ++ x :: l2) = (l1 ++ l2)%list.
Proof.
  unfold Ui.removeAt. induction l1 as [|a l1 IH]; simpl; [reflexivity|].
  simpl in IH. now rewrite IH.
Qed.

Lemma insertAt_perm {A} (i : nat) (x : A) (l : list A) :
  Permutation (Ui.insertAt i x l) (x :: l).
Proof.
  unfold Ui.insertAt. rewrite <- (firstn_skipn i l) at 3.
  apply Permutation_sym, Permutation_middle.
Qed.

Lemma insertAt_nth {A} (i : nat) (x : A) (l : list A) :
  (i <= List.length l)%nat -> nth_error (Ui.insertAt i x l) i = Some x.
Proof.
  intros Hi. unfold Ui.insertAt.
  rewrite nth_error_app2; rewrite length_firstn, Nat.min_l by lia; [|lia].
  now rewrite Nat.sub_diag.
Qed.

(** X19.  A drag of one project onto another never loses or duplicates a
    project: the list [handleReorderProjects] builds is a permutation of
    the list on the board, the dragged project sits at the index the target
    had, and with the local backend [getProjects] then resolves with that
    list.  When the two ids are equal or one is not on the board, nothing
    is written and the list stays. *)
Theorem handleReorderProjects_permutes_and_persists
        (env : Env.t) (s : State.t) (projects : list Project.t)
        (draggedId targetId : string) :
  State.useSupabase s = false ->
  let h := Ui.handleReorderProjects env projects draggedId targetId in
  match Ui.reorderProjects projects draggedId targetId with
  | Some newProjects =>
      Permutation newProjects projects
      /\ (exists i p,
             Ui.findIndex (isProject targetId) projects = Some i
             /\ find (isProject draggedId) projects = Some p
             /\ nth_error newProjects i = Some p)
      /\ outcome h s = Resolved newProjects
      /\ outcome (ApiService.getProjects env) (after h s)
         = Resolved (Some (map ApiService.ensureTasks newProjects))
  | None => h s = (Resolved projects, s)
  end.
Proof.
  intros Hu h. subst h. unfold Ui.handleReorderProjects.
  destruct (Ui.reorderProjects projects draggedId targetId) as [new|] eqn:E;
    [|reflexivity].
  unfold Ui.reorderProjects in E.
  destruct (draggedId =? targetId)%string; [discriminate|].
  destruct (Ui.findIndex (isProject draggedId) projects) as [di|] eqn:Ed; [|discriminate].
  destruct (Ui.findIndex (isProject targetId) projects) as [ti|] eqn:Et; [|discriminate].
  destruct (findIndex_found _ _ Ed) as (x & Hnx & Hfx & Hlx).
  destruct (findIndex_found _ _ Et) as (y & _ & _ & Hly).
  rewrite Hnx in E. injection E as <-.
  destruct (nth_error_split _ _ Hnx) as (l1 & l2 & Hsplit & Hlen).
  assert (Hrem : Ui.removeAt di projects = (l1 ++ l2)%list)
    by (subst projects di; apply removeAt_split).
  repeat split.
  - eapply Permutation_trans; [apply insertAt_perm|].
    rewrite Hrem, Hsplit. apply Permutation_middle.
  - exists ti, x. repeat split; [exact Hfx|].
    apply insertAt_nth. rewrite Hrem, length_app.
    rewrite Hsplit, length_app in Hly. simpl in Hly. lia.
  - destruct (apiService_readLocalData_total env s) as (d & s1 & Hread & _).
    unfold outcome, bind.
    now rewrite (@apiService_updateProjects_local env s s1 _ d Hu Hread).
  - destruct (apiService_readLocalData_total env s) as (d & s1 & Hread & _ & _ & Hf & _).
    unfold after, bind.
    rewrite (@apiService_updateProjects_local env s s1 _ d Hu Hread).
    cbn [snd ret]. unfold outcome.
    rewrite (@apiService_getProjects_local env
               (storeData s1 (JsonText (PDoc (withProjects d
                  (Some (Ui.insertAt ti x (Ui.removeAt di projects)))))))
               _ _
               ltac:(apply useSupabase_off_local; simpl; congruence)
               (@apiService_read_stored_projects env s1 d
                  (Ui.insertAt ti x (Ui.removeAt di projects)))).
    reflexivity.
Qed.

Lemma handleReorderProjects_permutes_and_persists_witness :
  Ui.reorderProjects ScenarioUi.board "a" "c"
  = Some [ Project.mk "b" "Beta" (Some []);
           Project.mk "c" "Gamma" (Some []);
           Project.mk "a" "Alpha" (Some []) ]
  /\ outcome (ApiService.getProjects Scenario5.env)
             (after (Ui.handleReorderProjects Scenario5.env ScenarioUi.board "a" "c")
                    Scenario5.start)
     = Resolved (Some [ Project.mk "b" "Beta" (Some []);
                        Project.mk "c" "Gamma" (Some []);
                        Project.mk "a" "Alpha" (Some []) ]).
Proof.
  split; [reflexivity|].
  pose proof (@handleReorderProjects_permutes_and_persists
                Scenario5.env Scenario5.start ScenarioUi.board "a" "c" eq_refl) as H.
  cbv zeta in H.
  change (Ui.reorderProjects ScenarioUi.board "a" "c")
    with (Some [ Project.mk "b" "Beta" (Some []);
                 Project.mk "c" "Gamma" (Some []);
                 Project.mk "a" "Alpha" (Some []) ]) in H at 1.
  cbv iota in H. destruct H as (_ & _ & _ & H). exact H.
Defined.

Lemma filterTasks_spec (keep : Task.t -> bool) (ps r : list Project.t) :
  Ui.filterTasks keep ps = Some r ->
  Forall2 (fun p p' => exists ts, Project.tasks p = Some ts
                                  /\ p' = withTasks p (Some (filter keep ts))) ps r.
Proof.
  revert r. induction ps as [|p ps IH]; simpl; intros r H.
  - injection H as <-. constructor.
  - destruct (Project.tasks p) as [ts|] eqn:Et; [|discriminate].
    destruct (Ui.filterTasks keep ps) as [r'|]; [|discriminate].
    injection H as <-. constructor; [now exists ts|now apply IH].
Qed.

Lemma Forall2_In_r {A B} (R : A -> B -> Prop) (l : list A) (l' : list B) (y : B) :
  Forall2 R l l' -> In y l' -> exists x, In x l /\ R x y.
Proof.
  induction 1 as [|a b l l' Hab _ IH]; simpl; [contradiction|].
  intros [<-|Hin]; [exists a; auto|].
  destruct (IH Hin) as (x & Hx & Hr). exists x; auto.
Qed.

Lemma Forall2_In_l {A B} (R : A -> B -> Prop) (l : list A) (l' : list B) (x : A) :
  Forall2 R l l' -> In x l -> exists y, In y l' /\ R x y.
Proof.
  induction 1 as [|a b l l' Hab _ IH]; simpl; [contradiction|].
  intros [<-|Hin]; [exists b; auto|].
  destruct (IH Hin) as (y & Hy & Hr). exists y; auto.
Qed.

Lemma keepTask_known (f : Ui.Filter.t) (employees : list Employee.t) (t : Task.t) :
  Ui.keepTask f employees t = true ->
  exists e, In e employees
            /\ Employee.id e = Task.employeeId t
            /\ (Ui.Filter.departmentId f = "all"
                \/ Employee.departmentId e = Ui.Filter.departmentId f)
            /\ (Ui.Filter.employeeId f = "all"
                \/ Employee.id e = Ui.Filter.employeeId f).
Proof.
  unfold Ui.keepTask, Ui.employeeMapGet.
  destruct (find _ (rev employees)) as [e|] eqn:Ef; [|discriminate].
  apply find_some in Ef. destruct Ef as [Hin Hid].
  apply in_rev in Hin. apply String.eqb_eq in Hid.
  intros H. exists e. split; [exact Hin|]. split; [exact Hid|].
  destruct (String.eqb_spec (Ui.Filter.departmentId f) "all") as [Hd|Hd];
    destruct (String.eqb_spec (Employee.departmentId e) (Ui.Filter.departmentId f))
      as [Hd'|Hd'];
    destruct (String.eqb_spec (Ui.Filter.employeeId f) "all") as [He|He];
    destruct (String.eqb_spec (Employee.id e) (Ui.Filter.employeeId f)) as [He'|He'];
    simpl in H; try discriminate; split; auto.
Qed.

(** X20.  What the board shows under a filter ([filteredProjects]).  With
    both filters on [all] the projects are shown as they are.  Otherwise
    every project shown is a project of the board restricted to the tasks
    that pass, and has at least one; every task of the board that passes is
    shown under its project; and a task passes only if its assignee is an
    employee of the list, of the filtered department and with the filtered
    id, so the tasks of employees that no longer exist are hidden. *)
Theorem filteredProjects_shows_matching_tasks
        (f : Ui.Filter.t) (employees : list Employee.t)
        (projects r : list Project.t) :
  Ui.filteredProjects f employees projects = Some r ->
  let keep := Ui.keepTask f employees in
  ((Ui.Filter.departmentId f = "all" /\ Ui.Filter.employeeId f = "all") ->
   r = projects)
  /\ (~ (Ui.Filter.departmentId f = "all" /\ Ui.Filter.employeeId f = "all") ->
      Forall (fun p' =>
                Ui.hasSomeTask p' = true
                /\ exists p ts, In p projects
                                /\ Project.tasks p = Some ts
                                /\ p' = withTasks p (Some (filter keep ts))) r
      /\ (forall p ts t,
             In p projects -> Project.tasks p = Some ts -> In t ts ->
             keep t = true ->
             exists p', In p' r /\ Project.id p' = Project.id p
                        /\ In t (or_empty (Project.tasks p'))))
  /\ (forall t,
         keep t = true ->
         exists e, In e employees
                   /\ Employee.id e = Task.employeeId t
                   /\ (Ui.Filter.departmentId f = "all"
                       \/ Employee.departmentId e = Ui.Filter.departmentId f)
                   /\ (Ui.Filter.employeeId f = "all"
                       \/ Employee.id e = Ui.Filter.employeeId f)).
Proof.
  intros H keep. subst keep. unfold Ui.filteredProjects in H.
  split; [|split].
  - intros [Hd He]. rewrite Hd, He in H. simpl in H. now injection H as <-.
  - intros Hact.
    assert (Hb : ((Ui.Filter.departmentId f =? "all")
                  && (Ui.Filter.employeeId f =? "all"))%string = false).
    { destruct (String.eqb_spec (Ui.Filter.departmentId f) "all");
        destruct (String.eqb_spec (Ui.Filter.employeeId f) "all");
        simpl; try reflexivity. tauto. }
    rewrite Hb in H.
    destruct (Ui.filterTasks (Ui.keepTask f employees) projects) as [r0|] eqn:E;
      [|discriminate].
    simpl in H. injection H as <-. apply filterTasks_spec in E. split.
    + rewrite Forall_forall. intros p' Hin. apply filter_In in Hin.
      destruct Hin as [Hin Hsome]. split; [exact Hsome|].
      destruct (@Forall2_In_r _ _ _ _ _ _ E Hin) as (p & Hp & ts & Hts & Heq).
      exists p, ts. auto.
    + intros p ts t Hp Hts Ht Hk.
      destruct (@Forall2_In_l _ _ _ _ _ _ E Hp) as (p' & Hp' & ts' & Hts' & Heq).
      rewrite Hts in Hts'. injection Hts' as <-.
      assert (Hin : In t (filter (Ui.keepTask f employees) ts))
        by (apply filter_In; auto).
      exists p'. subst p'. repeat split; [|exact Hin].
      apply filter_In. split; [exact Hp'|].
      unfold Ui.hasSomeTask. simpl.
      destruct (filter (Ui.keepTask f employees) ts); [contradiction|reflexivity].
  - intros t. apply keepTask_known.
Qed.

Lemma filteredProjects_shows_matching_tasks_witness :
  Ui.filteredProjects (Ui.Filter.mk "d1" "all") ScenarioUi.staff ScenarioUi.work
  = Some [Project.mk "a" "Alpha" (Some [ScenarioUi.byKim])]
  /\ Forall (fun p' => Ui.hasSomeTask p' = true)
            [Project.mk "a" "Alpha" (Some [ScenarioUi.byKim])].
Proof.
  split; [reflexivity|].
  destruct (@filteredProjects_shows_matching_tasks
              (Ui.Filter.mk "d1" "all") ScenarioUi.staff ScenarioUi.work
              [Project.mk "a" "Alpha" (Some [ScenarioUi.byKim])] eq_refl)
    as (_ & H & _).
  destruct (H ltac:(simpl; intros [Hd _]; discriminate)) as [Hall _].
  eapply Forall_impl; [|exact Hall]. intros p' [Hs _]. exact Hs.
Defined.

Lemma map_if_absent {A} (key : A -> string) (k : string) (g : A -> A) (l : list A) :
  ~ In k (map key l) ->
  map (fun x => if (key x =? k)%string then g x else x) l = l.
Proof.
  induction l as [|a l IH]; simpl; [reflexivity|]. intros Hn.
  destruct (String.eqb_spec (key a) k); [tauto|]. rewrite IH; tauto.
Qed.

Lemma map_if_update_first {A} (key : A -> string) (k : string) (g : A -> A)
      (l : list A) :
  NoDup (map key l) ->
  map (fun x => if (key x =? k)%string then g x else x) l
  = update_first (fun x => (key x =? k)%string) g l.
Proof.
  induction l as [|a l IH]; simpl; [reflexivity|]. intros Hnd.
  inversion Hnd as [|? ? Hn Hnd']; subst.
  destruct (String.eqb_spec (key a) k) as [<-|].
  - now rewrite map_if_absent.
  - now rewrite IH.
Qed.

Lemma optimisticProgress_map (projectId taskId : string) (n : Z) (ps : list Project.t) :
  forallb hasTasks ps = true ->
  Ui.optimisticProgress projectId taskId n ps
  = Some (map (fun p =>
                 if (Project.id p =? projectId)%string
                 then withTasks p
                        (option_map
                           (map (fun t => if isTask taskId t then Ui.setProgress n t else t))
                           (Project.tasks p))
                 else p) ps).
Proof.
  induction ps as [|p ps IH]; simpl; [reflexivity|].
  rewrite andb_true_iff. intros [Hp Hps]. rewrite (IH Hps).
  unfold isProject, hasTasks in *.
  destruct (Project.id p =? projectId)%string; [|reflexivity].
  destruct (Project.tasks p); [reflexivity|discriminate].
Qed.

(** X21.  The optimistic update of [handleProgressChange] shows what the
    local store will hold: when the stored projects have distinct ids and
    the tasks of the project distinct ids, the list the board switches to
    before [updateTask] runs is the list [getProjects] resolves with after
    it, so no refetch is needed.  (The board patches every project and
    task of the given ids, the store only the first of each.) *)
Theorem optimistic_progress_agrees_with_store
        (env : Env.t) (s : State.t) (projectId taskId : string) (n : Z)
        (d : AppData.t) (ps : list Project.t) (p : Project.t)
        (ts : list Task.t) (t : Task.t) :
  remote s = false ->
  outcome (ApiService.readLocalData env) s = Resolved d ->
  AppData.projects d = Some ps ->
  NoDup (map Project.id ps) ->
  find (isProject projectId) ps = Some p ->
  Project.tasks p = Some ts ->
  NoDup (map Task.id ts) ->
  find (isTask taskId) ts = Some t ->
  exists shown,
    Ui.optimisticProgress projectId taskId n ps = Some shown
    /\ outcome (ApiService.getProjects env)
               (after (ApiService.updateTask env projectId taskId (progressPatch n None)) s)
       = Resolved (Some shown)
    /\ lookupTask (withProjects d (Some shown)) projectId taskId
       = Some (Ui.setProgress n t).
Proof.
  intros Hr Hd Hps Hnd Hp Hts Hndt Ht.
  destruct (@apiService_read_outcome env s d Hd) as (Hs & s1 & Hread & Hr1).
  assert (Hlook : lookupTask d projectId taskId = Some t).
  { unfold lookupTask, lookupProject. now rewrite Hps, Hp, Hts. }
  assert (Hshape : forallb hasTasks ps = true)
    by (unfold wellShaped in Hs; now rewrite Hps in Hs).
  set (u := progressPatch n None).
  assert (Hproj : AppData.projects (patchTask d projectId taskId u)
                  = Some (update_first (isProject projectId)
                            (fun q => withTasks q
                               (option_map
                                  (update_first (isTask taskId) (fun x => assign x u))
                                  (Project.tasks q))) ps))
    by (unfold patchTask; simpl; now rewrite Hps).
  exists (update_first (isProject projectId)
            (fun q => withTasks q
               (option_map (update_first (isTask taskId) (fun x => assign x u))
                           (Project.tasks q))) ps).
  split; [|split].
  - rewrite (optimisticProgress_map projectId taskId n ps Hshape). f_equal.
    rewrite (map_if_update_first Project.id projectId _ ps Hnd).
    apply update_first_ext. intros q Hq. unfold isProject in Hp.
    rewrite Hp in Hq. injection Hq as <-. rewrite Hts. simpl. do 2 f_equal.
    apply (map_if_update_first Task.id taskId (Ui.setProgress n) ts Hndt).
  - unfold after.
    rewrite (@apiService_updateTask_local env s s1 projectId taskId u d t Hr Hread Hlook).
    cbn [snd]. unfold outcome.
    rewrite (@apiService_getProjects_local env
               (storeData s1 (JsonText (PDoc (patchTask d projectId taskId u))))
               (storeData s1 (JsonText (PDoc (patchTask d projectId taskId u))))
               (patchTask d projectId taskId u)
               ltac:(rewrite remote_storeData; congruence)
               (@apiService_read_after_write env s1 _
                  (@wellShaped_patchTask d projectId taskId u Hs))).
    now rewrite Hproj.
  - pose proof (@lookupTask_patchTask d projectId taskId u t eq_refl Hlook) as Hl.
    unfold patchTask in Hl. rewrite Hps in Hl. exact Hl.
Qed.

Lemma optimistic_progress_agrees_with_store_witness :
  exists shown,
    Ui.optimisticProgress "project-1" "task-1" 42
      [Project.mk "project-1" "Launch" (Some [Scenario5.design])] = Some shown
    /\ outcome (ApiService.getProjects Scenario5.env)
               (after (ApiService.updateTask Scenario5.env "project-1" "task-1"
                         (progressPatch 42 None)) Scenario5.start)
       = Resolved (Some shown)
    /\ lookupTask (withProjects Scenario5.board (Some shown)) "project-1" "task-1"
       = Some (Ui.setProgress 42 Scenario5.design).
Proof.
  apply (@optimistic_progress_agrees_with_store
           Scenario5.env Scenario5.start "project-1" "task-1" 42 Scenario5.board
           [Project.mk "project-1" "Launch" (Some [Scenario5.design])]
           (Project.mk "project-1" "Launch" (Some [Scenario5.design]))
           [Scenario5.design] Scenario5.design);
    try reflexivity;
    repeat constructor; simpl; tauto.
Defined.

Lemma find_update_first_other {A} (f h : A -> bool) (g : A -> A) (l : list A) :
  (forall x, h (g x) = h x) ->
  (forall x, f x = true -> h x = false) ->
  find h (update_first f g l) = find h l.
Proof.
  intros Hg Hf. induction l as [|x r IH]; simpl; [reflexivity|].
  destruct (f x) eqn:E; simpl.
  - now rewrite Hg, (Hf x E).
  - now rewrite IH.
Qed.

Lemma map_update_first_same {A B} (key : A -> B) (f : A -> bool) (g : A -> A)
      (l : list A) :
  (forall x, key (g x) = key x) ->
  map key (update_first f g l) = map key l.
Proof.
  intros Hg. induction l as [|x r IH]; simpl; [reflexivity|].
  destruct (f x); simpl; [now rewrite Hg|now rewrite IH].
Qed.

Lemma isProject_other (projectId other : string) (p : Project.t) :
  other <> projectId -> isProject projectId p = true -> isProject other p = false.
Proof.
  unfold isProject. intros Hne Hp. apply String.eqb_eq in Hp.
  apply String.eqb_neq. congruence.
Qed.

Lemma part002_read_stored (env : Env.t) (s : State.t) (d : AppData.t) :
  Part002.readLocalData env (storeData s (JsonText (PDoc d)))
  = (Resolved (PDoc d), storeData s (JsonText (PDoc d))).
Proof. now rewrite part002_readLocalData_cases. Qed.

Lemma apiService_updateProject_local (env : Env.t) (s s1 : State.t)
      (projectId projectName : string) (d : AppData.t) (ps : list Project.t)
      (p : Project.t) :
  remote s = false ->
  ApiService.readLocalData env s = (Resolved d, s1) ->
  AppData.projects d = Some ps ->
  find (isProject projectId) ps = Some p ->
  ApiService.updateProject env projectId projectName s
  = (Resolved (withName p projectName),
     storeData s1
       (JsonText (PDoc (withProjects d
          (Some (update_first (isProject projectId)
                   (fun q => withName q projectName) ps)))))).
Proof.
  intros Hr Hd Hps Hp.
  unfold ApiService.updateProject, bind, get_state. cbv beta iota.
  rewrite Hr, Hd, Hps. simpl. now rewrite Hp.
Qed.

Lemma part002_updateProject_local (env : Env.t) (s : State.t)
      (projectId projectName : string) (d : AppData.t) (ps : list Project.t) :
  remote s = false ->
  outcome (Part002.readLocalData env) s = Resolved (PDoc d) ->
  AppData.projects d = Some ps ->
  Part002.updateProject env projectId projectName s
  = (Resolved (Project.mk projectId projectName (Some [])),
     storeData s
       (JsonText (PDoc (withProjects d
          (Some (update_first (isProject projectId)
                   (fun q => withName q projectName) ps)))))).
Proof.
  intros Hr Hd Hps. apply part002_read_outcome in Hd.
  unfold Part002.updateProject, bind, get_state. cbv beta iota.
  rewrite Hr, Hd. cbn [Part002.members]. rewrite Hps. reflexivity.
Qed.

(** X22.  Renaming a project on the local store changes the name of the
    project [find] reaches and nothing else: its tasks, the other
    projects, the order of the list and the organisation stay.  The two
    revisions store the same dataset but answer differently:
    [updateProject] of [apiService.ts] resolves with the stored project,
    tasks included, the one of part_002 with a project of no tasks. *)
Theorem updateProject_renames_and_keeps_tasks
        (env : Env.t) (s : State.t) (projectId projectName other : string)
        (d : AppData.t) (p : Project.t) :
  remote s = false ->
  outcome (ApiService.readLocalData env) s = Resolved d ->
  outcome (Part002.readLocalData env) s = Resolved (PDoc d) ->
  lookupProject d projectId = Some p ->
  other <> projectId ->
  exists d',
    outcome (ApiService.updateProject env projectId projectName) s
    = Resolved (withName p projectName)
    /\ outcome (ApiService.readLocalData env)
               (after (ApiService.updateProject env projectId projectName) s)
       = Resolved d'
    /\ Part002.updateProject env projectId projectName s
       = (Resolved (Project.mk projectId projectName (Some [])),
          storeData s (JsonText (PDoc d')))
    /\ lookupProject d' projectId = Some (withName p projectName)
    /\ (forall taskId, lookupTask d' projectId taskId = lookupTask d projectId taskId)
    /\ lookupProject d' other = lookupProject d other
    /\ option_map (map Project.id) (AppData.projects d')
       = option_map (map Project.id) (AppData.projects d)
    /\ AppData.departments d' = AppData.departments d
    /\ AppData.employees d' = AppData.employees d.
Proof.
  intros Hr Hd Hd2 Hp Hne.
  destruct (@apiService_read_outcome env s d Hd) as (Hs & s1 & Hread & Hr1).
  destruct (wellShaped_projects d Hs) as (ps & Eps).
  unfold lookupProject in Hp. rewrite Eps in Hp.
  set (ps' := update_first (isProject projectId) (fun q => withName q projectName) ps).
  assert (Hfind : find (isProject projectId) ps' = Some (withName p projectName)).
  { unfold ps'. rewrite find_update_first by (intros x Hx; exact Hx).
    now rewrite Hp. }
  assert (Hshape : wellShaped (withProjects d (Some ps')) = true).
  { unfold wellShaped in *. rewrite Eps in Hs. simpl. unfold ps'.
    clear -Hs. induction ps as [|x r IH]; simpl in *; [reflexivity|].
    apply andb_true_iff in Hs as [Hx Hrest].
    destruct (isProject projectId x); simpl.
    - unfold hasTasks in *. simpl. now rewrite Hx.
    - now rewrite Hx, IH. }
  exists (withProjects d (Some ps')).
  split; [|split; [|split; [|split; [|split; [|split; [|split; [|split]]]]]]].
  - unfold outcome.
    now rewrite (@apiService_updateProject_local env s s1 projectId projectName d ps p
                   Hr Hread Eps Hp).
  - unfold after.
    rewrite (@apiService_updateProject_local env s s1 projectId projectName d ps p
               Hr Hread Eps Hp).
    cbn [snd]. fold ps'. unfold outcome.
    now rewrite (@apiService_read_after_write env s1 _ Hshape).
  - exact (@part002_updateProject_local env s projectId projectName d ps Hr Hd2 Eps).
  - unfold lookupProject. simpl. exact Hfind.
  - intros taskId. unfold lookupTask, lookupProject. simpl.
    now rewrite Eps, Hfind, Hp.
  - unfold lookupProject. simpl. rewrite Eps. unfold ps'.
    apply find_update_first_other; [reflexivity|].
    intros x Hx. exact (@isProject_other projectId other x Hne Hx).
  - simpl. rewrite Eps. simpl. f_equal. unfold ps'.
    now apply map_update_first_same.
  - reflexivity.
  - reflexivity.
Qed.

Lemma updateProject_renames_and_keeps_tasks_witness :
  exists d',
    outcome (ApiService.updateProject Scenario5.env "project-1" "Relaunch")
            Scenario5.start
    = Resolved (Project.mk "project-1" "Relaunch" (Some [Scenario5.design]))
    /\ Part002.updateProject Scenario5.env "project-1" "Relaunch" Scenario5.start
       = (Resolved (Project.mk "project-1" "Relaunch" (Some [])),
          storeData Scenario5.start (JsonText (PDoc d')))
    /\ lookupTask d' "project-1" "task-1" = Some Scenario5.design.
Proof.
  destruct (@updateProject_renames_and_keeps_tasks
              Scenario5.env Scenario5.start "project-1" "Relaunch" "project-2"
              Scenario5.board
              (Project.mk "project-1" "Launch" (Some [Scenario5.design]))
              eq_refl eq_refl eq_refl eq_refl ltac:(discriminate))
    as (d' & H1 & _ & H3 & _ & H5 & _).
  exists d'. split; [exact H1|split; [exact H3|]].
  rewrite (H5 "task-1"). reflexivity.
Defined.

(** X23.  [updateTaskPositions] of part_002 on the local store puts the
    given list in the place of the tasks of the project [find] reaches,
    as it is: the next [getProjects] shows that project with exactly the
    tasks given, in the order given, and every other project and the order
    of the projects as before.  When no project has the id the call
    resolves and the dataset is stored unchanged. *)
Theorem part002_updateTaskPositions_replaces_task_list
        (env : Env.t) (s : State.t) (projectId other : string)
        (tasks : list Task.t) (d : AppData.t) (ps : list Project.t) :
  remote s = false ->
  outcome (Part002.readLocalData env) s = Resolved (PDoc d) ->
  AppData.projects d = Some ps ->
  other <> projectId ->
  let s' := after (Part002.updateTaskPositions env projectId tasks) s in
  outcome (Part002.updateTaskPositions env projectId tasks) s = Resolved tt
  /\ exists ps',
      outcome (Part002.getProjects env) s' = Resolved (Some ps')
      /\ find (isProject projectId) ps'
         = option_map (fun p => withTasks p (Some tasks)) (find (isProject projectId) ps)
      /\ find (isProject other) ps' = find (isProject other) ps
      /\ map Project.id ps' = map Project.id ps
      /\ (find (isProject projectId) ps = None -> ps' = ps)
      /\ State.dataItem s' = JsonText (PDoc (withProjects d (Some ps'))).
Proof.
  intros Hr Hd Hps Hne s'. apply part002_read_outcome in Hd.
  set (ps' := update_first (isProject projectId) (fun p => withTasks p (Some tasks)) ps).
  assert (Hrun : Part002.updateTaskPositions env projectId tasks s
                 = (Resolved tt, storeData s (JsonText (PDoc (withProjects d (Some ps')))))).
  { unfold Part002.updateTaskPositions, bind, get_state. cbv beta iota.
    rewrite Hr, Hd. cbn [Part002.members]. rewrite Hps. reflexivity. }
  split; [unfold outcome; now rewrite Hrun|].
  exists ps'. unfold s', after. rewrite Hrun. cbn [snd].
  split; [|split; [|split; [|split; [|split]]]].
  - unfold outcome, Part002.getProjects, bind, get_state. cbv beta iota.
    rewrite remote_storeData, Hr, part002_read_stored. reflexivity.
  - unfold ps'. apply find_update_first. intros x Hx. exact Hx.
  - unfold ps'. apply find_update_first_other; [reflexivity|].
    intros x Hx. exact (@isProject_other projectId other x Hne Hx).
  - unfold ps'. now apply map_update_first_same.
  - intros Hnone. unfold ps'. now apply update_first_absent.
  - reflexivity.
Qed.

Lemma part002_updateTaskPositions_replaces_task_list_witness :
  exists ps',
    outcome (Part002.getProjects Scenario5.env)
            (after (Part002.updateTaskPositions Scenario5.env "project-1"
                      [ScenarioUi.byLee; ScenarioUi.byKim]) Scenario5.start)
    = Resolved (Some ps')
    /\ find (isProject "project-1") ps'
       = Some (Project.mk "project-1" "Launch"
                          (Some [ScenarioUi.byLee; ScenarioUi.byKim])).
Proof.
  destruct (@part002_updateTaskPositions_replaces_task_list
              Scenario5.env Scenario5.start "project-1" "project-2"
              [ScenarioUi.byLee; ScenarioUi.byKim] Scenario5.board
              [Project.mk "project-1" "Launch" (Some [Scenario5.design])]
              eq_refl eq_refl eq_refl ltac:(discriminate))
    as (_ & ps' & H1 & H2 & _).
  exists ps'. split; [exact H1|exact H2].
Defined.

Lemma part002_addEmployee_local (env : Env.t) (s : State.t) (now : Z)
      (name departmentId : string) (d : AppData.t) (es : list Employee.t) :
  remote s = false ->
  outcome (Part002.readLocalData env) s = Resolved (PDoc d) ->
  AppData.employees d = Some es ->
  Part002.addEmployee env now name departmentId s
  = (Resolved (Employee.mk ("emp-" ++ string_of_Z now) name departmentId),
     storeData s
       (JsonText (PDoc (AppData.mk (AppData.projects d) (AppData.departments d)
          (Some (es ++ [Employee.mk ("emp-" ++ string_of_Z now) name departmentId])%list))))).
Proof.
  intros Hr Hd Hes. apply part002_read_outcome in Hd.
  unfold Part002.addEmployee, bind, get_state. cbv beta iota.
  rewrite Hr, Hd. cbn [Part002.members]. rewrite Hes. reflexivity.
Qed.

Lemma part002_deleteEmployee_local (env : Env.t) (s : State.t) (id : string)
      (d : AppData.t) (es : list Employee.t) :
  remote s = false ->
  outcome (Part002.readLocalData env) s = Resolved (PDoc d) ->
  AppData.employees d = Some es ->
  Part002.deleteEmployee env id s
  = (Resolved tt,
     storeData s
       (JsonText (PDoc (AppData.mk (AppData.projects d) (AppData.departments d)
          (Some (filter (fun e => negb (Employee.id e =? id)%string) es)))))).
Proof.
  intros Hr Hd Hes. apply part002_read_outcome in Hd.
  unfold Part002.deleteEmployee, bind, get_state. cbv beta iota.
  rewrite Hr, Hd. cbn [Part002.members]. rewrite Hes. reflexivity.
Qed.

(** X24.  Hiring and dismissing on the local store of part_002.
    [addEmployee] appends the new employee to the list of employees and
    leaves the departments as they are, so the member list of the
    department named is not extended; [deleteEmployee] of the id just
    created then restores the stored dataset, provided no employee carried
    the id [emp-<now>] before (the filter would take that one out as
    well). *)
Theorem part002_addEmployee_then_deleteEmployee
        (env : Env.t) (s : State.t) (now : Z) (name departmentId : string)
        (d : AppData.t) (es : list Employee.t) :
  remote s = false ->
  outcome (Part002.readLocalData env) s = Resolved (PDoc d) ->
  AppData.employees d = Some es ->
  find (fun e => (Employee.id e =? "emp-" ++ string_of_Z now)%string) es = None ->
  let hired := Employee.mk ("emp-" ++ string_of_Z now) name departmentId in
  let s1 := after (Part002.addEmployee env now name departmentId) s in
  let s2 := after (Part002.deleteEmployee env (Employee.id hired)) s1 in
  outcome (Part002.addEmployee env now name departmentId) s = Resolved hired
  /\ outcome (Part002.getEmployees env) s1 = Resolved (Some (es ++ [hired])%list)
  /\ outcome (Part002.getDepartments env) s1 = Resolved (AppData.departments d)
  /\ outcome (Part002.getProjects env) s1 = Resolved (AppData.projects d)
  /\ outcome (Part002.getEmployees env) s2 = Resolved (Some es)
  /\ State.dataItem s2 = JsonText (PDoc d).
Proof.
  intros Hr Hd Hes Hfresh hired s1 s2.
  pose proof (@part002_addEmployee_local env s now name departmentId d es Hr Hd Hes)
    as Hadd.
  fold hired in Hadd.
  set (d1 := AppData.mk (AppData.projects d) (AppData.departments d)
                        (Some (es ++ [hired])%list)) in *.
  assert (Hs1 : s1 = storeData s (JsonText (PDoc d1)))
    by (unfold s1, after; now rewrite Hadd).
  assert (Hr1 : remote s1 = false) by (rewrite Hs1, remote_storeData; exact Hr).
  assert (Hd1 : outcome (Part002.readLocalData env) s1 = Resolved (PDoc d1))
    by (unfold outcome; rewrite Hs1, part002_read_stored; reflexivity).
  pose proof (@part002_deleteEmployee_local env s1 (Employee.id hired) d1
                (es ++ [hired])%list Hr1 Hd1 eq_refl) as Hdel.
  assert (Hback : filter (fun e => negb (Employee.id e =? Employee.id hired)%string)
                         (es ++ [hired])%list = es).
  { rewrite filter_app.
    rewrite (@filter_absent _ (fun e => (Employee.id e =? Employee.id hired)%string) es Hfresh).
    simpl. rewrite String.eqb_refl. simpl. apply app_nil_r. }
  rewrite Hback in Hdel.
  assert (Hs2 : State.dataItem s2 = JsonText (PDoc d)).
  { unfold s2, after. rewrite Hdel. cbn [snd]. simpl.
    destruct d as [p0 d0 e0]. simpl in *. now rewrite Hes. }
  split; [unfold outcome; now rewrite Hadd|].
  split; [|split; [|split; [|split; [|exact Hs2]]]].
  - unfold outcome, Part002.getEmployees, bind, get_state. cbv beta iota.
    rewrite Hr1, Hs1, part002_read_stored. reflexivity.
  - unfold outcome, Part002.getDepartments, bind, get_state. cbv beta iota.
    rewrite Hr1, Hs1, part002_read_stored. reflexivity.
  - unfold outcome, Part002.getProjects, bind, get_state. cbv beta iota.
    rewrite Hr1, Hs1, part002_read_stored. reflexivity.
  - assert (Hr2 : remote s2 = false)
      by (unfold s2, after; rewrite Hdel; cbn [snd]; rewrite remote_storeData; exact Hr1).
    unfold outcome, Part002.getEmployees, bind, get_state. cbv beta iota.
    rewrite Hr2, part002_readLocalData_cases, Hs2. simpl. now rewrite Hes.
Qed.

Lemma part002_addEmployee_then_deleteEmployee_witness :
  let hired := Employee.mk "emp-1704067200123" "Park" "dept-1" in
  let s1 := after (Part002.addEmployee Scenario5.env Scenario8.now "Park" "dept-1")
                  Scenario6.start in
  outcome (Part002.getEmployees Scenario5.env) s1
  = Resolved (Some [Scenario6.kim; Scenario6.lee; hired])
  /\ outcome (Part002.getDepartments Scenario5.env) s1
     = Resolved (Some [Department.mk "dept-1" "Ops" []; Department.mk "dept-2" "Legal" []])
  /\ State.dataItem (after (Part002.deleteEmployee Scenario5.env "emp-1704067200123") s1)
     = JsonText (PDoc Scenario6.organisation).
Proof.
  destruct (@part002_addEmployee_then_deleteEmployee
              Scenario5.env Scenario6.start Scenario8.now "Park" "dept-1"
              Scenario6.organisation [Scenario6.kim; Scenario6.lee]
              eq_refl eq_refl eq_refl eq_refl)
    as (_ & H2 & H3 & _ & _ & H6).
  split; [exact H2|split; [exact H3|exact H6]].
Defined.

Lemma apiService_initSupabase_resolves (env : Env.t) (s : State.t) (url key : string) :
  outcome (ApiService.initSupabase env url key) s = Resolved tt.
Proof.
  unfold outcome, ApiService.initSupabase.
  destruct (truthy (or_else (Env.GLOBAL_SUPABASE_URL env) url)
            && truthy (or_else (Env.GLOBAL_SUPABASE_KEY env) key)).
  - destruct (Env.createClient env _ _);
      destruct (truthy (Env.GLOBAL_SUPABASE_URL env)); reflexivity.
  - destruct (truthy (Env.GLOBAL_SUPABASE_URL env)); reflexivity.
Qed.

Lemma initSupabaseFromUrl_both (env : Env.t) (s : State.t) (u k : string) :
  truthy u && truthy k = true ->
  Boot.initSupabaseFromUrl env (Some (Some u, Some k)) s
  = (Resolved true, after (ApiService.initSupabase env u k) s).
Proof.
  intros Hb. unfold Boot.initSupabaseFromUrl. rewrite Hb.
  pose proof (apiService_initSupabase_resolves env s u k) as Hres.
  unfold outcome in Hres. unfold after, bind.
  destruct (ApiService.initSupabase env u k s) as [o s1]. simpl in *.
  now rewrite Hres.
Qed.

(** X25.  The answer of [initSupabaseFromUrl] tells whether the address
    carried both parameters, not whether a connection was made.  With a
    non-empty [sbUrl] and [sbKey] it resolves with [true] and leaves the
    state [initSupabase] leaves: when the client constructor throws the
    answer is still [true] while the operations stay local, and under a
    global configuration the parameters of the link are not used.  In
    every other case it resolves with [false] and changes nothing. *)
Theorem initSupabaseFromUrl_reports_parameters
        (env : Env.t) (s : State.t) (window : option (option string * option string)) :
  let m := Boot.initSupabaseFromUrl env window in
  let both :=
    match window with
    | Some (Some u, Some k) => truthy u && truthy k
    | _ => false
    end in
  outcome m s = Resolved both
  /\ (both = false -> after m s = s)
  /\ (forall u k,
         window = Some (Some u, Some k) -> both = true ->
         after m s = after (ApiService.initSupabase env u k) s
         /\ (Env.createClient env (or_else (Env.GLOBAL_SUPABASE_URL env) u)
                              (or_else (Env.GLOBAL_SUPABASE_KEY env) k) = None ->
             remote (after m s) = false)
         /\ (Boot.isGlobalConfigured env = true ->
             after m s = after (ApiService.initSupabase env "" "") s)).
Proof.
  intros m both. subst m both. split; [|split].
  - destruct window as [[[u|] [k|]]|]; try reflexivity.
    destruct (truthy u && truthy k) eqn:Hb.
    + unfold outcome. now rewrite (@initSupabaseFromUrl_both env s u k Hb).
    + unfold outcome, Boot.initSupabaseFromUrl. now rewrite Hb.
  - destruct window as [[[u|] [k|]]|]; try reflexivity.
    intros Hb. unfold after, Boot.initSupabaseFromUrl. now rewrite Hb.
  - intros u k -> Hb.
    assert (Hafter : after (Boot.initSupabaseFromUrl env (Some (Some u, Some k))) s
                     = after (ApiService.initSupabase env u k) s)
      by (unfold after at 1; now rewrite (@initSupabaseFromUrl_both env s u k Hb)).
    rewrite Hafter. split; [reflexivity|split].
    + intros Hc. apply andb_true_iff in Hb as [Hu Hk].
      assert (Htu : truthy (or_else (Env.GLOBAL_SUPABASE_URL env) u) = true)
        by (unfold or_else; destruct (truthy (Env.GLOBAL_SUPABASE_URL env)) eqn:E; assumption).
      assert (Htk : truthy (or_else (Env.GLOBAL_SUPABASE_KEY env) k) = true)
        by (unfold or_else; destruct (truthy (Env.GLOBAL_SUPABASE_KEY env)) eqn:E; assumption).
      unfold after, ApiService.initSupabase. rewrite Htu, Htk, Hc. reflexivity.
    + unfold Boot.isGlobalConfigured. rewrite andb_true_iff. intros [Hgu Hgk].
      unfold after, ApiService.initSupabase.
      now rewrite (@or_else_truthy _ u Hgu), (@or_else_truthy _ k Hgk),
        (@or_else_truthy _ "" Hgu), (@or_else_truthy _ "" Hgk).
Qed.

Lemma initSupabaseFromUrl_reports_parameters_witness :
  let env := Env.mk "" "" (fun _ _ => None) Scenario.someDay Scenario.dayNumber
                    (fun _ => Scenario.someDay) Scenario.backendWithoutPosition in
  let m := Boot.initSupabaseFromUrl env (Some (Some "not a url", Some "anon")) in
  outcome m (Scenario.offline NoItem) = Resolved true
  /\ remote (after m (Scenario.offline NoItem)) = false.
Proof.
  pose proof (@initSupabaseFromUrl_reports_parameters
                (Env.mk "" "" (fun _ _ => None) Scenario.someDay Scenario.dayNumber
                        (fun _ => Scenario.someDay) Scenario.backendWithoutPosition)
                (Scenario.offline NoItem) (Some (Some "not a url", Some "anon"))) as H.
  cbv zeta in H. destruct H as (H1 & _ & H3).
  split; [exact H1|].
  destruct (H3 "not a url" "anon" eq_refl eq_refl) as (_ & Hc & _).
  apply Hc. reflexivity.
Defined.
